(** * The spaced-repetition / adaptive-review engine of the Japanese learning
      platform

    A shallow embedding of
    - [calculateSM2] of [src/lib/database/functions/srs.ts], and
    - the classes [SM2Algorithm], [RetentionPredictor], [ItemSelector],
      [DifficultyAdjuster] and [LearningEngineCoordinator] of the
      progressive-learning-engine document
      ([ins/FINAL_COMPLETION_SUMMARY.md]),
    followed by the properties the specification states about them.

    Modelling conventions.
    - A JavaScript [number] is an exact rational ([Q]).  Equality of numbers
      is [Qeq] ([==]).  The rounding of IEEE doubles and [NaN] are modelled
      where a property depends on them: the selector's priority score is an
      [option] whose [None] is [NaN], and the session average of the
      difficulty adjuster is computed with the rounding of doubles
      ([Double]).  Elsewhere they are outside the model, and so are the
      infinities.
    - [Math.round x] is [floor (x + 1/2)] (ties go up, as in ECMAScript).
    - A [throw] is the [Throw] outcome of a [completion]; a normal return is
      [Normal].
    - [await]ed collaborators (the "in practice, fetch from database" stubs)
      and the clock are explicit arguments. *)

From Stdlib Require Import QArith Qround Qabs Qpower Lqa ZArith Lia.
From Stdlib Require Import List String Bool DecimalString.
From Stdlib Require Import Sorting.Permutation Sorting.Sorted.
Import ListNotations.

Local Open Scope Q_scope.

(** ** JavaScript numbers and the [Math] functions the engine calls *)

Module JS.

Definition number := Q.

(** The relational operators of the source, as booleans. *)
Definition ltb (x y : number) : bool := negb (Qle_bool y x).
Definition gtb (x y : number) : bool := ltb y x.
Definition leb (x y : number) : bool := Qle_bool x y.
Definition geb (x y : number) : bool := leb y x.
Definition strict_eq (x y : number) : bool := Qeq_bool x y.

(** [Math.round], [Math.abs], [Math.max], [Math.min]. *)
Definition Math_round (x : number) : number := inject_Z (Qfloor (x + (1 # 2))).
Definition Math_abs (x : number) : number := Qabs x.
Definition Math_max (x y : number) : number := if ltb x y then y else x.
Definition Math_min (x y : number) : number := if ltb y x then y else x.

(** A number in a boolean position: [0] is falsy, everything else truthy. *)
Definition truthy (x : number) : bool := negb (Qeq_bool x 0).

(** The outcome of a call: a returned value or a thrown [Error]. *)
Inductive completion (A : Type) : Type :=
| Normal (a : A)
| Throw (message : string).
#[global] Arguments Normal {A} a.
#[global] Arguments Throw {A} message.

Definition returns {A : Type} (c : completion A) : bool :=
  match c with Normal _ => true | Throw _ => false end.

Definition throws {A : Type} (c : completion A) : bool :=
  negb (returns c).

End JS.

Import JS.

Declare Scope js_scope.
Delimit Scope js_scope with js.
Infix "<?" := ltb (at level 70, no associativity) : js_scope.
Infix ">?" := gtb (at level 70, no associativity) : js_scope.
Infix "<=?" := leb (at level 70, no associativity) : js_scope.
Infix ">=?" := geb (at level 70, no associativity) : js_scope.
Infix "===" := strict_eq (at level 70, no associativity) : js_scope.
Local Open Scope js_scope.

(** ** The rounding of doubles *)

(** Where a property depends on what an operation rounds to, the operation
    is modelled with its rounding: the result of an arithmetic operation on
    doubles is the double nearest to the exact result (IEEE 754 binary64,
    round to nearest, ties to even), and so is the value of a decimal
    literal.  The exponent is not bounded here: overflow to [Infinity] and
    the reduced precision of subnormal numbers (below [2^-1022]) are outside
    the model. *)
Module Double.

(** [floor (log2 x)], for [x > 0]. *)
Definition exponent (x : Q) : Z :=
  let e := (Z.log2 (Qnum x) - Z.log2 (Zpos (Qden x)))%Z in
  if Qle_bool (2 ^ e) x then e else (e - 1)%Z.

(** The integer nearest to [x]; of two that are as near, the even one. *)
Definition nearest_even (x : Q) : Z :=
  let below := Qfloor x in
  let rest := x - inject_Z below in
  if rest <? 1 # 2 then below
  else if (1 # 2) <? rest then (below + 1)%Z
  else if Z.even below then below else (below + 1)%Z.

(** The double nearest to [x]: [x] rounded to 53 significant bits. *)
Definition round (x : Q) : number :=
  if Qeq_bool x 0 then 0
  else
    let ulp := 2 ^ (exponent (Qabs x) - 52) in
    Qred (inject_Z (nearest_even (x / ulp)) * ulp).

(** [x + y], [x * y] and [x / y] on doubles. *)
Definition add (x y : number) : number := round (x + y).
Definition mul (x y : number) : number := round (x * y).
Definition div (x y : number) : number := round (x / y).

End Double.

(** ** [srs.ts]: the SM-2 step used by the application *)

Module Srs.

Record SM2 : Type := mkSM2 {
  interval : number;
  repetitions : number;
  easeFactor : number
}.

(** [calculateSM2 (quality, repetitions, easeFactor, interval)]. *)
Definition calculateSM2 (quality repetitions easeFactor interval : number)
  : SM2 :=
  let newEaseFactor :=
    easeFactor + (0.1 - (5 - quality) * (0.08 + (5 - quality) * 0.02)) in
  let newEaseFactor :=
    if newEaseFactor <? 1.3 then 1.3 else newEaseFactor in
  if quality <? 3 then
    {| interval := 1; repetitions := 0; easeFactor := newEaseFactor |}
  else
    let newRepetitions := repetitions + 1 in
    let newInterval :=
      if newRepetitions === 1 then 1
      else if newRepetitions === 2 then 6
      else Math_round (interval * newEaseFactor) in
    {| interval := newInterval;
       repetitions := newRepetitions;
       easeFactor := newEaseFactor |}.

(** The outcome of a call of [calculateSM2]: its body has no [throw] and
    calls nothing but [Math.round], so every call returns. *)
Definition calculateSM2_call (quality repetitions easeFactor interval : number)
  : completion SM2 :=
  Normal (calculateSM2 quality repetitions easeFactor interval).

(** A run of reviews of one card: [useSRS.reviewCard] calls [calculateSM2]
    on the card's repetitions, ease factor and interval, and each result is
    the state the next review starts from. *)
Definition review (card : SM2) (quality : number) : SM2 :=
  calculateSM2 quality (repetitions card) (easeFactor card) (interval card).

Definition reviews (card : SM2) (qualities : list number) : SM2 :=
  fold_left review qualities card.

End Srs.

(** ** The engine document: [SM2Algorithm] *)

Module SM2Algorithm.

Record SRSParams : Type := mkSRSParams {
  interval : number;
  repetitions : number;
  easeFactor : number;
  nextReviewDate : number
}.

(** [calculateNextReviewDate]: dates are counted in days; [today] is the
    reading of [new Date()]. *)
Definition calculateNextReviewDate (today daysFromNow : number) : number :=
  today + daysFromNow.

(** [calculateNextReview (quality, repetitions, previousInterval,
    easeFactor)]. *)
Definition calculateNextReview (today : number)
    (quality repetitions previousInterval easeFactor : number)
  : completion SRSParams :=
  if (quality <? 0) || (quality >? 5) then
    Throw "Quality must be between 0 and 5"
  else
    let '(newInterval, newRepetitions) :=
      if quality <? 3 then (1, 0)
      else
        let newRepetitions := repetitions + 1 in
        if newRepetitions === 1 then (1, newRepetitions)
        else if newRepetitions === 2 then (6, newRepetitions)
        else (Math_round (previousInterval * easeFactor), newRepetitions) in
    let newEaseFactor :=
      easeFactor + (0.1 - (5 - quality) * (0.08 + (5 - quality) * 0.02)) in
    let newEaseFactor :=
      if newEaseFactor <? 1.3 then 1.3 else newEaseFactor in
    Normal {| interval := newInterval;
              repetitions := newRepetitions;
              easeFactor := newEaseFactor;
              nextReviewDate := calculateNextReviewDate today newInterval |}.

(** [adjustIntervalForUser]. *)
Definition adjustIntervalForUser
    (baseInterval userRetentionRate contentDifficulty : number) : number :=
  let retentionAdjustment := (userRetentionRate - 0.8) * 2 in
  let difficultyAdjustment := (1 - contentDifficulty) * 0.5 in
  let adjustmentFactor := 1 + retentionAdjustment - difficultyAdjustment in
  let clampedFactor := Math_max 0.5 (Math_min 2.0 adjustmentFactor) in
  Math_round (baseInterval * clampedFactor).

(** A run of reviews, each result being the input of the next; the first
    throw aborts the run. *)
Fixpoint reviews (today : number) (card : SRSParams) (qualities : list number)
  : completion SRSParams :=
  match qualities with
  | [] => Normal card
  | q :: qs =>
      match calculateNextReview today q (repetitions card) (interval card)
              (easeFactor card) with
      | Normal card' => reviews today card' qs
      | Throw m => Throw m
      end
  end.

End SM2Algorithm.

(** ** The engine document: [RetentionPredictor] *)

Module RetentionPredictor.

Record Weights : Type := mkWeights {
  w_timeSinceLastReview : number;
  w_easeFactor : number;
  w_userHistoricalAccuracy : number;
  w_contentDifficulty : number;
  w_dailyLoadFactor : number
}.

(** The constructor's [this.modelWeights]. *)
Definition modelWeights : Weights :=
  {| w_timeSinceLastReview := -0.05;
     w_easeFactor := 0.3;
     w_userHistoricalAccuracy := 0.4;
     w_contentDifficulty := -0.2;
     w_dailyLoadFactor := -0.1 |}.

Record ItemData : Type := mkItemData {
  timeSinceLastReview : number;
  easeFactor : number;
  userHistoricalAccuracy : number;
  contentDifficulty : number;
  dailyLoadFactor : number;
  currentInterval : option number
}.

(** [{ ...itemData, timeSinceLastReview: days }]. *)
Definition with_timeSinceLastReview (d : ItemData) (days : number) : ItemData :=
  {| timeSinceLastReview := days;
     easeFactor := easeFactor d;
     userHistoricalAccuracy := userHistoricalAccuracy d;
     contentDifficulty := contentDifficulty d;
     dailyLoadFactor := dailyLoadFactor d;
     currentInterval := currentInterval d |}.

(** The variables of the bisection loop, and, as a ghost field, the
    brackets [(low, high)] the loop body has bisected so far (oldest
    first). *)
Record Loop : Type := mkLoop {
  days : number;
  low : number;
  high : number;
  iterations : nat;
  bisected : list (number * number)
}.

Definition maxIterations : nat := 20.

Definition midpoint (b : number * number) : number := (fst b + snd b) / 2.

(** What one execution of the loop body does to the control flow. *)
Inductive Flow : Type :=
| Break (s : Loop)
| Continue (s : Loop).

Section Predictor.

(** [Math.exp] is the host's; the predictor is stated for any such
    function. *)
Variable Math_exp : number -> number.

Definition predictRecallProbability (itemData : ItemData) : number :=
  let logit := 0 in
  let logit := logit + w_timeSinceLastReview modelWeights * timeSinceLastReview itemData in
  let logit := logit + w_easeFactor modelWeights * easeFactor itemData in
  let logit := logit + w_userHistoricalAccuracy modelWeights * userHistoricalAccuracy itemData in
  let logit := logit + w_contentDifficulty modelWeights * contentDifficulty itemData in
  let logit := logit + w_dailyLoadFactor modelWeights * dailyLoadFactor itemData in
  let probability := 1 / (1 + Math_exp (- logit)) in
  probability.

Variable itemData : ItemData.
Variable targetRetention : number.

(** Whether the probe at [d] days ends the search. *)
Definition converged (d : number) : bool :=
  Math_abs (predictRecallProbability (with_timeSinceLastReview itemData d)
            - targetRetention) <? 0.01.

(** The body of [while (iterations < maxIterations) { ... }]. *)
Definition body (s : Loop) : Flow :=
  let days := (low s + high s) / 2 in
  let seen := bisected s ++ [(low s, high s)] in
  let estimatedData := with_timeSinceLastReview itemData days in
  let recallProb := predictRecallProbability estimatedData in
  if Math_abs (recallProb - targetRetention) <? 0.01 then
    Break (mkLoop days (low s) (high s) (iterations s) seen)
  else if recallProb >? targetRetention then
    Continue (mkLoop days days (high s) (S (iterations s)) seen)
  else
    Continue (mkLoop days (low s) days (S (iterations s)) seen).

(** The loop itself; [fuel] bounds the number of times the guard is
    evaluated and [None] means the fuel ran out first. *)
Fixpoint while (fuel : nat) (s : Loop) : option Loop :=
  match fuel with
  | O => None
  | S fuel' =>
      if (iterations s <? maxIterations)%nat then
        match body s with
        | Break s' => Some s'
        | Continue s' => while fuel' s'
        end
      else Some s
  end.

Definition initial : Loop :=
  {| days := match currentInterval itemData with
             | Some c => if truthy c then c else 1
             | None => 1
             end;
     low := 0.1;
     high := 365;
     iterations := 0;
     bisected := [] |}.

Definition recommendReviewTiming_fuel (fuel : nat) : option number :=
  option_map (fun s => Math_round (days s)) (while fuel initial).

End Predictor.

(** The default of the parameter [targetRetention = 0.8]. *)
Definition orDefault (targetRetention : option number) : number :=
  match targetRetention with Some t => t | None => 0.8 end.

(** [recommendReviewTiming (itemData, targetRetention = 0.8)]: the guard is
    evaluated at most [maxIterations + 1] times. *)
Definition recommendReviewTiming (Math_exp : number -> number)
    (itemData : ItemData) (targetRetention : option number) : option number :=
  recommendReviewTiming_fuel Math_exp itemData (orDefault targetRetention)
    (S maxIterations).

End RetentionPredictor.


(** ** [Array.prototype] methods the engine calls *)

Module JSArray.

Section Sort.
Context {A : Type}.
Variable comparefn : A -> A -> number.

(** [x] goes in front of the first element it does not have to follow. *)
Fixpoint insert (x : A) (l : list A) : list A :=
  match l with
  | [] => [x]
  | y :: l' =>
      if comparefn x y >? 0 then y :: insert x l' else x :: y :: l'
  end.

(** [arr.sort(comparefn)]: ECMAScript asks for a stable sort, and a
    stable sort has one result whatever its algorithm; this is insertion
    sort, each element being put in front of the sorted rest.  For a
    comparator that is not consistent (one that answers [NaN] for some
    pairs and other numbers for others) ECMAScript leaves the order to the
    implementation: the result here is then one of the orders it allows. *)
Fixpoint sort (l : list A) : list A :=
  match l with
  | [] => []
  | x :: l' => insert x (sort l')
  end.
End Sort.

(** [SortCompare]: the sort reads a comparator's [NaN] ([None]) as [+0]. *)
Definition SortCompare {A : Type} (comparefn : A -> A -> option number)
    (x y : A) : number :=
  match comparefn x y with
  | Some v => v
  | None => 0
  end.

(** [arr.slice(0, end)] for an integer [end]: a negative [end] counts from
    the back of the array. *)
Definition slice0 {A : Type} (l : list A) (end_ : Z) : list A :=
  let len := Z.of_nat (List.length l) in
  let final := if (end_ <? 0)%Z then Z.max (len + end_) 0 else Z.min end_ len in
  firstn (Z.to_nat final) l.

End JSArray.

(** ** The engine document: [ItemSelector] *)

Module ItemSelector.

Record Factors : Type := mkFactors {
  dueForReview : number;
  userWeakness : number;
  curriculumPriority_w : number;
  varietyBalance : number;
  noveltyPreference : number
}.

(** The constructor's [this.priorityFactors]. *)
Definition priorityFactors : Factors :=
  {| dueForReview := 0.3;
     userWeakness := 0.25;
     curriculumPriority_w := 0.2;
     varietyBalance := 0.15;
     noveltyPreference := 0.1 |}.

(** A candidate item.  [nextReviewDate] is in milliseconds, like the clock
    (a [null] date reads as 0 where it is subtracted from); an item without
    the key [nextReviewDate], [curriculumPriority] or [contentId] has [None]
    there, an absent [isNew] is [false]. *)
Record Item : Type := mkItem {
  id : Z;
  contentType : string;
  contentId : option number;
  isDueForReview : bool;
  nextReviewDate : option number;
  curriculumPriority : option number;
  isNew : bool
}.

(** [{ ...item, priorityScore }]; the score [None] is [NaN]. *)
Record ScoredItem : Type := mkScored {
  item : Item;
  priorityScore : option number
}.

Record UserData : Type := mkUserData {
  jlptLevel : number;
  characterWeakness : number;
  wordWeakness : number;
  grammarWeakness : number;
  preferNovelty : bool;
  recentItems : list Item;
  (** [itemPerformance[id].accuracy], when the object has the key *)
  itemPerformance : list (Z * number)
}.

(** [x || d] on an optional number. *)
Definition or_default (x : option number) (d : number) : number :=
  match x with
  | Some v => if truthy v then v else d
  | None => d
  end.

Definition lookup (k : Z) (m : list (Z * number)) : option number :=
  option_map snd (find (fun kv => Z.eqb (fst kv) k) m).

Definition calculateWeaknessScore (item : Item) (userData : UserData) : number :=
  let weaknessMap (key : string) : option number :=
    if String.eqb key "character" then Some (characterWeakness userData)
    else if String.eqb key "word" then Some (wordWeakness userData)
    else if String.eqb key "grammar" then Some (grammarWeakness userData)
    else None in
  let baseWeakness := or_default (weaknessMap (contentType item)) 0 in
  match lookup (id item) (itemPerformance userData) with
  | Some accuracy =>
      let accuracyAdjustment := (1 - accuracy) * 30 in
      Math_min 100 (baseWeakness + accuracyAdjustment)
  | None => baseWeakness
  end.

Definition calculateVarietyScore (item : Item) (recentItems : list Item) : number :=
  let similarCount :=
    List.length (filter (fun recentItem =>
                      String.eqb (contentType recentItem) (contentType item))
                   recentItems) in
  Math_max 0 (30 - inject_Z (Z.of_nat similarCount) * 10).

(** [score += x], for a score that may be [NaN]: [NaN + x] is [NaN]. *)
Definition add_to (score : option number) (x : number) : option number :=
  option_map (fun score => score + x) score.

(** [now] is the reading of [new Date()].  For an item that is not due and
    has no [nextReviewDate], [item.nextReviewDate - new Date()] is [NaN],
    and so are [Math.max(0, 50 - daysUntilDue)], the score it is added to
    and the score returned. *)
Definition calculateItemPriority (now : number) (item : Item) (userData : UserData)
  : option number :=
  let score := Some 0 in
  let score :=
    if isDueForReview item then
      add_to score (dueForReview priorityFactors * 100)
    else
      match nextReviewDate item with
      | Some nextReviewDate =>
          let daysUntilDue := (nextReviewDate - now) / (1000 * 60 * 60 * 24) in
          add_to score
            (dueForReview priorityFactors * Math_max 0 (50 - daysUntilDue))
      | None => None
      end in
  let weaknessScore := calculateWeaknessScore item userData in
  let score := add_to score (userWeakness priorityFactors * weaknessScore) in
  let score :=
    add_to score (curriculumPriority_w priorityFactors
                  * or_default (curriculumPriority item) 50) in
  let varietyScore := calculateVarietyScore item (recentItems userData) in
  let score := add_to score (varietyBalance priorityFactors * varietyScore) in
  let score :=
    if preferNovelty userData then
      let noveltyScore := if isNew item then 20 else 0 in
      add_to score (noveltyPreference priorityFactors * noveltyScore)
    else score in
  score.

(** The store behind [getUserLearningData] and [getCandidateItems]. *)
Record Store : Type := mkStore {
  getUserLearningData : string -> UserData;
  getCandidateItems : UserData -> list Item
}.

(** What the document's [getUserLearningData] returns for every user. *)
Definition sampleUserLearningData : UserData :=
  {| jlptLevel := 3;
     characterWeakness := 25;
     wordWeakness := 15;
     grammarWeakness := 30;
     preferNovelty := true;
     recentItems := [];
     itemPerformance := [] |}.


(** The comparator of [scoredItems.sort((a, b) => b.priorityScore -
    a.priorityScore)]: [NaN] when one of the two scores is. *)
Definition byPriority (a b : ScoredItem) : option number :=
  match priorityScore b, priorityScore a with
  | Some scoreB, Some scoreA => Some (scoreB - scoreA)
  | _, _ => None
  end.

(** [selectStudyItems (userId, itemCount = 10)]. *)
Definition selectStudyItems (store : Store) (now : number)
    (userId : string) (itemCount : option Z) : list ScoredItem :=
  let itemCount := match itemCount with Some n => n | None => 10%Z end in
  let userData := getUserLearningData store userId in
  let candidateItems := getCandidateItems store userData in
  let scoredItems :=
    map (fun item =>
           {| item := item;
              priorityScore := calculateItemPriority now item userData |})
        candidateItems in
  let scoredItems :=
    JSArray.sort (JSArray.SortCompare byPriority) scoredItems in
  JSArray.slice0 scoredItems itemCount.

End ItemSelector.

(** ** The engine document: [DifficultyAdjuster] *)

Module DifficultyAdjuster.

Record Thresholds : Type := mkThresholds {
  easy : number;
  medium : number;
  hard : number
}.

(** The constructor's [this.performanceThresholds]. *)
Definition performanceThresholds : Thresholds :=
  {| easy := 0.9; medium := 0.7; hard := 0.5 |}.

(** The learning item as [getLearningItemData] hands it over; an item
    without [averageTime] has [None]. *)
Record LearningItem : Type := mkLearningItem {
  repetitions : number;
  interval : number;
  easeFactor : number;
  lastReviewed : number;
  item_attempts : number;
  averageTime : option number
}.

Record PerformanceData : Type := mkPerformance {
  accuracy : number;
  responseTime : number;
  attempts : number;
  previousAverageTime : option number
}.

(** [{ ...item, ...adjustments, lastAdjusted }]: a key of [adjustments]
    that was never assigned is [None]. *)
Record AdjustedItem : Type := mkAdjusted {
  base : LearningItem;
  difficultyIncrease : option number;
  difficultyDecrease : option number;
  timePressure : option number;
  lastAdjusted : number
}.

Definition calculateDifficultyIncrease (item : LearningItem)
    (performanceData : PerformanceData) : number :=
  let increase := 0.1 in
  let increase :=
    if accuracy performanceData >? 0.95 then increase + 0.05 else increase in
  let increase :=
    match averageTime item with
    | Some averageTime =>
        if responseTime performanceData <? averageTime * 0.7
        then increase + 0.05 else increase
    | None => increase
    end in
  Math_min 0.3 increase.

Definition calculateDifficultyDecrease (item : LearningItem)
    (performanceData : PerformanceData) : number :=
  let decrease := 0.15 in
  let decrease :=
    if accuracy performanceData <? 0.3 then decrease + 0.1 else decrease in
  let decrease :=
    match averageTime item with
    | Some averageTime =>
        if responseTime performanceData >? averageTime * 1.5
        then decrease + 0.1 else decrease
    | None => decrease
    end in
  Math_min 0.4 decrease.

Definition calculateTimePressureAdjustment (performanceData : PerformanceData)
  : number :=
  match previousAverageTime performanceData with
  | None => 0
  | Some previousAverageTime =>
      if negb (truthy previousAverageTime) then 0
      else
        let ratio := responseTime performanceData / previousAverageTime in
        if ratio >? 2 then -0.1
        else if ratio <? 0.5 then 0.1
        else 0
  end.

(** [adjustItemDifficulty (item, performanceData)]; [now] is the reading
    of [new Date()]. *)
Definition adjustItemDifficulty (now : number) (item : LearningItem)
    (performanceData : PerformanceData) : AdjustedItem :=
  let up := accuracy performanceData >=? easy performanceThresholds in
  let down := accuracy performanceData <=? hard performanceThresholds in
  {| base := item;
     difficultyIncrease :=
       if up then Some (calculateDifficultyIncrease item performanceData)
       else None;
     difficultyDecrease :=
       if up then None
       else if down then Some (calculateDifficultyDecrease item performanceData)
       else None;
     timePressure :=
       if attempts performanceData >? 1
       then Some (calculateTimePressureAdjustment performanceData)
       else None;
     lastAdjusted := now |}.

(** [arr.reduce((sum, p) => sum + f(p), 0)]: every [+] rounds. *)
Definition sum_of {A : Type} (f : A -> number) (l : list A) : number :=
  fold_left (fun sum p => Double.add sum (f p)) l 0.

(** [arr.reduce((sum, p) => sum + f(p), 0) / arr.length]. *)
Definition averageOf (f : PerformanceData -> number)
    (recentPerformance : list PerformanceData) : number :=
  Double.div (sum_of f recentPerformance)
             (inject_Z (Z.of_nat (List.length recentPerformance))).

(** The value of [adjustment] when [adjustSessionDifficulty] reaches its
    last line, for a list that is not empty.  The literals are the doubles
    nearest to the decimals written. *)
Definition sessionAdjustment (recentPerformance : list PerformanceData)
  : number :=
  let averageAccuracy := averageOf accuracy recentPerformance in
  let averageResponseTime := averageOf responseTime recentPerformance in
  let adjustment := 1.0 in
  if averageAccuracy >? Double.round 0.9
  then Double.mul adjustment (Double.round 1.1)
  else if averageAccuracy <? Double.round 0.6
  then Double.mul adjustment (Double.round 0.9)
  else adjustment.

(** [adjustSessionDifficulty (recentPerformance)]. *)
Definition adjustSessionDifficulty (recentPerformance : list PerformanceData)
  : number :=
  match recentPerformance with
  | [] => 1.0
  | _ =>
      Math_max (Double.round 0.7)
        (Math_min (Double.round 1.3) (sessionAdjustment recentPerformance))
  end.

End DifficultyAdjuster.

(** ** The engine document: [LearningEngineCoordinator] *)

Module LearningEngineCoordinator.

Record UserState : Type := mkUserState {
  currentStreak : Z;
  totalItemsStudied : number;
  accuracyRate : number;
  jlptLevel : number
}.

Record SessionOptions : Type := mkOptions {
  opt_itemCount : option Z
}.

Record Recommendations : Type := mkRecommendations {
  itemCount : number;
  estimatedTime : number;
  focus : string;
  tips : list string
}.

(** [session_${Date.now()}]. *)
Inductive SessionId : Type :=
| session_ (timestamp : number).

(** What the document's [getUserLearningState] returns for every user. *)
Definition sampleUserLearningState : UserState :=
  {| currentStreak := 5;
     totalItemsStudied := 250;
     accuracyRate := 82;
     jlptLevel := 3 |}.

Section Coordinator.

(** What [contentMetadataManager.getContentMetadata] resolves to. *)
Variable Metadata : Type.

(** [{ ...item, metadata }]. *)
Record EnhancedItem : Type := mkEnhanced {
  scored : ItemSelector.ScoredItem;
  metadata : Metadata
}.

Record StudySessionRecord : Type := mkRecord {
  rec_id : SessionId;
  rec_userId : string;
  rec_items : list Z;
  startedAt : number
}.

Record Session : Type := mkSession {
  sessionId : SessionId;
  items : list EnhancedItem;
  userState : UserState;
  recommendations : Recommendations
}.

(** The collaborators the coordinator awaits; only the metadata manager
    is allowed to reject. *)
Record Collaborators : Type := mkCollaborators {
  getUserLearningState : string -> UserState;
  selectorStore : ItemSelector.Store;
  getContentMetadata : string -> option number -> completion Metadata
}.

(** [typeCounts[t] = (typeCounts[t] || 0) + 1], keys in insertion
    order. *)
Fixpoint increment (t : string) (typeCounts : list (string * Z))
  : list (string * Z) :=
  match typeCounts with
  | [] => [(t, 1%Z)]
  | (k, n) :: rest =>
      if String.eqb k t then (k, (n + 1)%Z) :: rest
      else (k, n) :: increment t rest
  end.

Definition determineSessionFocus (items : list EnhancedItem) : string :=
  let typeCounts :=
    fold_left (fun typeCounts item =>
                 increment (ItemSelector.contentType
                              (ItemSelector.item (scored item)))
                           typeCounts)
              items [] in
  let sorted :=
    JSArray.sort (fun a b => inject_Z (snd b) - inject_Z (snd a))
                 typeCounts in
  match sorted with
  | focusedType :: _ => fst focusedType
  | [] => "mixed"%string
  end.

Definition generateSessionTips (userState : UserState) : list string :=
  let tips := [] in
  let tips :=
    if (0 <? currentStreak userState)%Z
       && (Z.rem (currentStreak userState) 7 =? 0)%Z
    then tips ++ ["Great streak! Keep it up!"%string] else tips in
  let tips :=
    if accuracyRate userState <? 80
    then tips ++ ["Focus on accuracy over speed"%string] else tips in
  tips.

Definition generateSessionRecommendations (userState : UserState)
    (items : list EnhancedItem) : Recommendations :=
  let n := inject_Z (Z.of_nat (List.length items)) in
  {| itemCount := n;
     estimatedTime := Math_round (n * 2.5);
     focus := determineSessionFocus items;
     tips := generateSessionTips userState |}.

Definition createStudySessionRecord (now : number) (userId : string)
    (items : list EnhancedItem) : StudySessionRecord :=
  {| rec_id := session_ now;
     rec_userId := userId;
     rec_items :=
       map (fun item => ItemSelector.id (ItemSelector.item (scored item)))
           items;
     startedAt := now |}.

(** [await Promise.all (selectedItems.map (async item => ...))]: the
    first rejection rejects the whole. *)
Fixpoint enhanceAll (c : Collaborators)
    (selectedItems : list ItemSelector.ScoredItem)
  : completion (list EnhancedItem) :=
  match selectedItems with
  | [] => Normal []
  | item :: rest =>
      match getContentMetadata c
              (ItemSelector.contentType (ItemSelector.item item))
              (ItemSelector.contentId (ItemSelector.item item)) with
      | Throw m => Throw m
      | Normal metadata =>
          match enhanceAll c rest with
          | Throw m => Throw m
          | Normal rest' => Normal ({| scored := item; metadata := metadata |} :: rest')
          end
      end
  end.

(** [initializeStudySession (userId, sessionOptions = {})]; [now] is the
    reading of the clock. *)
Definition initializeStudySession (c : Collaborators) (now : number)
    (userId : string) (sessionOptions : SessionOptions)
  : completion Session :=
  let userState := getUserLearningState c userId in
  let itemCount :=
    match opt_itemCount sessionOptions with
    | Some n => if (n =? 0)%Z then 20%Z else n
    | None => 20%Z
    end in
  let selectedItems :=
    ItemSelector.selectStudyItems (selectorStore c) now userId
      (Some itemCount) in
  match enhanceAll c selectedItems with
  | Throw m => Throw m
  | Normal enhancedItems =>
      let session := createStudySessionRecord now userId enhancedItems in
      Normal {| sessionId := rec_id session;
                items := enhancedItems;
                userState := userState;
                recommendations :=
                  generateSessionRecommendations userState enhancedItems |}
  end.

End Coordinator.

Arguments items {Metadata} s.
Arguments recommendations {Metadata} s.
Arguments sessionId {Metadata} s.
Arguments userState {Metadata} s.

End LearningEngineCoordinator.

(** ** The engine document, section 6.1: [SM2Algorithm] in TypeScript *)

Module SM2AlgorithmTS.

(** [calculateNextReview (quality, repetitions, previousInterval,
    easeFactor)]: the TypeScript class has no check of the quality. *)
Definition calculateNextReview (today : number)
    (quality repetitions previousInterval easeFactor : number)
  : SM2Algorithm.SRSParams :=
  let '(newInterval, newRepetitions) :=
    if quality <? 3 then (1, 0)
    else
      let newRepetitions := repetitions + 1 in
      if newRepetitions === 1 then (1, newRepetitions)
      else if newRepetitions === 2 then (6, newRepetitions)
      else (Math_round (previousInterval * easeFactor), newRepetitions) in
  let newEaseFactor :=
    easeFactor + (0.1 - (5 - quality) * (0.08 + (5 - quality) * 0.02)) in
  let newEaseFactor :=
    if newEaseFactor <? 1.3 then 1.3 else newEaseFactor in
  let nextReviewDate := today + newInterval in
  {| SM2Algorithm.interval := newInterval;
     SM2Algorithm.repetitions := newRepetitions;
     SM2Algorithm.easeFactor := newEaseFactor;
     SM2Algorithm.nextReviewDate := nextReviewDate |}.

End SM2AlgorithmTS.

(** ** [useSRS.ts]: the card [addToSRS] creates *)

Module UseSRS.

(** [ease_factor: 2.5, interval: 0, repetitions: 0]. *)
Definition newCard : Srs.SM2 :=
  {| Srs.interval := 0; Srs.repetitions := 0; Srs.easeFactor := 2.5 |}.

End UseSRS.

(** ** JavaScript objects: keys in insertion order, spread and assignment *)

Module JSObject.

Inductive value : Type :=
| Num (n : number)
| Bool (b : bool)
| Str (s : string).

Definition object : Type := list (string * value).

(** [o[k]]; [None] is [undefined]. *)
Fixpoint get (k : string) (o : object) : option value :=
  match o with
  | [] => None
  | (k', v) :: o' => if String.eqb k' k then Some v else get k o'
  end.

(** [o[k] = v]: an existing key keeps its place, a new key goes last. *)
Fixpoint set (k : string) (v : value) (o : object) : object :=
  match o with
  | [] => [(k, v)]
  | (k', v') :: o' =>
      if String.eqb k' k then (k', v) :: o' else (k', v') :: set k v o'
  end.

(** [{ ...target, ...source }]: the keys of [source] are assigned in their
    order, over those of [target]. *)
Definition spread (target source : object) : object :=
  fold_left (fun o kv => set (fst kv) (snd kv) o) source target.

(** An object literal [{ k1: v1, ..., kn: vn }]. *)
Definition literal (entries : list (string * value)) : object :=
  spread [] entries.

(** A value in a boolean position. *)
Definition truthy_value (v : option value) : bool :=
  match v with
  | Some (Num n) => truthy n
  | Some (Bool b) => b
  | Some (Str s) => negb (String.eqb s "")
  | None => false
  end.

End JSObject.

(** ** [LearningEngineCoordinator], continued: [processUserResponse] *)

Module LearningEngineResponses.

Import JSObject.

Record Response : Type := mkResponse {
  itemId : string;
  contentType : string;
  contentId : number;
  quality : number;
  responseTime : number;
  wasCorrect : bool
}.

(** What [getUserLearningData] of the coordinator returns. *)
Record UserLearningData : Type := mkUserLearningData {
  accuracyRate : number;
  totalReviews : number
}.

(** The stores the coordinator awaits. *)
Record Stores : Type := mkStores {
  getLearningItemData : string -> number -> DifficultyAdjuster.LearningItem;
  getUserLearningData : string -> UserLearningData
}.

(** What the coordinator sends out, in the order it sends it:
    [updateUserPerformance], [updateLearningItem] and
    [predictor.updateModel]. *)
Inductive Effect : Type :=
| UpdateUserPerformance (userId : string) (performanceData : object)
| UpdateLearningItem (contentType : string) (contentId : number)
    (updateData : object)
| UpdateModel (itemData : object) (wasRecalled : bool).

Record Result : Type := mkResult {
  nextItem : option unit;
  updatedStats : object;
  feedback : list string
}.

Definition msPerDay : number := 1000 * 60 * 60 * 24.

(** The object [calculateNextReview] returns. *)
Definition srsObject (p : SM2Algorithm.SRSParams) : object :=
  literal [("interval"%string, Num (SM2Algorithm.interval p));
           ("repetitions"%string, Num (SM2Algorithm.repetitions p));
           ("easeFactor"%string, Num (SM2Algorithm.easeFactor p));
           ("nextReviewDate"%string, Num (SM2Algorithm.nextReviewDate p))].

(** The object [getLearningItemData] returns. *)
Definition itemObject (item : DifficultyAdjuster.LearningItem) : object :=
  literal
    ([("repetitions"%string, Num (DifficultyAdjuster.repetitions item));
      ("interval"%string, Num (DifficultyAdjuster.interval item));
      ("easeFactor"%string, Num (DifficultyAdjuster.easeFactor item));
      ("lastReviewed"%string, Num (DifficultyAdjuster.lastReviewed item));
      ("attempts"%string, Num (DifficultyAdjuster.item_attempts item))]
     ++ match DifficultyAdjuster.averageTime item with
        | Some t => [("averageTime"%string, Num t)]
        | None => []
        end).

Definition optional (k : string) (v : option number) : list (string * value) :=
  match v with Some n => [(k, Num n)] | None => [] end.

(** The object [adjustItemDifficulty] returns:
    [{ ...item, ...adjustments, lastAdjusted }]. *)
Definition adjustedObject (a : DifficultyAdjuster.AdjustedItem) : object :=
  set "lastAdjusted" (Num (DifficultyAdjuster.lastAdjusted a))
    (spread (spread [] (itemObject (DifficultyAdjuster.base a)))
       (optional "difficultyIncrease" (DifficultyAdjuster.difficultyIncrease a)
        ++ optional "difficultyDecrease" (DifficultyAdjuster.difficultyDecrease a)
        ++ optional "timePressure" (DifficultyAdjuster.timePressure a))).

Definition generateImmediateFeedback (response : Response)
    (adjustedItem : object) : list string :=
  let feedback := [] in
  let feedback :=
    if wasCorrect response
    then feedback ++ ["Correct! Good job."%string]
    else feedback ++ ["Not quite right. Let's review this again soon."%string] in
  let feedback :=
    if truthy_value (get "difficultyIncrease" adjustedItem)
    then feedback
         ++ ["This seems easy for you - we'll make it more challenging."%string]
    else if truthy_value (get "difficultyDecrease" adjustedItem)
    then feedback
         ++ ["This was tricky - we'll give you an easier version next time."%string]
    else feedback in
  feedback.

(** [processUserResponse (userId, sessionId, response)]; [now] is the reading
    of the clock, in milliseconds.  The outcome comes with what was sent out
    before it. *)
Definition processUserResponse (stores : Stores) (now : number)
    (userId sessionId : string) (response : Response)
  : completion Result * list Effect :=
  let itemData :=
    getLearningItemData stores (contentType response) (contentId response) in
  let userData := getUserLearningData stores userId in
  match SM2Algorithm.calculateNextReview (now / msPerDay) (quality response)
          (DifficultyAdjuster.repetitions itemData)
          (DifficultyAdjuster.interval itemData)
          (DifficultyAdjuster.easeFactor itemData) with
  | Throw m => (Throw m, [])
  | Normal updatedSRS =>
      let performance :=
        UpdateUserPerformance userId
          (literal [("contentType"%string, Str (contentType response));
                    ("contentId"%string, Num (contentId response));
                    ("quality"%string, Num (quality response));
                    ("responseTime"%string, Num (responseTime response));
                    ("wasCorrect"%string, Bool (wasCorrect response))]) in
      let adjustedItem :=
        adjustedObject
          (DifficultyAdjuster.adjustItemDifficulty now itemData
             {| DifficultyAdjuster.accuracy :=
                  if wasCorrect response then 1 else 0;
                DifficultyAdjuster.responseTime := responseTime response;
                DifficultyAdjuster.attempts :=
                  DifficultyAdjuster.item_attempts itemData + 1;
                DifficultyAdjuster.previousAverageTime :=
                  DifficultyAdjuster.averageTime itemData |}) in
      let item :=
        UpdateLearningItem (contentType response) (contentId response)
          (set "lastReviewed" (Num now)
             (spread (spread [] (srsObject updatedSRS)) adjustedItem)) in
      let model :=
        UpdateModel
          (literal
             [("timeSinceLastReview"%string,
               Num ((now - DifficultyAdjuster.lastReviewed itemData) / msPerDay));
              ("easeFactor"%string, Num (SM2Algorithm.easeFactor updatedSRS));
              ("userHistoricalAccuracy"%string, Num (accuracyRate userData));
              ("contentDifficulty"%string,
               if truthy_value (get "difficulty" adjustedItem)
               then match get "difficulty" adjustedItem with
                    | Some v => v
                    | None => Num 50
                    end
               else Num 50)])
          (wasCorrect response) in
      (Normal {| nextItem := None;
                 updatedStats := [];
                 feedback := generateImmediateFeedback response adjustedItem |},
       [performance; item; model])
  end.

End LearningEngineResponses.

(** ** The engine document: [ContentMetadataManager] *)

Module ContentMetadataManager.

Record BaseMetadata : Type := mkBase {
  id : Z;
  type : string;
  baseDifficulty : number;
  frequencyRank : number;
  prerequisiteItems : list Z;
  relatedItems : list Z;
  learningObjectives : list string;
  estimatedLearningTime : number
}.

Record RetentionPredictors : Type := mkPredictors {
  visualMemorability : number;
  phoneticClarity : number;
  semanticCoherence : number;
  contextualVersatility : number
}.

Record ReviewPattern : Type := mkPattern {
  initialInterval : number;
  secondInterval : number;
  expansionFactor : number;
  minimumInterval : number;
  maximumInterval : number
}.

Record MasteryCriteria : Type := mkCriteria {
  minimumAccuracy : number;
  minimumRetries : number;
  timeConsistency : number;
  applicationInContext : bool
}.

(** [{ ...baseMetadata, complexityScore, retentionPredictors,
    optimalReviewPattern, masteryCriteria }]. *)
Record Metadata : Type := mkMetadata {
  base : BaseMetadata;
  complexityScore : number;
  retentionPredictors : RetentionPredictors;
  optimalReviewPattern : ReviewPattern;
  masteryCriteria : MasteryCriteria
}.

(** [String(contentId)] for an integer. *)
Definition toString (n : Z) : string :=
  DecimalString.NilZero.string_of_int (Z.to_int n).

(** [difficultyMap[contentType]?.[contentId] || 50]. *)
Definition calculateBaseDifficulty (contentType : string) (contentId : Z)
  : number :=
  let row (one two three : number) : option number :=
    if (contentId =? 1)%Z then Some one
    else if (contentId =? 2)%Z then Some two
    else if (contentId =? 3)%Z then Some three
    else None in
  let difficulty :=
    if String.eqb contentType "character" then row 10 25 50
    else if String.eqb contentType "word" then row 15 35 65
    else if String.eqb contentType "grammar" then row 20 50 80
    else None in
  ItemSelector.or_default difficulty 50.

(** [Math.floor (Math.random () * 1000) + 1]; [random] is what
    [Math.random ()] answers. *)
Definition getFrequencyRank (random : number) : number :=
  inject_Z (Qfloor (random * 1000)) + 1.

Definition getPrerequisites (contentType : string) (contentId : Z) : list Z := [].

Definition getRelatedItems (contentType : string) (contentId : Z) : list Z := [].

Definition getLearningObjectives (contentType : string) (contentId : Z)
  : list string :=
  [("Master " ++ contentType ++ " " ++ toString contentId)%string].

(** [timeEstimates[contentType] || 20]. *)
Definition estimateLearningTime (contentType : string) (contentId : Z)
  : number :=
  let estimate :=
    if String.eqb contentType "character" then Some 15
    else if String.eqb contentType "word" then Some 10
    else if String.eqb contentType "grammar" then Some 25
    else None in
  ItemSelector.or_default estimate 20.

Definition fetchContentMetadata (random : number) (contentType : string)
    (contentId : Z) : BaseMetadata :=
  {| id := contentId;
     type := contentType;
     baseDifficulty := calculateBaseDifficulty contentType contentId;
     frequencyRank := getFrequencyRank random;
     prerequisiteItems := getPrerequisites contentType contentId;
     relatedItems := getRelatedItems contentType contentId;
     learningObjectives := getLearningObjectives contentType contentId;
     estimatedLearningTime := estimateLearningTime contentType contentId |}.

Definition calculateComplexityScore (metadata : BaseMetadata) : number :=
  let normalizedDifficulty := baseDifficulty metadata in
  let normalizedFrequency := Math_max 0 (100 - frequencyRank metadata / 10) in
  let prerequisiteComplexity :=
    inject_Z (Z.of_nat (List.length (prerequisiteItems metadata))) * 5 in
  Math_round (normalizedDifficulty * 0.5
              + normalizedFrequency * 0.3
              + prerequisiteComplexity * 0.2).

Definition calculateRetentionPredictors (metadata : BaseMetadata)
  : RetentionPredictors :=
  {| visualMemorability := 75;
     phoneticClarity := 80;
     semanticCoherence := 70;
     contextualVersatility := 85 |}.

Definition calculateOptimalReviewPattern (metadata : BaseMetadata)
  : ReviewPattern :=
  {| initialInterval := 1;
     secondInterval := 3;
     expansionFactor := 2.0;
     minimumInterval := 1;
     maximumInterval := 365 |}.

Definition defineMasteryCriteria (metadata : BaseMetadata) : MasteryCriteria :=
  {| minimumAccuracy := 0.9;
     minimumRetries := 3;
     timeConsistency := 0.8;
     applicationInContext := true |}.

Definition enhanceMetadata (baseMetadata : BaseMetadata) : Metadata :=
  {| base := baseMetadata;
     complexityScore := calculateComplexityScore baseMetadata;
     retentionPredictors := calculateRetentionPredictors baseMetadata;
     optimalReviewPattern := calculateOptimalReviewPattern baseMetadata;
     masteryCriteria := defineMasteryCriteria baseMetadata |}.

(** [this.metadataCache], a [Map] from cache keys to metadata. *)
Definition Cache : Type := list (string * Metadata).

(** [cache.get (key)]; [None] when [cache.has (key)] is false. *)
Fixpoint cache_get (key : string) (cache : Cache) : option Metadata :=
  match cache with
  | [] => None
  | (k, m) :: rest => if String.eqb k key then Some m else cache_get key rest
  end.

(** [cache.set (key, metadata)]. *)
Fixpoint cache_set (key : string) (metadata : Metadata) (cache : Cache)
  : Cache :=
  match cache with
  | [] => [(key, metadata)]
  | (k, m) :: rest =>
      if String.eqb k key then (k, metadata) :: rest
      else (k, m) :: cache_set key metadata rest
  end.

(** [`${contentType}-${contentId}`]. *)
Definition cacheKey (contentType : string) (contentId : Z) : string :=
  (contentType ++ "-" ++ toString contentId)%string.

(** [getContentMetadata (contentType, contentId)], on the cache it finds,
    with the cache it leaves. *)
Definition getContentMetadata (cache : Cache) (random : number)
    (contentType : string) (contentId : Z) : Metadata * Cache :=
  let key := cacheKey contentType contentId in
  match cache_get key cache with
  | Some cached => (cached, cache)
  | None =>
      let metadata := fetchContentMetadata random contentType contentId in
      let enhancedMetadata := enhanceMetadata metadata in
      (enhancedMetadata, cache_set key enhancedMetadata cache)
  end.

End ContentMetadataManager.

(** ** The engine document: [PerformanceAnalytics] *)

Module PerformanceAnalytics.

Record DailyActivity : Type := mkDay {
  day_date : number;
  day_itemsStudied : number;
  day_studyTime : number
}.

Record CategoryPerformance : Type := mkCategory {
  accuracy : number;
  itemsMastered : number;
  totalItems : number;
  jlptLevel : number
}.

Record PerformanceData : Type := mkData {
  totalItemsStudied : number;
  correctResponses : number;
  totalStudyTime : number;
  (** [performanceByCategory], its keys in insertion order *)
  performanceByCategory : list (string * CategoryPerformance);
  studyStreak : number;
  dailyActivity : list DailyActivity
}.

Record Strength : Type := mkStrength {
  s_category : string;
  s_accuracy : number;
  s_itemsMastered : number
}.

Record Weakness : Type := mkWeakness {
  w_category : string;
  w_accuracy : number;
  w_itemsNeedingWork : number
}.

Record MasteryPrediction : Type := mkPrediction {
  currentMastery : number;
  weeksToFullMastery : number;
  estimatedCompletionDate : number
}.

(** [Math.ceil]. *)
Definition Math_ceil (x : number) : number := inject_Z (Qceiling x).

Definition calculateConsistency (dailyActivity : list DailyActivity) : number :=
  match dailyActivity with
  | [] => 0
  | _ =>
      let activeDays :=
        List.length (filter (fun day => day_itemsStudied day >? 0) dailyActivity) in
      Math_round (inject_Z (Z.of_nat activeDays)
                  / inject_Z (Z.of_nat (List.length dailyActivity)) * 100)
  end.

(** The loop [for (const [category, data] of Object.entries (categories))]
    of [identifyStrengthAreas], then the sort. *)
Definition identifyStrengthAreas (performanceData : PerformanceData)
  : list Strength :=
  let strengths :=
    fold_left
      (fun strengths entry =>
         let '(category, data) := entry in
         if accuracy data >? 85
         then strengths ++ [mkStrength category (accuracy data) (itemsMastered data)]
         else strengths)
      (performanceByCategory performanceData) [] in
  JSArray.sort (fun a b => s_accuracy b - s_accuracy a) strengths.

Definition identifyWeaknessAreas (performanceData : PerformanceData)
  : list Weakness :=
  let weaknesses :=
    fold_left
      (fun weaknesses entry =>
         let '(category, data) := entry in
         if accuracy data <? 70
         then weaknesses
              ++ [mkWeakness category (accuracy data)
                    (totalItems data - itemsMastered data)]
         else weaknesses)
      (performanceByCategory performanceData) [] in
  JSArray.sort (fun a b => w_accuracy a - w_accuracy b) weaknesses.

Definition calculateEfficiencyScore (performanceData : PerformanceData)
  : number :=
  let accuracyComponent :=
    correctResponses performanceData
    / Math_max 1 (totalItemsStudied performanceData) * 40 in
  let speedComponent :=
    Math_min 100
      (totalItemsStudied performanceData
       / Math_max 1 (totalStudyTime performanceData) * 60) * 30 in
  let consistencyComponent :=
    calculateConsistency (dailyActivity performanceData) * 0.3 in
  Math_round (accuracyComponent + speedComponent + consistencyComponent).

(** [addWeeks (date, weeks)], dates counted in days. *)
Definition addWeeks (date weeks : number) : number := date + weeks * 7.

(** [predictMasteryTimeline]: one prediction per category; [today] is the
    reading of [new Date ()]. *)
Definition predictMasteryTimeline (today : number)
    (performanceData : PerformanceData) : list (string * MasteryPrediction) :=
  map (fun entry : string * CategoryPerformance =>
         let '(category, data) := entry in
         let currentMastery :=
           itemsMastered data / Math_max 1 (totalItems data) * 100 in
         let weeklyImprovement := 2 in
         let weeksToMastery :=
           if currentMastery <? 100
           then Math_ceil ((100 - currentMastery) / weeklyImprovement)
           else 0 in
         (category,
          {| currentMastery := Math_round currentMastery;
             weeksToFullMastery := weeksToMastery;
             estimatedCompletionDate := addWeeks today weeksToMastery |}))
      (performanceByCategory performanceData).

End PerformanceAnalytics.

(** ** [srs.ts]: [updateUserPerformance] on the [user_performance] table *)

Module UserPerformance.

(** A row of [user_performance]; times are clock readings. *)
Record Row : Type := mkRow {
  id : Z;
  user_id : string;
  content_type : string;
  content_id : Z;
  attempts : number;
  correct_attempts : number;
  last_attempt : number;
  accuracy_rate : number;
  avg_response_time : number;
  created_at : number;
  updated_at : number
}.

(** The table and the next value of its [SERIAL] key.  The database is
    taken to answer every request: the paths on which supabase reports an
    error of its own are left out, and so is the rounding of the [NUMERIC]
    columns, which store a response time with two decimals. *)
Record Database : Type := mkDatabase {
  rows : list Row;
  nextId : Z
}.

(** [.eq ('user_id', userId).eq ('content_type', contentType)
      .eq ('content_id', contentId)]. *)
Definition selected (userId contentType : string) (contentId : Z) (r : Row)
  : bool :=
  String.eqb (user_id r) userId
  && String.eqb (content_type r) contentType
  && Z.eqb (content_id r) contentId.

(** [.single ()]: the row when there is exactly one, an error otherwise. *)
Definition single (l : list Row) : option Row :=
  match l with
  | [r] => Some r
  | _ => None
  end.

(** [parseFloat (x.toFixed (2))]: the nearest multiple of 0.01, a tie going
    away from zero. *)
Definition toFixed2 (x : number) : number :=
  if x <? 0
  then - (inject_Z (Qfloor (- x * 100 + (1 # 2))) / 100)
  else inject_Z (Qfloor (x * 100 + (1 # 2))) / 100.

(** [updateUserPerformance (userId, contentType, contentId, isCorrect,
    responseTime)]; [now] is the reading of the clock.  Returns the
    performance record and the database it leaves. *)
Definition updateUserPerformance (db : Database) (now : number)
    (userId contentType : string) (contentId : Z) (isCorrect : bool)
    (responseTime : number) : option Row * Database :=
  match single (filter (selected userId contentType contentId) (rows db)) with
  | None =>
      let data :=
        {| id := nextId db;
           user_id := userId;
           content_type := contentType;
           content_id := contentId;
           attempts := 1;
           correct_attempts := if isCorrect then 1 else 0;
           last_attempt := now;
           accuracy_rate := if isCorrect then 100 else 0;
           avg_response_time := responseTime;
           created_at := now;
           updated_at := now |} in
      (Some data,
       {| rows := rows db ++ [data]; nextId := (nextId db + 1)%Z |})
  | Some existingData =>
      let attempts' := attempts existingData + 1 in
      let correctAttempts :=
        correct_attempts existingData + (if isCorrect then 1 else 0) in
      let accuracyRate := correctAttempts / attempts' * 100 in
      let totalResponseTime :=
        avg_response_time existingData * attempts existingData
        + responseTime in
      let avgResponseTime := totalResponseTime / attempts' in
      let update (r : Row) : Row :=
        if (id r =? id existingData)%Z
        then {| id := id r;
                user_id := user_id r;
                content_type := content_type r;
                content_id := content_id r;
                attempts := attempts';
                correct_attempts := correctAttempts;
                last_attempt := now;
                accuracy_rate := toFixed2 accuracyRate;
                avg_response_time := toFixed2 avgResponseTime;
                created_at := created_at r;
                updated_at := now |}
        else r in
      let rows' := map update (rows db) in
      (single (filter (fun r => (id r =? id existingData)%Z) rows'),
       {| rows := rows'; nextId := nextId db |})
  end.

(** One reviewed answer: whether it was correct, how long it took, and when
    it was given. *)
Record Attempt : Type := mkAttempt {
  isCorrect : bool;
  responseTime : number;
  at_time : number
}.

(** The attempts of one user on one content item, recorded one after the
    other. *)
Definition record (userId contentType : string) (contentId : Z)
    (db : Database) (attempts : list Attempt) : Database :=
  fold_left
    (fun db a =>
       snd (updateUserPerformance db (at_time a) userId contentType contentId
              (isCorrect a) (responseTime a)))
    attempts db.

End UserPerformance.

(** ** Notions the properties are stated with *)

(** The ease factor both implementations return: the SM-2 update, floored at
    1.3. *)
Definition updatedEase (quality easeFactor : number) : number :=
  let e := easeFactor + (0.1 - (5 - quality) * (0.08 + (5 - quality) * 0.02)) in
  if e <? 1.3 then 1.3 else e.

(** The application's step and the engine's step return the same schedule:
    the engine's call returns, and interval, repetitions and ease factor are
    the same numbers. *)
Definition same_schedule (a : Srs.SM2) (b : completion SM2Algorithm.SRSParams)
  : Prop :=
  match b with
  | Normal p =>
      Srs.interval a == SM2Algorithm.interval p
      /\ Srs.repetitions a == SM2Algorithm.repetitions p
      /\ Srs.easeFactor a == SM2Algorithm.easeFactor p
  | Throw _ => False
  end.

(** The states a card goes through: it has no success yet, or one, or at
    least two and an interval of at least 6 days. *)
Definition on_schedule (c : Srs.SM2) : Prop :=
  Srs.repetitions c == 0
  \/ Srs.repetitions c == 1
  \/ (2 <= Srs.repetitions c /\ 6 <= Srs.interval c).

(** The linear score [predictRecallProbability] feeds to the sigmoid. *)
Definition logit (d : RetentionPredictor.ItemData) : number :=
  0 + -0.05 * RetentionPredictor.timeSinceLastReview d
  + 0.3 * RetentionPredictor.easeFactor d
  + 0.4 * RetentionPredictor.userHistoricalAccuracy d
  + -0.2 * RetentionPredictor.contentDifficulty d
  + -0.1 * RetentionPredictor.dailyLoadFactor d.

(** The content types of the schema
    ([content_type IN ('character', 'word', 'grammar')]). *)
Definition contentTypes : list string :=
  ["character"; "word"; "grammar"]%string.

(** The ranges the document gives for what the selector reads: a content
    type of the schema, weaknesses
    and curriculum priorities between 0 and 100, accuracies between 0 and 1,
    and a review date that has not passed for an item that is not due. *)
Definition documented_ranges (now : number) (item : ItemSelector.Item)
    (userData : ItemSelector.UserData) : Prop :=
  In (ItemSelector.contentType item) contentTypes
  /\ (0 <= ItemSelector.characterWeakness userData <= 100)
  /\ (0 <= ItemSelector.wordWeakness userData <= 100)
  /\ (0 <= ItemSelector.grammarWeakness userData <= 100)
  /\ (forall accuracy,
        ItemSelector.lookup (ItemSelector.id item)
          (ItemSelector.itemPerformance userData) = Some accuracy ->
        0 <= accuracy <= 1)
  /\ (forall p, ItemSelector.curriculumPriority item = Some p -> 0 <= p <= 100)
  /\ (ItemSelector.isDueForReview item = false ->
      exists date,
        ItemSelector.nextReviewDate item = Some date /\ now <= date).





(** The scored candidates, in the order of the catalog. *)
Definition scoredCandidates (store : ItemSelector.Store) (now : number)
    (userId : string) : list ItemSelector.ScoredItem :=
  let userData := ItemSelector.getUserLearningData store userId in
  map (fun item =>
         ItemSelector.mkScored item
           (ItemSelector.calculateItemPriority now item userData))
      (ItemSelector.getCandidateItems store userData).

(** The count [initializeStudySession] hands to the selector:
    [sessionOptions.itemCount || 20]. *)
Definition requestedCount (options : LearningEngineCoordinator.SessionOptions)
  : Z :=
  match LearningEngineCoordinator.opt_itemCount options with
  | Some n => if (n =? 0)%Z then 20%Z else n
  | None => 20%Z
  end.

(** The count [typeCounts] holds for a content type, 0 when it has no such
    key. *)
Fixpoint countOf (t : string) (typeCounts : list (string * Z)) : Z :=
  match typeCounts with
  | [] => 0%Z
  | (k, n) :: rest => if String.eqb k t then n else countOf t rest
  end.

(** The number of items of a session that have a given content type. *)
Definition itemsOfType (Metadata : Type)
    (items : list (LearningEngineCoordinator.EnhancedItem Metadata))
    (t : string) : nat :=
  List.length
    (filter (fun item =>
               String.eqb
                 (ItemSelector.contentType
                    (ItemSelector.item
                       (LearningEngineCoordinator.scored Metadata item))) t)
            items).

(** What [generateMockCategoryPerformance] returns. *)
Definition sampleCategoryPerformance
  : list (string * PerformanceAnalytics.CategoryPerformance) :=
  [("characters"%string, PerformanceAnalytics.mkCategory 82 150 200 2);
   ("vocabulary"%string, PerformanceAnalytics.mkCategory 78 200 300 3);
   ("grammar"%string, PerformanceAnalytics.mkCategory 71 80 150 2);
   ("kanji"%string, PerformanceAnalytics.mkCategory 65 100 250 3)].

(** The primary key of [user_performance] is unique and was drawn from the
    sequence. *)
Definition keyed (db : UserPerformance.Database) : Prop :=
  NoDup (map UserPerformance.id (UserPerformance.rows db))
  /\ Forall (fun r => (UserPerformance.id r < UserPerformance.nextId db)%Z)
            (UserPerformance.rows db).

(** The rows of a table for one user and content item, and the others. *)
Definition rowsFor (userId contentType : string) (contentId : Z)
    (db : UserPerformance.Database) : list UserPerformance.Row :=
  filter (UserPerformance.selected userId contentType contentId)
         (UserPerformance.rows db).

Definition otherRows (userId contentType : string) (contentId : Z)
    (db : UserPerformance.Database) : list UserPerformance.Row :=
  filter (fun r => negb (UserPerformance.selected userId contentType contentId r))
         (UserPerformance.rows db).


(** The sum and the mean of the accuracies of the samples, as numbers. *)
Definition totalAccuracy (recent : list DifficultyAdjuster.PerformanceData)
  : number :=
  fold_right (fun p total => DifficultyAdjuster.accuracy p + total) 0 recent.

Definition meanAccuracy (recent : list DifficultyAdjuster.PerformanceData)
  : number :=
  totalAccuracy recent / inject_Z (Z.of_nat (List.length recent)).

(** A quality score the specification accepts. *)
Definition valid_quality (q : number) : Prop := 0 <= q <= 5.

(** The signed change of difficulty an adjusted item carries: its
    [difficultyIncrease] minus its [difficultyDecrease], each counted as 0
    when the key is absent. *)
Definition difficultyDelta (a : DifficultyAdjuster.AdjustedItem) : number :=
  match DifficultyAdjuster.difficultyIncrease a with Some i => i | None => 0 end
  - match DifficultyAdjuster.difficultyDecrease a with Some d => d | None => 0 end.

(** The bisection of [recommendReviewTiming]: what holds of the loop
    variables at the guard and at the exit. *)
Section BisectionNotions.

Import RetentionPredictor.

Variable Math_exp : number -> number.
Variable itemData : ItemData.
Variable target : number.

Definition within_bounds (b : number * number) : Prop :=
  0.1 <= fst b /\ fst b <= snd b /\ snd b <= 365.

(** What holds each time the guard of the loop is evaluated. *)
Record at_guard (s : Loop) : Prop := mk_at_guard {
  g_count : List.length (bisected s) = iterations s;
  g_budget : (iterations s <= maxIterations)%nat;
  g_first : hd_error (bisected s ++ [(low s, high s)]) = Some (0.1, 365);
  g_open : Forall (fun b => converged Math_exp itemData target (midpoint b) = false) (bisected s);
  g_range : Forall within_bounds (bisected s ++ [(low s, high s)]);
  g_days : iterations s = 0%nat
           \/ (days s = midpoint (last (bisected s) (0, 0))
               /\ (days s = low s \/ days s = high s))
}.

(** What holds of the variables when the loop is left. *)
Record at_exit (s : Loop) : Prop := mk_at_exit {
  x_first : hd_error (bisected s) = Some (0.1, 365);
  x_days : days s = midpoint (last (bisected s) (0, 0));
  x_open : Forall (fun b => converged Math_exp itemData target (midpoint b) = false) (removelast (bisected s));
  x_range : Forall within_bounds (bisected s);
  x_why : (converged Math_exp itemData target (days s) = true
           /\ (iterations s < maxIterations)%nat
           /\ List.length (bisected s) = S (iterations s))
          \/ (converged Math_exp itemData target (days s) = false
              /\ iterations s = maxIterations
              /\ List.length (bisected s) = maxIterations
              /\ (days s = low s \/ days s = high s))
}.

End BisectionNotions.

(** * Properties *)

(** ** The operators of the source against the order of [Q] *)

Lemma ltb_spec (x y : number) : reflect (x < y) (x <? y).
Proof.
  unfold ltb. destruct (Qle_bool y x) eqn:E; constructor.
  - apply Qle_bool_iff in E. lra.
  - apply Qnot_le_lt. intro H. apply Qle_bool_iff in H. congruence.
Qed.

Lemma leb_spec (x y : number) : reflect (x <= y) (x <=? y).
Proof.
  unfold leb. destruct (Qle_bool x y) eqn:E; constructor.
  - now apply Qle_bool_iff.
  - intro H. apply Qle_bool_iff in H. congruence.
Qed.

Lemma strict_eq_spec (x y : number) : reflect (x == y) (x === y).
Proof.
  unfold strict_eq. destruct (Qeq_bool x y) eqn:E; constructor.
  - now apply Qeq_bool_iff.
  - intro H. apply Qeq_bool_iff in H. congruence.
Qed.

(** Splits on a comparison of the goal whose operands have no branch left,
    leaving its meaning among the hypotheses. *)
Ltac no_branch t :=
  lazymatch t with
  | context [if _ then _ else _] => fail
  | _ => idtac
  end.

Ltac js_case :=
  unfold gtb, geb in *;
  match goal with
  | |- context [ltb ?x ?y] =>
      no_branch x; no_branch y; destruct (ltb_spec x y)
  | |- context [leb ?x ?y] =>
      no_branch x; no_branch y; destruct (leb_spec x y)
  | |- context [strict_eq ?x ?y] =>
      no_branch x; no_branch y; destruct (strict_eq_spec x y)
  end.

Ltac js_cases := repeat js_case; simpl.

Lemma Math_round_le (x y : number) : x <= y -> Math_round x <= Math_round y.
Proof.
  intro H. unfold Math_round. rewrite <- Zle_Qle.
  apply Qfloor_resp_le. lra.
Qed.

Lemma Math_round_eq (x y : number) : x == y -> Math_round x = Math_round y.
Proof.
  intro H. unfold Math_round. f_equal. apply Qfloor_comp. lra.
Qed.

Lemma Math_min_spec (x y : number) :
  (y < x /\ Math_min x y = y) \/ (x <= y /\ Math_min x y = x).
Proof. unfold Math_min. js_case; [left|right]; (split; [lra|reflexivity]). Qed.

Lemma Math_max_spec (x y : number) :
  (x < y /\ Math_max x y = y) \/ (y <= x /\ Math_max x y = x).
Proof. unfold Math_max. js_case; [left|right]; (split; [lra|reflexivity]). Qed.

(** ** SM-2: the two implementations *)

Lemma updatedEase_floor (q ef : number) : 1.3 <= updatedEase q ef.
Proof. unfold updatedEase. js_cases; lra. Qed.

Lemma updatedEase_mono (q1 q2 ef : number) :
  3 <= q1 -> q1 <= q2 -> q2 <= 5 -> updatedEase q1 ef <= updatedEase q2 ef.
Proof.
  intros H1 H12 H2. unfold updatedEase. js_cases; try lra; nra.
Qed.

Lemma updatedEase_4 (ef : number) : 1.3 <= ef -> updatedEase 4 ef == ef.
Proof. intro H. unfold updatedEase. js_cases; lra. Qed.

Lemma Srs_easeFactor (q r ef i : number) :
  Srs.easeFactor (Srs.calculateSM2 q r ef i) = updatedEase q ef.
Proof. unfold Srs.calculateSM2, updatedEase. now destruct (q <? 3). Qed.

Lemma Srs_repetitions (q r ef i : number) :
  Srs.repetitions (Srs.calculateSM2 q r ef i) = if q <? 3 then 0 else r + 1.
Proof. unfold Srs.calculateSM2. now destruct (q <? 3). Qed.

Lemma Srs_interval (q r ef i : number) :
  Srs.interval (Srs.calculateSM2 q r ef i) =
  if q <? 3 then 1
  else if r + 1 === 1 then 1
  else if r + 1 === 2 then 6
  else Math_round (i * updatedEase q ef).
Proof. unfold Srs.calculateSM2. now destruct (q <? 3). Qed.

(** What [calculateNextReview] returns once the quality has passed the
    check. *)
Lemma calculateNextReview_valid (today q r i ef : number) :
  0 <= q <= 5 ->
  SM2Algorithm.calculateNextReview today q r i ef =
  let newInterval :=
    if q <? 3 then 1
    else if r + 1 === 1 then 1
    else if r + 1 === 2 then 6
    else Math_round (i * ef) in
  Normal {| SM2Algorithm.interval := newInterval;
            SM2Algorithm.repetitions := if q <? 3 then 0 else r + 1;
            SM2Algorithm.easeFactor := updatedEase q ef;
            SM2Algorithm.nextReviewDate := today + newInterval |}.
Proof.
  intros [H0 H5]. unfold SM2Algorithm.calculateNextReview.
  destruct (ltb_spec q 0); [lra|]. unfold gtb.
  destruct (ltb_spec 5 q); [lra|]. cbn [orb].
  destruct (q <? 3); [reflexivity|].
  destruct (r + 1 === 1); [reflexivity|].
  destruct (r + 1 === 2); reflexivity.
Qed.

Lemma calculateNextReview_invalid (today q r i ef : number) :
  q < 0 \/ 5 < q ->
  SM2Algorithm.calculateNextReview today q r i ef =
  Throw "Quality must be between 0 and 5".
Proof.
  intros H. unfold SM2Algorithm.calculateNextReview, gtb.
  destruct (ltb_spec q 0); [reflexivity|].
  destruct (ltb_spec 5 q); [reflexivity|]. lra.
Qed.

(** C1, as stated, fails: with quality 5, two repetitions, interval 10 and
    ease factor 2.5 the application schedules 26 days ([10 * 2.6]) and the
    engine 25 days ([10 * 2.5]). *)
Lemma sm2_implementations_differ :
  valid_quality 5 /\ 0 <= 2 /\ 0 <= 10 /\ 1.3 <= 2.5
  /\ Srs.interval (Srs.calculateSM2 5 2 2.5 10) == 26
  /\ (exists p, SM2Algorithm.calculateNextReview 0 5 2 10 2.5 = Normal p
                /\ SM2Algorithm.interval p == 25)
  /\ ~ same_schedule (Srs.calculateSM2 5 2 2.5 10)
                     (SM2Algorithm.calculateNextReview 0 5 2 10 2.5).
Proof.
  repeat split; try (unfold Qle; simpl; lia).
  - eexists; split; [reflexivity|]. reflexivity.
  - vm_compute. intros (H & _). discriminate H.
Qed.

(** C1, amended: for a quality in [0,5], [calculateSM2] and
    [calculateNextReview] return the same repetitions and the same ease
    factor, and the same interval when the quality is below 3 or the new
    repetition count is 1 or 2.  From the third success on, the application
    multiplies the interval by the updated ease factor and the engine by the
    ease factor it was given; the two agree for quality 4, where the update
    leaves an ease factor of at least 1.3 unchanged. *)
Theorem sm2_implementations_agreement (today q r i ef : number) :
  valid_quality q ->
  exists p,
    SM2Algorithm.calculateNextReview today q r i ef = Normal p
    /\ Srs.repetitions (Srs.calculateSM2 q r ef i) = SM2Algorithm.repetitions p
    /\ Srs.easeFactor (Srs.calculateSM2 q r ef i) = SM2Algorithm.easeFactor p
    /\ (q < 3 \/ r + 1 == 1 \/ r + 1 == 2 ->
        Srs.interval (Srs.calculateSM2 q r ef i) = SM2Algorithm.interval p)
    /\ (3 <= q -> 2 <= r ->
        Srs.interval (Srs.calculateSM2 q r ef i)
        = Math_round (i * Srs.easeFactor (Srs.calculateSM2 q r ef i))
        /\ SM2Algorithm.interval p = Math_round (i * ef))
    /\ (q == 4 -> 1.3 <= ef ->
        Srs.interval (Srs.calculateSM2 q r ef i) = SM2Algorithm.interval p).
Proof.
  intros Hq. eexists. split; [now apply calculateNextReview_valid|].
  cbn [SM2Algorithm.interval SM2Algorithm.repetitions SM2Algorithm.easeFactor].
  rewrite Srs_repetitions, Srs_easeFactor, Srs_interval.
  repeat split.
  - intros H. js_cases; try reflexivity; exfalso; lra.
  - js_cases; try reflexivity; exfalso; lra.
  - js_cases; try reflexivity; exfalso; lra.
  - intros H4 Hef. js_cases; try reflexivity.
    apply Math_round_eq. unfold updatedEase. js_cases; nra.
Qed.

Lemma sm2_implementations_agreement_witness :
  exists p,
    SM2Algorithm.calculateNextReview 0 3 2 10 2.5 = Normal p
    /\ Srs.repetitions (Srs.calculateSM2 3 2 2.5 10) = SM2Algorithm.repetitions p
    /\ Srs.easeFactor (Srs.calculateSM2 3 2 2.5 10) = SM2Algorithm.easeFactor p
    /\ (3 < 3 \/ 2 + 1 == 1 \/ 2 + 1 == 2 ->
        Srs.interval (Srs.calculateSM2 3 2 2.5 10) = SM2Algorithm.interval p)
    /\ (3 <= 3 -> 2 <= 2 ->
        Srs.interval (Srs.calculateSM2 3 2 2.5 10)
        = Math_round (10 * Srs.easeFactor (Srs.calculateSM2 3 2 2.5 10))
        /\ SM2Algorithm.interval p = Math_round (10 * 2.5))
    /\ (3 == 4 -> 1.3 <= 2.5 ->
        Srs.interval (Srs.calculateSM2 3 2 2.5 10) = SM2Algorithm.interval p).
Proof.
  apply (sm2_implementations_agreement 0 3 2 10 2.5).
  unfold valid_quality. lra.
Defined.

(** C2, as stated, fails for [calculateSM2]: called with quality 6 it returns
    a schedule (27 days) instead of raising an error. *)
Lemma calculateSM2_accepts_quality_6 :
  5 < 6
  /\ throws (Srs.calculateSM2_call 6 2 2.5 10) = false
  /\ Srs.interval (Srs.calculateSM2 6 2 2.5 10) == 27
  /\ Srs.repetitions (Srs.calculateSM2 6 2 2.5 10) == 3.
Proof. repeat split. Qed.

(** C2, amended: [calculateNextReview] throws exactly when the quality is
    below 0 or above 5 and returns a result exactly when it is in [0,5];
    [calculateSM2] returns a result for every input and never fails. *)
Theorem quality_validation (today q r i ef : number) :
  (throws (SM2Algorithm.calculateNextReview today q r i ef) = true
   <-> q < 0 \/ 5 < q)
  /\ (returns (SM2Algorithm.calculateNextReview today q r i ef) = true
      <-> valid_quality q)
  /\ returns (Srs.calculateSM2_call q r ef i) = true.
Proof.
  unfold valid_quality, throws.
  destruct (Qlt_le_dec q 0) as [H0|H0]; [|destruct (Qlt_le_dec 5 q) as [H5|H5]].
  - rewrite calculateNextReview_invalid by auto. cbn.
    repeat split; auto; try discriminate; intros; exfalso; lra.
  - rewrite calculateNextReview_invalid by auto. cbn.
    repeat split; auto; try discriminate; intros; exfalso; lra.
  - rewrite calculateNextReview_valid by auto. cbn.
    repeat split; auto; try discriminate; intros; exfalso; lra.
Qed.

(** C3 (failure reset): a quality below 3 (and not below 0) makes both
    implementations return 0 repetitions and an interval of 1, whatever the
    repetitions, interval and ease factor were. *)
Theorem failure_reset (today q r i ef : number) :
  0 <= q -> q < 3 ->
  Srs.repetitions (Srs.calculateSM2 q r ef i) = 0
  /\ Srs.interval (Srs.calculateSM2 q r ef i) = 1
  /\ exists p,
       SM2Algorithm.calculateNextReview today q r i ef = Normal p
       /\ SM2Algorithm.repetitions p = 0
       /\ SM2Algorithm.interval p = 1.
Proof.
  intros H0 H3.
  rewrite Srs_repetitions, Srs_interval.
  destruct (ltb_spec q 3) as [_|N]; [|contradiction].
  repeat split.
  eexists. split.
  - apply calculateNextReview_valid. split; lra.
  - cbn. destruct (ltb_spec q 3) as [_|N]; [|contradiction]. split; reflexivity.
Qed.

Lemma failure_reset_witness :
  Srs.repetitions (Srs.calculateSM2 2 7 2.8 40) = 0
  /\ Srs.interval (Srs.calculateSM2 2 7 2.8 40) = 1
  /\ exists p,
       SM2Algorithm.calculateNextReview 0 2 7 40 2.8 = Normal p
       /\ SM2Algorithm.repetitions p = 0
       /\ SM2Algorithm.interval p = 1.
Proof. apply (failure_reset 0 2 7 40 2.8); lra. Defined.

Lemma Forall_prefix {A : Type} (P : A -> Prop) (n : nat) (l : list A) :
  Forall P l -> Forall P (firstn n l).
Proof.
  intros H. revert n. induction H as [|x l Hx _ IH]; intros [|n]; cbn; auto.
Qed.

(** The floor survives a run of reviews of the application. *)
Lemma Srs_reviews_floor (qs : list number) (card : Srs.SM2) :
  1.3 <= Srs.easeFactor card -> 1.3 <= Srs.easeFactor (Srs.reviews card qs).
Proof.
  revert card. induction qs as [|q qs IH]; intros card H; cbn.
  - exact H.
  - apply IH. unfold Srs.review. rewrite Srs_easeFactor.
    apply updatedEase_floor.
Qed.

(** A run of valid qualities through the engine returns, above the floor. *)
Lemma SM2Algorithm_reviews_floor (today : number) (qs : list number)
    (card : SM2Algorithm.SRSParams) :
  Forall valid_quality qs ->
  1.3 <= SM2Algorithm.easeFactor card ->
  exists card',
    SM2Algorithm.reviews today card qs = Normal card'
    /\ 1.3 <= SM2Algorithm.easeFactor card'.
Proof.
  intros Hqs. revert card.
  induction Hqs as [|q qs Hq _ IH]; intros card H; cbn.
  - now exists card.
  - rewrite calculateNextReview_valid by exact Hq. cbv zeta.
    apply IH. cbn. apply updatedEase_floor.
Qed.

(** C4 (ease-factor floor): for a quality in [0,5] the ease factor either
    implementation returns is at least 1.3, and along any run of such
    reviews that starts from an ease factor of at least 1.3 the ease factor
    is at least 1.3 after every review. *)
Theorem ease_factor_floor (today q r i ef : number) (qs : list number) (n : nat) :
  valid_quality q -> Forall valid_quality qs -> 1.3 <= ef ->
  1.3 <= Srs.easeFactor (Srs.calculateSM2 q r ef i)
  /\ (exists p,
        SM2Algorithm.calculateNextReview today q r i ef = Normal p
        /\ 1.3 <= SM2Algorithm.easeFactor p)
  /\ 1.3 <= Srs.easeFactor (Srs.reviews (Srs.mkSM2 i r ef) (firstn n qs))
  /\ (exists p,
        SM2Algorithm.reviews today (SM2Algorithm.mkSRSParams i r ef today)
          (firstn n qs) = Normal p
        /\ 1.3 <= SM2Algorithm.easeFactor p).
Proof.
  intros Hq Hqs Hef. repeat split.
  - rewrite Srs_easeFactor. apply updatedEase_floor.
  - eexists. split; [now apply calculateNextReview_valid|].
    cbn. apply updatedEase_floor.
  - now apply Srs_reviews_floor.
  - apply SM2Algorithm_reviews_floor; [|exact Hef].
    now apply Forall_prefix.
Qed.

Lemma ease_factor_floor_witness :
  1.3 <= Srs.easeFactor (Srs.calculateSM2 0 3 1.3 12)
  /\ (exists p,
        SM2Algorithm.calculateNextReview 0 0 3 12 1.3 = Normal p
        /\ 1.3 <= SM2Algorithm.easeFactor p)
  /\ 1.3 <= Srs.easeFactor
              (Srs.reviews (Srs.mkSM2 12 3 1.3) (firstn 3 [0; 1; 5; 2]))
  /\ (exists p,
        SM2Algorithm.reviews 0 (SM2Algorithm.mkSRSParams 12 3 1.3 0)
          (firstn 3 [0; 1; 5; 2]) = Normal p
        /\ 1.3 <= SM2Algorithm.easeFactor p).
Proof.
  apply (ease_factor_floor 0 0 3 12 1.3 [0; 1; 5; 2] 3).
  - unfold valid_quality. lra.
  - repeat constructor; unfold Qle; simpl; lia.
  - lra.
Defined.

(** C5 (SM-2 monotonicity): with repetitions, interval (not negative) and
    ease factor fixed, the interval [calculateSM2] returns does not decrease
    when the quality goes up within [3,5]; the engine's interval does not
    depend on the quality there. *)
Theorem interval_monotone_in_quality (today q1 q2 r i ef : number) :
  3 <= q1 -> q1 <= q2 -> q2 <= 5 -> 0 <= i ->
  Srs.interval (Srs.calculateSM2 q1 r ef i)
  <= Srs.interval (Srs.calculateSM2 q2 r ef i)
  /\ exists p1 p2,
       SM2Algorithm.calculateNextReview today q1 r i ef = Normal p1
       /\ SM2Algorithm.calculateNextReview today q2 r i ef = Normal p2
       /\ SM2Algorithm.interval p1 <= SM2Algorithm.interval p2.
Proof.
  intros H3 H12 H5 Hi. split.
  - rewrite !Srs_interval.
    destruct (ltb_spec q1 3); [lra|]. destruct (ltb_spec q2 3); [lra|].
    js_cases; try lra.
    apply Math_round_le.
    pose proof (updatedEase_mono q1 q2 ef H3 H12 H5). nra.
  - do 2 eexists. split; [|split].
    + apply calculateNextReview_valid. split; lra.
    + apply calculateNextReview_valid. split; lra.
    + cbn. destruct (ltb_spec q1 3); [lra|]. destruct (ltb_spec q2 3); [lra|].
      js_cases; lra.
Qed.

Lemma interval_monotone_in_quality_witness :
  Srs.interval (Srs.calculateSM2 3 2 2.5 10)
  <= Srs.interval (Srs.calculateSM2 5 2 2.5 10)
  /\ exists p1 p2,
       SM2Algorithm.calculateNextReview 0 3 2 10 2.5 = Normal p1
       /\ SM2Algorithm.calculateNextReview 0 5 2 10 2.5 = Normal p2
       /\ SM2Algorithm.interval p1 <= SM2Algorithm.interval p2.
Proof. apply (interval_monotone_in_quality 0 3 5 2 10 2.5); lra. Defined.

(** ** The bisection of [recommendReviewTiming] *)

Section Bisection.

Import RetentionPredictor.

Variable Math_exp : number -> number.
Variable itemData : ItemData.
Variable target : number.

Let probe := converged Math_exp itemData target.
Let step := body Math_exp itemData target.
Let loop := while Math_exp itemData target.
Let at_guard := at_guard Math_exp itemData target.
Let at_exit := at_exit Math_exp itemData target.

Lemma at_guard_initial : at_guard (initial itemData).
Proof.
  constructor; cbn; auto.
  - unfold maxIterations. lia.
  - repeat constructor; unfold Qle; simpl; lia.
Qed.

Lemma hd_error_snoc {A : Type} (l m : list A) (x : A) :
  hd_error ((l ++ [x]) ++ m) = hd_error (l ++ [x]).
Proof. now destruct l. Qed.

Lemma midpoint_within (lo hi : number) :
  lo <= hi -> lo <= midpoint (lo, hi) /\ midpoint (lo, hi) <= hi.
Proof.
  intro H. unfold midpoint, Qdiv. cbn [fst snd].
  change (/ 2) with (1 # 2). split; lra.
Qed.

(** One execution of the body: it bisects the current bracket, and either
    breaks on a converged probe or keeps one half and counts. *)
Lemma body_break (s s' : Loop) :
  step s = Break s' ->
  probe (midpoint (low s, high s)) = true
  /\ s' = mkLoop (midpoint (low s, high s)) (low s) (high s) (iterations s)
                 (bisected s ++ [(low s, high s)]).
Proof.
  unfold step, body, probe, converged, midpoint. cbn [fst snd].
  destruct (_ <? 0.01); [|destruct (_ >? _); discriminate].
  intros [= <-]. auto.
Qed.

Lemma body_continue (s s' : Loop) :
  step s = Continue s' ->
  probe (midpoint (low s, high s)) = false
  /\ days s' = midpoint (low s, high s)
  /\ iterations s' = S (iterations s)
  /\ bisected s' = bisected s ++ [(low s, high s)]
  /\ ((low s' = days s' /\ high s' = high s)
      \/ (low s' = low s /\ high s' = days s')).
Proof.
  unfold step, body, probe, converged, midpoint. cbn [fst snd].
  destruct (_ <? 0.01); [discriminate|].
  destruct (_ >? _); intros [= <-]; cbn; auto 10.
Qed.

Lemma at_guard_continue (s s' : Loop) :
  at_guard s -> (iterations s < maxIterations)%nat ->
  step s = Continue s' -> at_guard s'.
Proof.
  intros G Hlt E. apply body_continue in E.
  destruct E as (Hp & Hd & Hi & Hb & Hlh). destruct G.
  assert (Hw : within_bounds (low s, high s))
    by (apply Forall_app in g_range0 as [_ Hr]; now inversion Hr).
  destruct Hw as (W1 & W2 & W3). cbn [fst snd] in *.
  pose proof (midpoint_within _ _ W2) as [M1 M2].
  constructor.
  - rewrite Hb, Hi, length_app, g_count0. cbn. lia.
  - lia.
  - rewrite Hb, hd_error_snoc. exact g_first0.
  - rewrite Hb. apply Forall_app. split; [assumption|]. now constructor.
  - rewrite Hb. apply Forall_app. split; [assumption|].
    constructor; [|constructor]. unfold within_bounds. cbn [fst snd].
    destruct Hlh as [[-> ->]|[-> ->]]; rewrite Hd; repeat split; lra.
  - right. rewrite Hb, last_last. split; [assumption|].
    destruct Hlh as [[-> _]|[_ ->]]; auto.
Qed.

Lemma at_exit_break (s s' : Loop) :
  at_guard s -> (iterations s < maxIterations)%nat ->
  step s = Break s' -> at_exit s'.
Proof.
  intros G Hlt E. apply body_break in E. destruct E as (Hp & ->). destruct G.
  constructor; cbn [bisected days iterations low high].
  - assumption.
  - now rewrite last_last.
  - now rewrite removelast_last.
  - assumption.
  - left. repeat split; auto. rewrite length_app, g_count0. cbn. lia.
Qed.

Lemma at_exit_budget (s : Loop) :
  at_guard s -> ~ (iterations s < maxIterations)%nat -> at_exit s.
Proof.
  intros G Hge. destruct G.
  assert (Hi : iterations s = maxIterations) by lia.
  assert (Hne : bisected s <> [])
    by (intros E; rewrite E in g_count0; cbn in g_count0;
        unfold maxIterations in Hi; lia).
  destruct g_days0 as [Z|[Hd Hlh]]; [unfold maxIterations in Hi; lia|].
  rewrite (app_removelast_last (0, 0) Hne) in g_open0, g_first0, g_range0.
  apply Forall_app in g_open0 as [Ho Hl]. inversion Hl as [|? ? Hlast _]; subst.
  constructor.
  - rewrite (app_removelast_last (0, 0) Hne).
    now rewrite hd_error_snoc in g_first0.
  - assumption.
  - assumption.
  - rewrite (app_removelast_last (0, 0) Hne).
    apply Forall_app in g_range0 as [Hr _]. exact Hr.
  - right. rewrite Hd. repeat split; auto.
    + now rewrite g_count0.
    + now rewrite <- Hd.
Qed.

(** The loop returns as soon as the fuel exceeds the iterations that are
    left, and leaves the variables as [at_exit] says. *)
Lemma while_returns (fuel : nat) (s : Loop) :
  at_guard s -> (maxIterations - iterations s < fuel)%nat ->
  exists s', loop fuel s = Some s' /\ at_exit s'.
Proof.
  revert s. induction fuel as [|fuel IH]; intros s G Hf; [lia|].
  unfold loop. cbn [while].
  destruct (Nat.ltb_spec (iterations s) maxIterations) as [Hlt|Hge].
  - destruct (body Math_exp itemData target s) as [s'|s'] eqn:E.
    + exists s'. split; [reflexivity|]. now apply (at_exit_break s).
    + apply IH.
      * now apply (at_guard_continue s).
      * apply body_continue in E. destruct E as (_ & _ & -> & _). lia.
  - exists s. split; [reflexivity|]. apply at_exit_budget; [assumption|lia].
Qed.

Lemma while_more_fuel (fuel : nat) (s s' : Loop) :
  loop fuel s = Some s' -> loop (S fuel) s = Some s'.
Proof.
  unfold loop. revert s. induction fuel as [|fuel IH]; intros s; [discriminate|].
  intros H. cbn [while] in H. change (while Math_exp itemData target (S (S fuel)) s)
    with (if (iterations s <? maxIterations)%nat
          then match body Math_exp itemData target s with
               | Break s1 => Some s1
               | Continue s1 => while Math_exp itemData target (S fuel) s1
               end
          else Some s).
  destruct (iterations s <? maxIterations)%nat; [|exact H].
  destruct (body Math_exp itemData target s); [exact H|]. now apply IH.
Qed.

Lemma while_fuel_le (fuel fuel' : nat) (s s' : Loop) :
  (fuel <= fuel')%nat -> loop fuel s = Some s' -> loop fuel' s = Some s'.
Proof.
  induction 1 as [|m _ IH]; intros H; [exact H|].
  apply while_more_fuel. now apply IH.
Qed.

End Bisection.

(** C6: [recommendReviewTiming] always returns.  The loop is left after the
    body has run at most 20 times, starting from the bracket [0.1, 365] and
    never leaving it; it is left early exactly on a probe whose predicted
    recall is within 0.01 of the target, and otherwise, after the 20th
    bisection, with the midpoint of the last bracket it bisected (by then
    one end of the bracket that is left).  Either way the result is that
    midpoint, rounded. *)
Theorem recommendReviewTiming_terminates (Math_exp : number -> number)
    (itemData : RetentionPredictor.ItemData) (targetRetention : option number) :
  let target := RetentionPredictor.orDefault targetRetention in
  let probe := RetentionPredictor.converged Math_exp itemData target in
  exists s : RetentionPredictor.Loop,
    (forall fuel, (RetentionPredictor.maxIterations < fuel)%nat ->
       RetentionPredictor.while Math_exp itemData target fuel
         (RetentionPredictor.initial itemData) = Some s)
    /\ RetentionPredictor.recommendReviewTiming Math_exp itemData targetRetention
       = Some (Math_round (RetentionPredictor.days s))
    /\ (1 <= List.length (RetentionPredictor.bisected s) <= 20)%nat
    /\ hd_error (RetentionPredictor.bisected s) = Some (0.1, 365)
    /\ Forall within_bounds (RetentionPredictor.bisected s)
    /\ RetentionPredictor.days s
       = RetentionPredictor.midpoint (last (RetentionPredictor.bisected s) (0, 0))
    /\ Forall (fun b => probe (RetentionPredictor.midpoint b) = false)
              (removelast (RetentionPredictor.bisected s))
    /\ (probe (RetentionPredictor.days s) = false ->
        List.length (RetentionPredictor.bisected s) = 20%nat
        /\ RetentionPredictor.iterations s = 20%nat
        /\ (RetentionPredictor.days s = RetentionPredictor.low s
            \/ RetentionPredictor.days s = RetentionPredictor.high s)).
Proof.
  intros target probe.
  destruct (while_returns Math_exp itemData target
              (S RetentionPredictor.maxIterations)
              (RetentionPredictor.initial itemData))
    as (s & Hs & X).
  - apply at_guard_initial.
  - unfold RetentionPredictor.maxIterations. cbn. lia.
  - exists s. destruct X. repeat split; try assumption.
    + intros fuel Hf.
      apply (while_fuel_le Math_exp itemData target
               (S RetentionPredictor.maxIterations)); [lia|exact Hs].
    + unfold RetentionPredictor.recommendReviewTiming,
        RetentionPredictor.recommendReviewTiming_fuel.
      fold target. now rewrite Hs.
    + destruct x_why0 as [(_ & _ & ->)|(_ & _ & -> & _)];
        unfold RetentionPredictor.maxIterations; lia.
    + destruct x_why0 as [(_ & H & ->)|(_ & _ & -> & _)];
        unfold RetentionPredictor.maxIterations in *; lia.
    + destruct x_why0 as [(C & _)|(_ & _ & L & _)]; [|exact L].
      fold probe in C. congruence.
    + destruct x_why0 as [(C & _)|(_ & I & _)]; [|exact I].
      fold probe in C. congruence.
    + destruct x_why0 as [(C & _)|(_ & _ & _ & D)]; [|exact D].
      fold probe in C. congruence.
Qed.

(** ** The difficulty adjuster *)

Lemma calculateDifficultyIncrease_range
    (item : DifficultyAdjuster.LearningItem)
    (p : DifficultyAdjuster.PerformanceData) :
  0.1 <= DifficultyAdjuster.calculateDifficultyIncrease item p
  /\ DifficultyAdjuster.calculateDifficultyIncrease item p <= 0.2.
Proof.
  unfold DifficultyAdjuster.calculateDifficultyIncrease, Math_min.
  destruct (DifficultyAdjuster.averageTime item); js_cases; split; lra.
Qed.

Lemma calculateDifficultyDecrease_range
    (item : DifficultyAdjuster.LearningItem)
    (p : DifficultyAdjuster.PerformanceData) :
  0.15 <= DifficultyAdjuster.calculateDifficultyDecrease item p
  /\ DifficultyAdjuster.calculateDifficultyDecrease item p <= 0.35.
Proof.
  unfold DifficultyAdjuster.calculateDifficultyDecrease, Math_min.
  destruct (DifficultyAdjuster.averageTime item); js_cases; split; lra.
Qed.

(** C7 (difficulty cap): the increase [calculateDifficultyIncrease] computes
    is at most 0.30 and the decrease [calculateDifficultyDecrease] computes
    is at most 0.40, for every item and sample; so the change of difficulty
    [adjustItemDifficulty] attaches (the increase when accuracy >= 0.9, minus
    the decrease when accuracy <= 0.5) lies in [-0.40, +0.30]. *)
Theorem difficulty_cap (now : number)
    (item : DifficultyAdjuster.LearningItem)
    (p : DifficultyAdjuster.PerformanceData) :
  let adjusted := DifficultyAdjuster.adjustItemDifficulty now item p in
  DifficultyAdjuster.calculateDifficultyIncrease item p <= 0.30
  /\ DifficultyAdjuster.calculateDifficultyDecrease item p <= 0.40
  /\ - 0.40 <= difficultyDelta adjusted
  /\ difficultyDelta adjusted <= 0.30
  /\ (0.9 <= DifficultyAdjuster.accuracy p ->
      DifficultyAdjuster.difficultyIncrease adjusted
      = Some (DifficultyAdjuster.calculateDifficultyIncrease item p)
      /\ DifficultyAdjuster.difficultyDecrease adjusted = None)
  /\ (DifficultyAdjuster.accuracy p <= 0.5 ->
      DifficultyAdjuster.difficultyDecrease adjusted
      = Some (DifficultyAdjuster.calculateDifficultyDecrease item p)
      /\ DifficultyAdjuster.difficultyIncrease adjusted = None).
Proof.
  intro adjusted.
  pose proof (calculateDifficultyIncrease_range item p) as [I1 I2].
  pose proof (calculateDifficultyDecrease_range item p) as [D1 D2].
  unfold adjusted, difficultyDelta,
    DifficultyAdjuster.adjustItemDifficulty.
  cbn [DifficultyAdjuster.difficultyIncrease
       DifficultyAdjuster.difficultyDecrease
       DifficultyAdjuster.easy DifficultyAdjuster.hard
       DifficultyAdjuster.performanceThresholds].
  split; [lra|]. split; [lra|].
  js_cases; repeat split; intros; try reflexivity; lra.
Qed.

(** *** The rounding of doubles *)

Lemma exponent_le (x : Q) : 0 < x -> 2 ^ Double.exponent x <= x.
Proof.
  intros Hx. unfold Double.exponent.
  destruct x as [p q]. cbn [Qnum Qden].
  set (a := Z.log2 p). set (b := Z.log2 (Zpos q)).
  destruct (Qle_bool (2 ^ (a - b)) (p # q)) eqn:E; [now apply Qle_bool_iff|].
  clear E.
  assert (Hp : (0 < p)%Z) by (unfold Qlt in Hx; cbn in Hx; lia).
  assert (Ha : (0 <= a)%Z) by apply Z.log2_nonneg.
  assert (Hb : (0 <= b)%Z) by apply Z.log2_nonneg.
  destruct (Z.log2_spec p Hp) as [La _]. fold a in La.
  destruct (Z.log2_spec (Zpos q) eq_refl) as [_ Lb]. fold b in Lb.
  assert (P2 : forall k, 0 < 2 ^ k) by (intros k; now apply Qpower_0_lt).
  setoid_replace (2 ^ (a - b - 1)) with (2 ^ a / 2 ^ (b + 1))
    by (rewrite <- Qpower_minus by discriminate; f_equiv; lia).
  apply Qle_shift_div_r; [apply P2|].
  rewrite (Qmake_Qdiv p q).
  setoid_replace (inject_Z p / inject_Z (Zpos q) * 2 ^ (b + 1))
    with (inject_Z p * 2 ^ (b + 1) / inject_Z (Zpos q))
    by (unfold Qdiv; ring).
  apply Qle_shift_div_l; [reflexivity|].
  change 2 with (inject_Z 2).
  rewrite <- !Zpower_Qpower by lia. rewrite <- !inject_Z_mult, <- Zle_Qle.
  replace (Z.succ b) with (b + 1)%Z in Lb by lia. nia.
Qed.

Lemma nearest_even_error (x : Q) :
  Qabs (inject_Z (Double.nearest_even x) - x) <= 1 # 2.
Proof.
  unfold Double.nearest_even.
  pose proof (Qfloor_le x) as L. pose proof (Qlt_floor x) as U.
  rewrite inject_Z_plus in U. change (inject_Z 1) with 1 in U.
  apply Qabs_Qle_condition.
  destruct (ltb_spec (x - inject_Z (Qfloor x)) (1 # 2)) as [H|H].
  - split; lra.
  - destruct (ltb_spec (1 # 2) (x - inject_Z (Qfloor x))) as [H'|H'].
    + rewrite inject_Z_plus. change (inject_Z 1) with 1. split; lra.
    + destruct (Z.even (Qfloor x)).
      * split; lra.
      * rewrite inject_Z_plus. change (inject_Z 1) with 1. split; lra.
Qed.

(** Rounding changes a number by at most [2^-53] of its magnitude. *)
Lemma round_error (x : Q) :
  Qabs (Double.round x - x) <= Qabs x * (1 # 9007199254740992).
Proof.
  unfold Double.round.
  destruct (Qeq_bool x 0) eqn:E.
  - apply Qeq_bool_eq in E. rewrite E. now vm_compute.
  - apply Qeq_bool_neq in E.
    assert (Hx : 0 < Qabs x).
    { destruct (Qlt_le_dec 0 (Qabs x)) as [H|H]; [exact H|].
      exfalso. apply E. pose proof (Qabs_nonneg x) as N.
      assert (Z0 : Qabs x == 0) by lra.
      revert Z0. apply Qabs_case; intros; lra. }
    pose proof (exponent_le (Qabs x) Hx) as L.
    set (e := Double.exponent (Qabs x)) in *.
    assert (P : 0 < 2 ^ (e - 52)) by now apply Qpower_0_lt.
    assert (S : 2 ^ (e - 52) == 2 ^ e * (1 # 4503599627370496)).
    { unfold Z.sub. rewrite Qpower_plus by discriminate. reflexivity. }
    set (ulp := 2 ^ (e - 52)) in *.
    pose proof (nearest_even_error (x / ulp)) as N.
    rewrite Qred_correct.
    setoid_replace (inject_Z (Double.nearest_even (x / ulp)) * ulp - x)
      with ((inject_Z (Double.nearest_even (x / ulp)) - x / ulp) * ulp)
      by (field; lra).
    rewrite Qabs_Qmult, (Qabs_pos ulp) by lra.
    set (d := Qabs (inject_Z _ - _)) in *.
    assert (d * ulp <= (1 # 2) * ulp) by (apply Qmult_le_compat_r; lra).
    set (p := 2 ^ e) in *. set (a := Qabs x) in *. lra.
Qed.

(** *** The average of the session *)

Lemma totalAccuracy_snoc (l : list DifficultyAdjuster.PerformanceData)
    (p : DifficultyAdjuster.PerformanceData) :
  totalAccuracy (l ++ [p]) == totalAccuracy l + DifficultyAdjuster.accuracy p.
Proof.
  induction l as [|q l IH]; cbn; [ring|].
  fold (totalAccuracy (l ++ [p])). fold (totalAccuracy l). rewrite IH. ring.
Qed.

Lemma sum_of_snoc (l : list DifficultyAdjuster.PerformanceData)
    (p : DifficultyAdjuster.PerformanceData) :
  DifficultyAdjuster.sum_of DifficultyAdjuster.accuracy (l ++ [p])
  = Double.add (DifficultyAdjuster.sum_of DifficultyAdjuster.accuracy l)
               (DifficultyAdjuster.accuracy p).
Proof. unfold DifficultyAdjuster.sum_of. now rewrite fold_left_app. Qed.

Lemma inject_nat_succ (n : nat) :
  inject_Z (Z.of_nat (n + 1)) == inject_Z (Z.of_nat n) + 1.
Proof.
  rewrite Nat2Z.inj_add, inject_Z_plus. reflexivity.
Qed.

Lemma count_range (n : nat) (m : Z) :
  (Z.of_nat n <= m)%Z ->
  0 <= inject_Z (Z.of_nat n) /\ inject_Z (Z.of_nat n) <= inject_Z m.
Proof. intros H. rewrite <- (Zle_Qle 0), <- Zle_Qle. lia. Qed.

(** The sum the code computes is within [k * 2^-32] of the sum of [k]
    accuracies between 0 and 1, for up to a million of them. *)
Lemma sum_of_error (l : list DifficultyAdjuster.PerformanceData) :
  Forall (fun p => 0 <= DifficultyAdjuster.accuracy p
                   /\ DifficultyAdjuster.accuracy p <= 1) l ->
  (Z.of_nat (List.length l) <= 1000000)%Z ->
  let k := inject_Z (Z.of_nat (List.length l)) in
  let computed := DifficultyAdjuster.sum_of DifficultyAdjuster.accuracy l in
  0 <= computed
  /\ Qabs (computed - totalAccuracy l) <= k * (1 # 4294967296)
  /\ 0 <= totalAccuracy l /\ totalAccuracy l <= k.
Proof.
  induction l as [|p l IH] using rev_ind; intros R B k computed.
  - unfold computed, k. cbn.
    split; [|split; [|split]]; now vm_compute.
  - apply Forall_app in R as [R Rp]. apply Forall_inv in Rp.
    rewrite length_app, Nat2Z.inj_add in B. cbn [List.length] in B.
    destruct (IH R ltac:(lia)) as (C0 & CE & T0 & T1). clear IH.
    unfold computed, k. rewrite sum_of_snoc, length_app. cbn [List.length].
    rewrite inject_nat_succ, totalAccuracy_snoc.
    pose proof (count_range (List.length l) 999999 ltac:(lia)) as [K0 K1].
    change (inject_Z 999999) with 999999 in K1.
    set (n := inject_Z (Z.of_nat (List.length l))) in *.
    set (s := DifficultyAdjuster.sum_of DifficultyAdjuster.accuracy l) in *.
    set (t := totalAccuracy l) in *.
    set (x := DifficultyAdjuster.accuracy p) in *.
    unfold Double.add.
    pose proof (round_error (s + x)) as E.
    rewrite (Qabs_pos (s + x)) in E by lra.
    apply Qabs_Qle_condition in E. apply Qabs_Qle_condition in CE.
    set (r := Double.round (s + x)) in *.
    split; [lra|]. split; [|split; lra].
    apply Qabs_Qle_condition. split; lra.
Qed.

(** The average the code computes is within [2^-31] of the mean of the
    accuracies. *)
Lemma averageOf_error (l : list DifficultyAdjuster.PerformanceData) :
  l <> [] ->
  Forall (fun p => 0 <= DifficultyAdjuster.accuracy p
                   /\ DifficultyAdjuster.accuracy p <= 1) l ->
  (Z.of_nat (List.length l) <= 1000000)%Z ->
  Qabs (DifficultyAdjuster.averageOf DifficultyAdjuster.accuracy l
        - meanAccuracy l) <= 1 # 2147483648.
Proof.
  intros N R B.
  destruct (sum_of_error l R B) as (C0 & CE & T0 & T1).
  unfold DifficultyAdjuster.averageOf, meanAccuracy, Double.div.
  assert (K : 1 <= inject_Z (Z.of_nat (List.length l))).
  { rewrite <- (Zle_Qle 1). destruct l; [congruence|]. cbn [List.length]. lia. }
  set (n := inject_Z (Z.of_nat (List.length l))) in *.
  set (s := DifficultyAdjuster.sum_of DifficultyAdjuster.accuracy l) in *.
  set (t := totalAccuracy l) in *.
  apply Qabs_Qle_condition in CE.
  assert (A : 0 <= s / n) by (apply Qle_shift_div_l; lra).
  assert (D : - (1 # 4294967296) <= s / n - t / n
              /\ s / n - t / n <= 1 # 4294967296).
  { setoid_replace (s / n - t / n) with ((s - t) / n) by (field; lra).
    split; [apply Qle_shift_div_l|apply Qle_shift_div_r]; lra. }
  assert (M : t / n <= 1) by (apply Qle_shift_div_r; lra).
  pose proof (round_error (s / n)) as E.
  rewrite (Qabs_pos (s / n)) in E by exact A.
  apply Qabs_Qle_condition in E.
  set (a := s / n) in *. set (m := t / n) in *.
  set (r := Double.round a) in *.
  apply Qabs_Qle_condition. split; lra.
Qed.

Lemma sessionAdjustment_values (l : list DifficultyAdjuster.PerformanceData) :
  DifficultyAdjuster.sessionAdjustment l = Double.round 0.9
  \/ DifficultyAdjuster.sessionAdjustment l = 1.0
  \/ DifficultyAdjuster.sessionAdjustment l = Double.round 1.1.
Proof.
  unfold DifficultyAdjuster.sessionAdjustment.
  destruct (_ >? _); [right; right; now vm_compute|].
  destruct (_ <? _); [left; now vm_compute|right; left; reflexivity].
Qed.

Lemma clamp_sessionAdjustment (l : list DifficultyAdjuster.PerformanceData) :
  Math_max (Double.round 0.7)
    (Math_min (Double.round 1.3) (DifficultyAdjuster.sessionAdjustment l))
  = DifficultyAdjuster.sessionAdjustment l.
Proof.
  destruct (sessionAdjustment_values l) as [E|[E|E]]; rewrite E;
    now vm_compute.
Qed.

(** C10, as stated, fails.  The four doubles written 0.65, 0.79, 0.7 and
    0.26 have a mean of at least 0.6 (as decimals their mean is 0.6), which
    is neither below 0.6 nor above 0.9; the sum the code computes is rounded
    at each addition and its quarter is the double below 0.6, so that
    [adjustSessionDifficulty] returns 0.9 and not 1.0. *)
Lemma adjustSessionDifficulty_rounds :
  let recent :=
    map (fun accuracy =>
           DifficultyAdjuster.mkPerformance (Double.round accuracy) 3000 1 None)
        [0.65; 0.79; 0.7; 0.26] in
  (0.65 + 0.79 + 0.7 + 0.26) / 4 == 0.6
  /\ 0.6 <= meanAccuracy recent /\ meanAccuracy recent <= 0.9
  /\ DifficultyAdjuster.averageOf DifficultyAdjuster.accuracy recent
     < Double.round 0.6
  /\ DifficultyAdjuster.adjustSessionDifficulty recent == Double.round 0.9
  /\ ~ DifficultyAdjuster.adjustSessionDifficulty recent == 1.0.
Proof.
  cbv zeta. split; [reflexivity|].
  split; [now vm_compute|]. split; [now vm_compute|].
  split; [now vm_compute|]. split; [now vm_compute|].
  now vm_compute.
Qed.

(** C10, amended: [adjustSessionDifficulty] returns 1.0 for the empty list;
    its result is always one of the doubles 0.9, 1.0 and 1.1, and the clamp
    to [0.7, 1.3] returns the value it is given.  For up to a million
    samples with accuracies between 0 and 1 it returns 1.1 when the mean
    accuracy is above 0.9 by at least [10^-9], 0.9 when it is below 0.6 by
    at least [10^-9], and 1.0 when it is from [0.6 + 10^-9] to
    [0.9 - 10^-9]; for a mean nearer to 0.6 it returns 0.9 or 1.0, for a
    mean nearer to 0.9 it returns 1.0 or 1.1.  The average the code compares
    with 0.9 and 0.6 is their rounded sum over their number, rounded, which
    is within [2^-31] of the mean. *)
Theorem adjustSessionDifficulty_values
    (recent : list DifficultyAdjuster.PerformanceData) :
  let mean := meanAccuracy recent in
  let factor := DifficultyAdjuster.adjustSessionDifficulty recent in
  (recent = [] -> factor == 1.0)
  /\ (factor == Double.round 0.9 \/ factor == 1.0
      \/ factor == Double.round 1.1)
  /\ Math_max (Double.round 0.7)
       (Math_min (Double.round 1.3)
          (DifficultyAdjuster.sessionAdjustment recent))
     = DifficultyAdjuster.sessionAdjustment recent
  /\ (recent <> [] ->
      Forall (fun p => 0 <= DifficultyAdjuster.accuracy p
                       /\ DifficultyAdjuster.accuracy p <= 1) recent ->
      (Z.of_nat (List.length recent) <= 1000000)%Z ->
      Qabs (DifficultyAdjuster.averageOf DifficultyAdjuster.accuracy recent
            - mean) <= 1 # 2147483648
      /\ (0.9 + (1 # 1000000000) <= mean -> factor == Double.round 1.1)
      /\ (mean <= 0.6 - (1 # 1000000000) -> factor == Double.round 0.9)
      /\ (0.6 + (1 # 1000000000) <= mean ->
          mean <= 0.9 - (1 # 1000000000) -> factor == 1.0)
      /\ (mean <= 0.9 - (1 # 1000000000) ->
          factor == Double.round 0.9 \/ factor == 1.0)
      /\ (0.6 + (1 # 1000000000) <= mean ->
          factor == 1.0 \/ factor == Double.round 1.1)).
Proof.
  intros mean factor.
  assert (E : recent <> [] ->
              factor = DifficultyAdjuster.sessionAdjustment recent).
  { unfold factor, DifficultyAdjuster.adjustSessionDifficulty.
    destruct recent; [congruence|]. intros _. apply clamp_sessionAdjustment. }
  split; [intros ->; reflexivity|].
  split.
  { destruct recent as [|p l]; [right; left; reflexivity|].
    rewrite E by discriminate.
    destruct (sessionAdjustment_values (p :: l)) as [V|[V|V]]; rewrite V;
      [left|right; left|right; right]; reflexivity. }
  split; [apply clamp_sessionAdjustment|].
  intros N R B.
  pose proof (averageOf_error recent N R B) as A.
  split; [exact A|].
  apply Qabs_Qle_condition in A. fold mean in A.
  rewrite (E N). unfold DifficultyAdjuster.sessionAdjustment.
  assert (T9 : 0.9 <= Double.round 0.9
               /\ Double.round 0.9 <= 0.9 + (1 # 4000000000))
    by (split; now vm_compute).
  assert (T6 : 0.6 - (1 # 4000000000) <= Double.round 0.6
               /\ Double.round 0.6 <= 0.6)
    by (split; now vm_compute).
  assert (V1 : Double.mul 1.0 (Double.round 1.1) = Double.round 1.1)
    by now vm_compute.
  assert (V0 : Double.mul 1.0 (Double.round 0.9) = Double.round 0.9)
    by now vm_compute.
  rewrite V1, V0.
  set (average :=
         DifficultyAdjuster.averageOf DifficultyAdjuster.accuracy recent) in *.
  set (t9 := Double.round 0.9) in *. set (t6 := Double.round 0.6) in *.
  unfold gtb.
  destruct (ltb_spec t9 average) as [H9|H9];
    [|destruct (ltb_spec average t6) as [H6|H6]];
    (split; [|split; [|split; [|split]]]); intros;
    first [ reflexivity
          | left; reflexivity
          | right; reflexivity
          | exfalso; lra ].
Qed.

Lemma adjustSessionDifficulty_values_witness :
  let recent :=
    map (fun accuracy => DifficultyAdjuster.mkPerformance accuracy 3000 1 None)
        [1; Double.round 0.95; 1] in
  Qabs (DifficultyAdjuster.averageOf DifficultyAdjuster.accuracy recent
        - meanAccuracy recent) <= 1 # 2147483648
  /\ DifficultyAdjuster.adjustSessionDifficulty recent == Double.round 1.1.
Proof.
  intros recent.
  destruct (adjustSessionDifficulty_values recent) as (_ & _ & _ & H).
  destruct H as (A & H & _).
  - discriminate.
  - unfold recent.
    repeat (apply Forall_cons; [split; now vm_compute|]). apply Forall_nil.
  - cbn. lia.
  - split; [exact A|]. apply H. now vm_compute.
Defined.

(** Two more lists whose mean, as decimals, is one of the thresholds: the
    average computed for the first is the double below 0.6, for the second
    the double above 0.9. *)
Example adjustSessionDifficulty_at_thresholds :
  let samples accuracies :=
    map (fun accuracy =>
           DifficultyAdjuster.mkPerformance (Double.round accuracy) 3000 1 None)
        accuracies in
  (0.95 + 0.58 + 0.38 + 0.49) / 4 == 0.6
  /\ DifficultyAdjuster.adjustSessionDifficulty
       (samples [0.95; 0.58; 0.38; 0.49]) = Double.round 0.9
  /\ (0.81 + 0.87 + 0.93 + 0.99) / 4 == 0.9
  /\ DifficultyAdjuster.adjustSessionDifficulty
       (samples [0.81; 0.87; 0.93; 0.99]) = Double.round 1.1.
Proof. repeat split; now vm_compute. Qed.

Example adjustSessionDifficulty_scenario :
  let sample accuracy := DifficultyAdjuster.mkPerformance accuracy 3000 1 None in
  DifficultyAdjuster.adjustSessionDifficulty
    (map sample [1; Double.round 0.95; 1]) = Double.round 1.1
  /\ DifficultyAdjuster.adjustSessionDifficulty
       (map sample [0.5; Double.round 0.7; 0.5]) = Double.round 0.9
  /\ DifficultyAdjuster.adjustSessionDifficulty
       (map sample [0.75; Double.round 0.8]) = 1.0.
Proof. repeat split; now vm_compute. Qed.

(** ** The selector *)

Section SortByKey.

Context {A : Type}.
Variable comparefn : A -> A -> number.
Variable key : A -> number.
Hypothesis comparefn_key : forall a b, comparefn a b == key b - key a.

Let descending (a b : A) : Prop := key b <= key a.

Lemma insert_Permutation (x : A) (l : list A) :
  Permutation (JSArray.insert comparefn x l) (x :: l).
Proof.
  induction l as [|y l IH]; cbn; [reflexivity|].
  destruct (comparefn x y >? 0); [|reflexivity].
  rewrite IH. apply perm_swap.
Qed.

Lemma sort_Permutation (l : list A) : Permutation (JSArray.sort comparefn l) l.
Proof.
  induction l as [|x l IH]; cbn; [reflexivity|].
  rewrite insert_Permutation. now constructor.
Qed.

Lemma sort_length (l : list A) :
  List.length (JSArray.sort comparefn l) = List.length l.
Proof. apply Permutation_length, sort_Permutation. Qed.

Lemma insert_descending (x : A) (l : list A) :
  StronglySorted descending l ->
  StronglySorted descending (JSArray.insert comparefn x l).
Proof.
  induction 1 as [|y l Hl IH Hy]; cbn.
  - repeat constructor.
  - unfold gtb. destruct (ltb_spec 0 (comparefn x y)) as [Hgt|Hle].
    + constructor; [exact IH|].
      apply (Permutation_Forall (Permutation_sym (insert_Permutation x l))).
      constructor; [|exact Hy].
      unfold descending. rewrite comparefn_key in Hgt. lra.
    + assert (Hxy : descending x y)
        by (unfold descending; rewrite comparefn_key in Hle; lra).
      constructor; [now constructor|].
      constructor; [exact Hxy|].
      eapply Forall_impl; [|exact Hy].
      unfold descending in *. intros z Hz. lra.
Qed.

Lemma sort_descending (l : list A) :
  StronglySorted descending (JSArray.sort comparefn l).
Proof.
  induction l as [|x l IH]; cbn; [constructor|].
  now apply insert_descending.
Qed.

End SortByKey.

Lemma slice0_count {A : Type} (l : list A) (n : nat) :
  JSArray.slice0 l (Z.of_nat n) = firstn n l.
Proof.
  unfold JSArray.slice0.
  destruct (Z.ltb_spec (Z.of_nat n) 0) as [H|_]; [lia|].
  destruct (Nat.le_gt_cases n (List.length l)) as [Hle|Hgt].
  - rewrite Z.min_l by lia. now rewrite Nat2Z.id.
  - rewrite Z.min_r by lia. rewrite Nat2Z.id, firstn_all.
    symmetry. apply firstn_all2. lia.
Qed.



Lemma selectStudyItems_count (store : ItemSelector.Store) (now : number)
    (userId : string) (n : nat) :
  ItemSelector.selectStudyItems store now userId (Some (Z.of_nat n))
  = firstn n
      (JSArray.sort (JSArray.SortCompare ItemSelector.byPriority)
         (map (fun item =>
                 ItemSelector.mkScored item
                   (ItemSelector.calculateItemPriority now item
                      (ItemSelector.getUserLearningData store userId)))
              (ItemSelector.getCandidateItems store
                 (ItemSelector.getUserLearningData store userId)))).
Proof. unfold ItemSelector.selectStudyItems. apply slice0_count. Qed.












(** ** The coordinator *)

Lemma selectStudyItems_empty (store : ItemSelector.Store) (now : number)
    (userId : string) (itemCount : option Z) :
  ItemSelector.getCandidateItems store
    (ItemSelector.getUserLearningData store userId) = [] ->
  ItemSelector.selectStudyItems store now userId itemCount = [].
Proof.
  intros E. unfold ItemSelector.selectStudyItems. rewrite E. cbn.
  unfold JSArray.slice0. apply firstn_nil.
Qed.

(** C8, as stated, fails: with the document's user data and an empty
    candidate list, [initializeStudySession] returns a session (with no
    item) instead of raising an error. *)
Lemma empty_pool_returns_a_session :
  let store :=
    ItemSelector.mkStore (fun _ => ItemSelector.sampleUserLearningData)
                         (fun _ => []) in
  let c :=
    LearningEngineCoordinator.mkCollaborators unit
      (fun _ => LearningEngineCoordinator.sampleUserLearningState)
      store
      (fun _ _ => Normal tt) in
  ItemSelector.getCandidateItems store
    (ItemSelector.getUserLearningData store "user") = []
  /\ throws
       (LearningEngineCoordinator.initializeStudySession unit c 0 "user"
          (LearningEngineCoordinator.mkOptions None)) = false
  /\ exists session,
       LearningEngineCoordinator.initializeStudySession unit c 0 "user"
         (LearningEngineCoordinator.mkOptions None) = Normal session
       /\ LearningEngineCoordinator.items session = [].
Proof.
  cbv zeta. split; [reflexivity|]. split; [reflexivity|].
  eexists. split; reflexivity.
Qed.

(** C8, amended: when the selector's candidate list is empty,
    [initializeStudySession] does not fail: it returns a session whose item
    list is empty, with an item count of 0, an estimated time of 0 and the
    focus "mixed". *)
Theorem empty_pool_session (Metadata : Type)
    (c : LearningEngineCoordinator.Collaborators Metadata) (now : number)
    (userId : string) (options : LearningEngineCoordinator.SessionOptions) :
  ItemSelector.getCandidateItems (LearningEngineCoordinator.selectorStore Metadata c)
    (ItemSelector.getUserLearningData
       (LearningEngineCoordinator.selectorStore Metadata c) userId) = [] ->
  exists session,
    LearningEngineCoordinator.initializeStudySession Metadata c now userId options
    = Normal session
    /\ LearningEngineCoordinator.items session = []
    /\ LearningEngineCoordinator.userState session
       = LearningEngineCoordinator.getUserLearningState Metadata c userId
    /\ LearningEngineCoordinator.itemCount
         (LearningEngineCoordinator.recommendations session) = 0
    /\ LearningEngineCoordinator.estimatedTime
         (LearningEngineCoordinator.recommendations session) = 0
    /\ LearningEngineCoordinator.focus
         (LearningEngineCoordinator.recommendations session) = "mixed"%string.
Proof.
  intros E. unfold LearningEngineCoordinator.initializeStudySession.
  rewrite (selectStudyItems_empty _ _ _ _ E). cbn.
  eexists. split; [reflexivity|]. cbn. repeat split.
Qed.

Lemma empty_pool_session_witness :
  exists session,
    LearningEngineCoordinator.initializeStudySession unit
      (LearningEngineCoordinator.mkCollaborators unit
         (fun _ => LearningEngineCoordinator.sampleUserLearningState)
         (ItemSelector.mkStore (fun _ => ItemSelector.sampleUserLearningData)
                               (fun _ => []))
         (fun _ _ => Normal tt))
      1700000000000 "user" (LearningEngineCoordinator.mkOptions (Some 5%Z))
    = Normal session
    /\ LearningEngineCoordinator.items session = []
    /\ LearningEngineCoordinator.userState session
       = LearningEngineCoordinator.sampleUserLearningState
    /\ LearningEngineCoordinator.itemCount
         (LearningEngineCoordinator.recommendations session) = 0
    /\ LearningEngineCoordinator.estimatedTime
         (LearningEngineCoordinator.recommendations session) = 0
    /\ LearningEngineCoordinator.focus
         (LearningEngineCoordinator.recommendations session) = "mixed"%string.
Proof.
  apply (empty_pool_session unit
           (LearningEngineCoordinator.mkCollaborators unit
              (fun _ => LearningEngineCoordinator.sampleUserLearningState)
              (ItemSelector.mkStore
                 (fun _ => ItemSelector.sampleUserLearningData)
                 (fun _ => []))
              (fun _ _ => Normal tt))).
  reflexivity.
Defined.

(** ** The scenarios of the specification, evaluated *)

(** Three reviews of a new card: two successes, then a failure. *)
Example schedule_scenario :
  let first := Srs.calculateSM2 5 0 2.5 0 in
  let second := Srs.review first 5 in
  let third := Srs.review second 2 in
  (Srs.repetitions first == 1 /\ Srs.interval first == 1
   /\ Srs.easeFactor first == 2.6)
  /\ (Srs.repetitions second == 2 /\ Srs.interval second == 6)
  /\ (Srs.repetitions third == 0 /\ Srs.interval third == 1).
Proof. repeat split. Qed.

(** With a host [Math.exp] that always answers 1 the predicted recall is 0.5:
    a target of 0.5 is met by the first probe (182.55 days, rounded to 183),
    and the default target of 0.8 is never met, so that the search halves
    upper bounds twenty times and returns 0. *)
Example recommend_scenario :
  let itemData := RetentionPredictor.mkItemData 0 2.5 0.8 0.5 1 None in
  RetentionPredictor.recommendReviewTiming (fun _ => 1) itemData (Some 0.5)
  = Some 183
  /\ RetentionPredictor.recommendReviewTiming (fun _ => 1) itemData None
     = Some 0
  /\ option_map
       (fun s => (RetentionPredictor.iterations s,
                  List.length (RetentionPredictor.bisected s)))
       (RetentionPredictor.while (fun _ => 1) itemData 0.8 21
          (RetentionPredictor.initial itemData))
     = Some (20%nat, 20%nat).
Proof. repeat split; vm_compute; reflexivity. Qed.

(** [slice] with a negative end counts from the back of the array. *)
Example slice0_negative : JSArray.slice0 [1; 2; 3] (-1) = [1; 2].
Proof. reflexivity. Qed.

(** * Further properties of the code *)

(** ** Runs of reviews in the application *)

Lemma review_on_schedule (c : Srs.SM2) (q : number) :
  on_schedule c ->
  on_schedule (Srs.review c q)
  /\ 1 <= Srs.interval (Srs.review c q)
  /\ 1.3 <= Srs.easeFactor (Srs.review c q).
Proof.
  intros H. unfold on_schedule, Srs.review.
  rewrite Srs_repetitions, Srs_interval, Srs_easeFactor.
  pose proof (updatedEase_floor q (Srs.easeFactor c)) as F.
  split; [|split; [|exact F]].
  - destruct (ltb_spec q 3); [left; reflexivity|].
    destruct (strict_eq_spec (Srs.repetitions c + 1) 1) as [E1|N1];
      [right; left; exact E1|].
    destruct (strict_eq_spec (Srs.repetitions c + 1) 2) as [E2|N2];
      [right; right; split; lra|].
    destruct H as [H|[H|[H2 H6]]]; [exfalso; lra|exfalso; lra|].
    right; right. split; [lra|].
    apply (Qle_trans _ (Math_round (6 * 1.3))); [now vm_compute|].
    apply Math_round_le. nra.
  - destruct (ltb_spec q 3); [lra|].
    destruct (strict_eq_spec (Srs.repetitions c + 1) 1); [lra|].
    destruct (strict_eq_spec (Srs.repetitions c + 1) 2); [lra|].
    destruct H as [H|[H|[H2 H6]]]; [exfalso; lra|exfalso; lra|].
    apply (Qle_trans _ (Math_round (6 * 1.3))); [now vm_compute|].
    apply Math_round_le. nra.
Qed.

Lemma reviews_snoc (c : Srs.SM2) (qs : list number) (q : number) :
  Srs.reviews c (qs ++ [q]) = Srs.review (Srs.reviews c qs) q.
Proof. unfold Srs.reviews. now rewrite fold_left_app. Qed.

Lemma reviews_on_schedule (qs : list number) (c : Srs.SM2) :
  on_schedule c -> on_schedule (Srs.reviews c qs).
Proof.
  revert c. induction qs as [|q qs IH]; intros c H; [exact H|].
  cbn. apply IH. now apply review_on_schedule.
Qed.

(** X1: a card created by [addToSRS] and reviewed any number of times (at
    least once), with any qualities, has an interval of at least 1 day, of at
    least 6 days once it counts two repetitions or more, and an ease factor
    of at least 1.3. *)
Theorem new_card_schedule (q : number) (qs : list number) :
  let card := Srs.reviews UseSRS.newCard (qs ++ [q]) in
  1 <= Srs.interval card
  /\ (2 <= Srs.repetitions card -> 6 <= Srs.interval card)
  /\ 1.3 <= Srs.easeFactor card.
Proof.
  intros card. unfold card. rewrite reviews_snoc.
  assert (H : on_schedule (Srs.reviews UseSRS.newCard qs))
    by (apply reviews_on_schedule; left; reflexivity).
  destruct (review_on_schedule _ q H) as (S & I & E).
  repeat split; try assumption.
  intros R. destruct S as [S|[S|[_ S]]]; [lra|lra|exact S].
Qed.

(** X2: a success (quality 3 or more) on a card that counts at least two
    repetitions and has an interval of at least 2 days makes the interval
    strictly longer, whatever the ease factor. *)
Theorem success_lengthens_interval (q r ef i : number) :
  3 <= q -> 2 <= r -> 2 <= i ->
  i < Srs.interval (Srs.calculateSM2 q r ef i).
Proof.
  intros Hq Hr Hi. rewrite Srs_interval.
  destruct (ltb_spec q 3); [lra|].
  destruct (strict_eq_spec (r + 1) 1); [lra|].
  destruct (strict_eq_spec (r + 1) 2); [lra|].
  pose proof (updatedEase_floor q ef) as F.
  unfold Math_round.
  pose proof (Qlt_floor (i * updatedEase q ef + (1 # 2))) as L.
  rewrite inject_Z_plus in L. change (inject_Z 1) with 1 in L.
  nra.
Qed.

Lemma success_lengthens_interval_witness :
  6 < Srs.interval (Srs.calculateSM2 3 2 1.3 6).
Proof. apply (success_lengthens_interval 3 2 1.3 6); lra. Defined.

Lemma success_run_repetitions (qs : list number) (c : Srs.SM2) :
  Forall (fun q => 3 <= q) qs ->
  Srs.repetitions (Srs.reviews c qs)
  == Srs.repetitions c + inject_Z (Z.of_nat (List.length qs)).
Proof.
  intros H. revert c. induction H as [|q qs Hq _ IH]; intros c.
  - cbn [Srs.reviews fold_left List.length].
    change (inject_Z (Z.of_nat 0)) with 0. lra.
  - cbn [Srs.reviews fold_left]. fold (Srs.reviews (Srs.review c q) qs).
    rewrite IH. unfold Srs.review. rewrite Srs_repetitions.
    destruct (ltb_spec q 3); [lra|].
    cbn [List.length]. rewrite Nat2Z.inj_succ, <- Z.add_1_r, inject_Z_plus.
    change (inject_Z 1) with 1. lra.
Qed.

(** X3: the repetitions of a card count its current streak of successes:
    after a run that ends with a failure (quality below 3) followed by [n]
    successes the card counts [n] repetitions, whatever came before; after a
    run of [n] successes only, it counts [n] more than at the start. *)
Theorem repetitions_count_streak (c : Srs.SM2) (before successes : list number)
    (failure : number) :
  failure < 3 -> Forall (fun q => 3 <= q) successes ->
  Srs.repetitions (Srs.reviews c (before ++ failure :: successes))
  == inject_Z (Z.of_nat (List.length successes))
  /\ Srs.repetitions (Srs.reviews c successes)
     == Srs.repetitions c + inject_Z (Z.of_nat (List.length successes)).
Proof.
  intros Hf Hs. split; [|now apply success_run_repetitions].
  unfold Srs.reviews. rewrite fold_left_app. cbn [fold_left].
  fold (Srs.reviews (Srs.review (fold_left Srs.review before c) failure)
          successes).
  rewrite success_run_repetitions by exact Hs.
  unfold Srs.review at 1. rewrite Srs_repetitions.
  destruct (ltb_spec failure 3); [lra|contradiction].
Qed.

Lemma repetitions_count_streak_witness :
  Srs.repetitions (Srs.reviews UseSRS.newCard ([5; 4] ++ 1 :: [3; 5; 4]))
  == inject_Z (Z.of_nat (List.length [3; 5; 4]))
  /\ Srs.repetitions (Srs.reviews UseSRS.newCard [3; 5; 4])
     == Srs.repetitions UseSRS.newCard
        + inject_Z (Z.of_nat (List.length [3; 5; 4])).
Proof.
  apply (repetitions_count_streak UseSRS.newCard [5; 4] [3; 5; 4] 1).
  - lra.
  - repeat constructor; unfold Qle; simpl; lia.
Defined.

(** ** The engine's scheduler: its TypeScript twin and the user adjustment *)

(** X4: the TypeScript [SM2Algorithm] of section 6.1 differs from the
    JavaScript one by the missing check only: whenever the JavaScript
    [calculateNextReview] returns, the TypeScript one returns the same
    parameters; where the JavaScript one throws, the TypeScript one returns a
    schedule, a reset (0 repetitions, 1 day) for a quality below 0 and one
    more repetition for a quality above 5. *)
Theorem typescript_calculateNextReview (today q r i ef : number) :
  SM2Algorithm.calculateNextReview today q r i ef
  = (if (q <? 0) || (q >? 5)
     then Throw "Quality must be between 0 and 5"
     else Normal (SM2AlgorithmTS.calculateNextReview today q r i ef))
  /\ (q < 0 ->
      SM2Algorithm.repetitions (SM2AlgorithmTS.calculateNextReview today q r i ef)
      = 0
      /\ SM2Algorithm.interval (SM2AlgorithmTS.calculateNextReview today q r i ef)
         = 1)
  /\ (5 < q ->
      SM2Algorithm.repetitions (SM2AlgorithmTS.calculateNextReview today q r i ef)
      = r + 1)
  /\ 1.3 <= SM2Algorithm.easeFactor
              (SM2AlgorithmTS.calculateNextReview today q r i ef).
Proof.
  unfold SM2Algorithm.calculateNextReview, SM2AlgorithmTS.calculateNextReview.
  split; [|split; [|split]].
  - destruct ((q <? 0) || (q >? 5)); [reflexivity|].
    destruct (q <? 3); [reflexivity|].
    destruct (r + 1 === 1); [reflexivity|].
    destruct (r + 1 === 2); reflexivity.
  - intros H. destruct (ltb_spec q 3); [split; reflexivity|lra].
  - intros H. destruct (ltb_spec q 3); [lra|].
    destruct (r + 1 === 1); [reflexivity|].
    destruct (r + 1 === 2); reflexivity.
  - destruct (q <? 3); [apply updatedEase_floor|].
    destruct (r + 1 === 1); [apply updatedEase_floor|].
    destruct (r + 1 === 2); apply updatedEase_floor.
Qed.

(** The factor [adjustIntervalForUser] multiplies the interval by. *)
Lemma clampedFactor_range (x : number) :
  0.5 <= Math_max 0.5 (Math_min 2.0 x) /\ Math_max 0.5 (Math_min 2.0 x) <= 2.
Proof. unfold Math_max, Math_min. js_cases; split; lra. Qed.

Lemma clampedFactor_mono (x y : number) :
  x <= y -> Math_max 0.5 (Math_min 2.0 x) <= Math_max 0.5 (Math_min 2.0 y).
Proof. intros H. unfold Math_max, Math_min. js_cases; lra. Qed.

(** X5: for an interval that is not negative, [adjustIntervalForUser]
    returns between half the interval and twice the interval (each rounded),
    and its result does not decrease when the user's retention rate goes up
    nor when the content difficulty goes up. *)
Theorem adjustIntervalForUser_range_and_direction
    (baseInterval retention retention' difficulty difficulty' : number) :
  0 <= baseInterval -> retention <= retention' -> difficulty <= difficulty' ->
  Math_round (baseInterval * 0.5)
  <= SM2Algorithm.adjustIntervalForUser baseInterval retention difficulty
  /\ SM2Algorithm.adjustIntervalForUser baseInterval retention difficulty
     <= Math_round (baseInterval * 2)
  /\ SM2Algorithm.adjustIntervalForUser baseInterval retention difficulty
     <= SM2Algorithm.adjustIntervalForUser baseInterval retention' difficulty'.
Proof.
  intros Hb Hr Hd. unfold SM2Algorithm.adjustIntervalForUser.
  set (x := 1 + (retention - 0.8) * 2 - (1 - difficulty) * 0.5).
  set (y := 1 + (retention' - 0.8) * 2 - (1 - difficulty') * 0.5).
  pose proof (clampedFactor_range x) as [L U].
  assert (M : Math_max 0.5 (Math_min 2.0 x) <= Math_max 0.5 (Math_min 2.0 y))
    by (apply clampedFactor_mono; unfold x, y; lra).
  repeat split; apply Math_round_le; nra.
Qed.

Lemma adjustIntervalForUser_range_and_direction_witness :
  Math_round (10 * 0.5) <= SM2Algorithm.adjustIntervalForUser 10 0.8 0
  /\ SM2Algorithm.adjustIntervalForUser 10 0.8 0 <= Math_round (10 * 2)
  /\ SM2Algorithm.adjustIntervalForUser 10 0.8 0
     <= SM2Algorithm.adjustIntervalForUser 10 0.9 1.
Proof.
  apply (adjustIntervalForUser_range_and_direction 10 0.8 0.9 0 1); lra.
Defined.

(** ** The retention predictor *)

Lemma at_exit_days_range (Math_exp : number -> number)
    (itemData : RetentionPredictor.ItemData) (target : number)
    (s : RetentionPredictor.Loop) :
  at_exit Math_exp itemData target s ->
  0.1 <= RetentionPredictor.days s /\ RetentionPredictor.days s <= 365.
Proof.
  intros X. destruct X.
  assert (Hne : RetentionPredictor.bisected s <> []).
  { intros E. rewrite E in x_why0. cbn in x_why0.
    unfold RetentionPredictor.maxIterations in x_why0.
    destruct x_why0 as [(_ & _ & L)|(_ & _ & L & _)]; discriminate L. }
  rewrite (app_removelast_last (0, 0) Hne) in x_range0.
  apply Forall_app in x_range0 as [_ W]. rewrite x_days0.
  apply Forall_inv in W. destruct W as (W1 & W2 & W3).
  pose proof (midpoint_within _ _ W2) as [M1 M2].
  unfold RetentionPredictor.midpoint, number in *. cbn [fst snd] in *.
  split; lra.
Qed.

(** X6: [recommendReviewTiming] recommends a whole number of days, between
    0 and 365, whatever the item data, the target and the host's
    [Math.exp]. *)
Theorem recommendReviewTiming_range (Math_exp : number -> number)
    (itemData : RetentionPredictor.ItemData) (targetRetention : option number) :
  exists days : Z,
    RetentionPredictor.recommendReviewTiming Math_exp itemData targetRetention
    = Some (inject_Z days)
    /\ (0 <= days <= 365)%Z.
Proof.
  destruct (while_returns Math_exp itemData
              (RetentionPredictor.orDefault targetRetention)
              (S RetentionPredictor.maxIterations)
              (RetentionPredictor.initial itemData))
    as (s & Hs & X).
  - apply at_guard_initial.
  - unfold RetentionPredictor.maxIterations. cbn. lia.
  - exists (Qfloor (RetentionPredictor.days s + (1 # 2))).
    unfold RetentionPredictor.recommendReviewTiming,
      RetentionPredictor.recommendReviewTiming_fuel.
    rewrite Hs. split; [reflexivity|].
    destruct (at_exit_days_range _ _ _ _ X) as [L U].
    rewrite !Zle_Qle. split.
    + apply (Qle_trans _ (Math_round 0.1)); [now vm_compute|].
      now apply Math_round_le.
    + apply (Qle_trans _ (Math_round 365)); [|now vm_compute].
      now apply Math_round_le.
Qed.

Lemma predictRecallProbability_logit (Math_exp : number -> number)
    (d : RetentionPredictor.ItemData) :
  RetentionPredictor.predictRecallProbability Math_exp d
  = 1 / (1 + Math_exp (- logit d)).
Proof. reflexivity. Qed.

(** X7: with a host [Math.exp] that is never negative, the predicted recall
    probability is at least 0 and at most 1. *)
Theorem predictRecallProbability_range (Math_exp : number -> number)
    (d : RetentionPredictor.ItemData) :
  (forall x, 0 <= Math_exp x) ->
  0 <= RetentionPredictor.predictRecallProbability Math_exp d
  /\ RetentionPredictor.predictRecallProbability Math_exp d <= 1.
Proof.
  intros Hexp. rewrite predictRecallProbability_logit.
  pose proof (Hexp (- logit d)) as He.
  split.
  - apply Qle_shift_div_l; lra.
  - apply Qle_shift_div_r; lra.
Qed.

Lemma predictRecallProbability_range_witness :
  0 <= RetentionPredictor.predictRecallProbability (fun _ => 1)
         (RetentionPredictor.mkItemData 3 2.5 0.8 0.5 1 None)
  /\ RetentionPredictor.predictRecallProbability (fun _ => 1)
       (RetentionPredictor.mkItemData 3 2.5 0.8 0.5 1 None) <= 1.
Proof.
  apply (predictRecallProbability_range (fun _ => 1)).
  intros _. lra.
Defined.

(** X8: with a host [Math.exp] that is never negative and is monotone, the
    predicted recall probability does not go up when the time since the last
    review, the content difficulty or the daily load goes up, nor when the
    ease factor or the user's historical accuracy goes down. *)
Theorem predictRecallProbability_monotone (Math_exp : number -> number)
    (d d' : RetentionPredictor.ItemData) :
  (forall x, 0 <= Math_exp x) ->
  (forall x y, x <= y -> Math_exp x <= Math_exp y) ->
  RetentionPredictor.timeSinceLastReview d
  <= RetentionPredictor.timeSinceLastReview d' ->
  RetentionPredictor.easeFactor d' <= RetentionPredictor.easeFactor d ->
  RetentionPredictor.userHistoricalAccuracy d'
  <= RetentionPredictor.userHistoricalAccuracy d ->
  RetentionPredictor.contentDifficulty d
  <= RetentionPredictor.contentDifficulty d' ->
  RetentionPredictor.dailyLoadFactor d
  <= RetentionPredictor.dailyLoadFactor d' ->
  RetentionPredictor.predictRecallProbability Math_exp d'
  <= RetentionPredictor.predictRecallProbability Math_exp d.
Proof.
  intros Hpos Hmono Ht He Ha Hd Hl.
  rewrite !predictRecallProbability_logit.
  assert (L : - logit d <= - logit d') by (unfold logit; lra).
  pose proof (Hmono _ _ L) as M.
  pose proof (Hpos (- logit d)) as P. pose proof (Hpos (- logit d')) as P'.
  apply Qle_shift_div_l; [lra|].
  setoid_replace (1 / (1 + Math_exp (- logit d')) * (1 + Math_exp (- logit d)))
    with ((1 + Math_exp (- logit d)) / (1 + Math_exp (- logit d')))
    by (unfold Qdiv; ring).
  apply Qle_shift_div_r; lra.
Qed.

Lemma predictRecallProbability_monotone_witness :
  RetentionPredictor.predictRecallProbability (fun _ => 1)
    (RetentionPredictor.mkItemData 9 2.5 0.8 0.5 1 None)
  <= RetentionPredictor.predictRecallProbability (fun _ => 1)
       (RetentionPredictor.mkItemData 3 2.5 0.8 0.5 1 None).
Proof.
  apply (predictRecallProbability_monotone (fun _ => 1)); cbn; intros; lra.
Defined.

(** ** The selector's score *)

Lemma or_default_range (x : option number) (d lo hi : number) :
  lo <= d <= hi -> (forall v, x = Some v -> lo <= v <= hi) ->
  lo <= ItemSelector.or_default x d <= hi.
Proof.
  intros Hd Hx. unfold ItemSelector.or_default.
  destruct x as [v|]; [|exact Hd].
  destruct (truthy v); [now apply Hx|exact Hd].
Qed.

Lemma calculateVarietyScore_range (item : ItemSelector.Item)
    (recent : list ItemSelector.Item) :
  0 <= ItemSelector.calculateVarietyScore item recent <= 30.
Proof.
  unfold ItemSelector.calculateVarietyScore, Math_max.
  set (n := List.length _).
  assert (0 <= inject_Z (Z.of_nat n))
    by (rewrite <- (Zle_Qle 0); lia).
  js_cases; split; lra.
Qed.

Lemma calculateWeaknessScore_range (now : number) (item : ItemSelector.Item)
    (userData : ItemSelector.UserData) :
  documented_ranges now item userData ->
  0 <= ItemSelector.calculateWeaknessScore item userData <= 100.
Proof.
  intros (_ & Hc & Hw & Hg & Ha & _). unfold ItemSelector.calculateWeaknessScore.
  set (base := ItemSelector.or_default _ 0).
  assert (Hb : 0 <= base <= 100).
  { unfold base.
    destruct (String.eqb _ "character");
      [apply or_default_range; [lra|intros v [= <-]; exact Hc]|].
    destruct (String.eqb _ "word");
      [apply or_default_range; [lra|intros v [= <-]; exact Hw]|].
    destruct (String.eqb _ "grammar");
      [apply or_default_range; [lra|intros v [= <-]; exact Hg]|].
    cbn. lra. }
  destruct (ItemSelector.lookup _ _) as [accuracy|] eqn:E; [|exact Hb].
  specialize (Ha accuracy eq_refl). unfold Math_min. js_cases; split; lra.
Qed.

Lemma daysUntilDue_scaled (x : number) :
  x / (1000 * 60 * 60 * 24) == x * (1 # 86400000).
Proof. unfold Qdiv. now change (/ (1000 * 60 * 60 * 24)) with (1 # 86400000). Qed.

(** X9: for a user and an item within the documented ranges, the priority
    score is a number above 0 and at most 81.5 (30 for the due date, 25 for
    weakness, 20 for the curriculum, 4.5 for variety and 2 for novelty). *)
Theorem calculateItemPriority_range (now : number) (item : ItemSelector.Item)
    (userData : ItemSelector.UserData) :
  documented_ranges now item userData ->
  exists score,
    ItemSelector.calculateItemPriority now item userData = Some score
    /\ 0 < score /\ score <= 81.5.
Proof.
  intros R.
  pose proof (calculateWeaknessScore_range now item userData R) as W.
  pose proof (calculateVarietyScore_range item
                (ItemSelector.recentItems userData)) as V.
  destruct R as (_ & _ & _ & _ & _ & Hp & Hd).
  assert (C : 0 < ItemSelector.or_default
                    (ItemSelector.curriculumPriority item) 50 <= 100).
  { unfold ItemSelector.or_default.
    destruct (ItemSelector.curriculumPriority item) as [p|]; [|lra].
    specialize (Hp p eq_refl). unfold truthy.
    destruct (Qeq_bool p 0) eqn:E; cbn; [lra|].
    apply Qeq_bool_neq in E. split; lra. }
  unfold ItemSelector.calculateItemPriority, ItemSelector.add_to.
  cbn [ItemSelector.dueForReview ItemSelector.userWeakness
       ItemSelector.curriculumPriority_w ItemSelector.varietyBalance
       ItemSelector.noveltyPreference ItemSelector.priorityFactors].
  set (w := ItemSelector.calculateWeaknessScore item userData) in *.
  set (v := ItemSelector.calculateVarietyScore item _) in *.
  set (c := ItemSelector.or_default _ 50) in *.
  destruct (ItemSelector.isDueForReview item).
  - destruct (ItemSelector.preferNovelty userData);
      [destruct (ItemSelector.isNew item)|];
      cbn [option_map]; eexists; (split; [reflexivity|]); split; lra.
  - destruct (Hd eq_refl) as (date & -> & Hdate).
    pose proof (daysUntilDue_scaled (date - now)) as D.
    set (days := (date - now) / _) in *.
    unfold Math_max.
    destruct (ltb_spec 0 (50 - days));
      (destruct (ItemSelector.preferNovelty userData);
        [destruct (ItemSelector.isNew item)|]);
      cbn [option_map]; eexists; (split; [reflexivity|]); split; lra.
Qed.

Lemma calculateItemPriority_range_witness :
  exists score,
    ItemSelector.calculateItemPriority 0
      (ItemSelector.mkItem 2 "word" None false (Some 3456000000) (Some 60) true)
      ItemSelector.sampleUserLearningData = Some score
    /\ 0 < score /\ score <= 81.5.
Proof.
  apply calculateItemPriority_range.
  unfold documented_ranges. cbn.
  split; [auto|]. split; [lra|]. split; [lra|]. split; [lra|].
  split; [discriminate|].
  split; [intros x [= <-]; lra|].
  intros _. eexists. split; [reflexivity|]. lra.
Defined.

(** X10: an item flagged as due scores what the same item would score when
    not due, plus 0.3 times (100 minus the decaying due-date score): at
    least 15 more when the review date has not passed; but an item that is
    not flagged and whose review date passed more than 50 days ago scores
    more than it would when flagged as due. *)
Theorem due_flag_in_priority (now : number) (userData : ItemSelector.UserData)
    (id : Z) (contentType : string) (contentId : option number)
    (nextReview : option number) (nextReview' : number)
    (priority : option number) (isNew : bool) :
  In contentType contentTypes ->
  let due :=
    ItemSelector.mkItem id contentType contentId true nextReview priority isNew in
  let notDue :=
    ItemSelector.mkItem id contentType contentId false (Some nextReview')
      priority isNew in
  let daysUntilDue := (nextReview' - now) / (1000 * 60 * 60 * 24) in
  exists scoreDue scoreNotDue,
    ItemSelector.calculateItemPriority now due userData = Some scoreDue
    /\ ItemSelector.calculateItemPriority now notDue userData
       = Some scoreNotDue
    /\ scoreDue
       == scoreNotDue + 0.3 * (100 - Math_max 0 (50 - daysUntilDue))
    /\ (now <= nextReview' -> scoreNotDue + 15 <= scoreDue)
    /\ (nextReview' < now - 50 * (1000 * 60 * 60 * 24) ->
        scoreDue < scoreNotDue).
Proof.
  intros _ due notDue daysUntilDue.
  pose proof (daysUntilDue_scaled (nextReview' - now)) as D.
  fold daysUntilDue in D.
  unfold ItemSelector.calculateItemPriority, ItemSelector.add_to, due, notDue.
  cbn [ItemSelector.isDueForReview ItemSelector.nextReviewDate
       ItemSelector.curriculumPriority ItemSelector.isNew
       ItemSelector.dueForReview ItemSelector.userWeakness
       ItemSelector.curriculumPriority_w ItemSelector.varietyBalance
       ItemSelector.noveltyPreference ItemSelector.priorityFactors].
  fold daysUntilDue.
  change (ItemSelector.calculateWeaknessScore
            (ItemSelector.mkItem id contentType contentId true nextReview
               priority isNew) userData)
    with (ItemSelector.calculateWeaknessScore
            (ItemSelector.mkItem id contentType contentId false
               (Some nextReview') priority isNew) userData).
  change (ItemSelector.calculateVarietyScore
            (ItemSelector.mkItem id contentType contentId true nextReview
               priority isNew))
    with (ItemSelector.calculateVarietyScore
            (ItemSelector.mkItem id contentType contentId false
               (Some nextReview') priority isNew)).
  set (w := ItemSelector.calculateWeaknessScore _ userData).
  set (v := ItemSelector.calculateVarietyScore _ _).
  set (c := ItemSelector.or_default priority 50).
  unfold Math_max.
  destruct (ltb_spec 0 (50 - daysUntilDue));
    (destruct (ItemSelector.preferNovelty userData); [destruct isNew|]);
    cbn [option_map]; eexists; eexists;
    (split; [reflexivity|]); (split; [reflexivity|]);
    repeat split; intros; lra.
Qed.

Lemma due_flag_in_priority_witness :
  let due := ItemSelector.mkItem 1 "word" None true None (Some 60) false in
  let notDue :=
    ItemSelector.mkItem 1 "word" None false (Some 3456000000) (Some 60) false in
  let daysUntilDue := (3456000000 - 0) / (1000 * 60 * 60 * 24) in
  exists scoreDue scoreNotDue,
    ItemSelector.calculateItemPriority 0 due ItemSelector.sampleUserLearningData
    = Some scoreDue
    /\ ItemSelector.calculateItemPriority 0 notDue
         ItemSelector.sampleUserLearningData = Some scoreNotDue
    /\ scoreDue
       == scoreNotDue + 0.3 * (100 - Math_max 0 (50 - daysUntilDue))
    /\ (0 <= 3456000000 -> scoreNotDue + 15 <= scoreDue)
    /\ (3456000000 < 0 - 50 * (1000 * 60 * 60 * 24) ->
        scoreDue < scoreNotDue).
Proof.
  apply (due_flag_in_priority 0 ItemSelector.sampleUserLearningData 1 "word"
           None None 3456000000 (Some 60) false).
  unfold contentTypes. cbn. auto.
Defined.

(** ** The selector's ranking *)

Lemma selectStudyItems_ranking (store : ItemSelector.Store) (now : number)
    (userId : string) (itemCount : option Z) :
  ItemSelector.selectStudyItems store now userId itemCount
  = JSArray.slice0
      (JSArray.sort (JSArray.SortCompare ItemSelector.byPriority)
         (scoredCandidates store now userId))
      (match itemCount with Some n => n | None => 10%Z end).
Proof. reflexivity. Qed.

Lemma ranking_length (store : ItemSelector.Store) (now : number)
    (userId : string) :
  List.length
    (JSArray.sort (JSArray.SortCompare ItemSelector.byPriority)
       (scoredCandidates store now userId))
  = List.length
      (ItemSelector.getCandidateItems store
         (ItemSelector.getUserLearningData store userId)).
Proof.
  rewrite sort_length. unfold scoredCandidates. apply length_map.
Qed.

(** X11: without a count the selector returns 10 items (or all candidates if
    fewer); with a negative count [-k] it returns all candidates but the [k]
    lowest ranked. *)
Theorem selectStudyItems_count_edges (store : ItemSelector.Store)
    (now : number) (userId : string) (k : positive) :
  let n :=
    List.length
      (ItemSelector.getCandidateItems store
         (ItemSelector.getUserLearningData store userId)) in
  List.length (ItemSelector.selectStudyItems store now userId None)
  = Nat.min 10 n
  /\ ItemSelector.selectStudyItems store now userId (Some (Z.neg k))
     = firstn (n - Pos.to_nat k)
         (ItemSelector.selectStudyItems store now userId (Some (Z.of_nat n)))
  /\ List.length
       (ItemSelector.selectStudyItems store now userId (Some (Z.neg k)))
     = (n - Pos.to_nat k)%nat.
Proof.
  intros n. rewrite !selectStudyItems_ranking.
  pose proof (ranking_length store now userId) as L. fold n in L.
  set (ranking := JSArray.sort _ _) in *.
  assert (E : JSArray.slice0 ranking (Z.neg k) = firstn (n - Pos.to_nat k) ranking).
  { unfold JSArray.slice0. rewrite L. cbn [Z.ltb Z.compare].
    f_equal. lia. }
  split; [|split].
  - change 10%Z with (Z.of_nat 10). rewrite slice0_count, length_firstn. lia.
  - rewrite E, slice0_count, <- L, firstn_all. reflexivity.
  - rewrite E, length_firstn. lia.
Qed.

Section SortStable.

Context {A : Type}.
Variable comparefn : A -> A -> number.
Variable key : A -> number.
Hypothesis comparefn_key : forall a b, comparefn a b == key b - key a.

Variable v : number.




End SortStable.



(** ** The difficulty adjuster, item by item *)

(** X13: [adjustItemDifficulty] never attaches both an increase and a
    decrease, attaches neither for an accuracy strictly between 0.5 and 0.9,
    and attaches a time-pressure adjustment exactly when there is more than
    one attempt; that adjustment is one of -0.1, 0 and 0.1. *)
Theorem adjustItemDifficulty_keys (now : number)
    (item : DifficultyAdjuster.LearningItem)
    (p : DifficultyAdjuster.PerformanceData) :
  let adjusted := DifficultyAdjuster.adjustItemDifficulty now item p in
  (DifficultyAdjuster.difficultyIncrease adjusted = None
   \/ DifficultyAdjuster.difficultyDecrease adjusted = None)
  /\ (0.5 < DifficultyAdjuster.accuracy p ->
      DifficultyAdjuster.accuracy p < 0.9 ->
      DifficultyAdjuster.difficultyIncrease adjusted = None
      /\ DifficultyAdjuster.difficultyDecrease adjusted = None)
  /\ (DifficultyAdjuster.timePressure adjusted <> None
      <-> 1 < DifficultyAdjuster.attempts p)
  /\ (forall t, DifficultyAdjuster.timePressure adjusted = Some t ->
                t == -0.1 \/ t == 0 \/ t == 0.1).
Proof.
  intros adjusted. unfold adjusted, DifficultyAdjuster.adjustItemDifficulty.
  cbn [DifficultyAdjuster.difficultyIncrease
       DifficultyAdjuster.difficultyDecrease DifficultyAdjuster.timePressure
       DifficultyAdjuster.easy DifficultyAdjuster.hard
       DifficultyAdjuster.performanceThresholds].
  split; [|split; [|split]].
  - destruct (_ >=? 0.9); auto.
  - intros H1 H2. js_cases; try lra; auto.
  - unfold gtb. destruct (ltb_spec 1 (DifficultyAdjuster.attempts p)).
    + split; [auto|discriminate].
    + split; [congruence|contradiction].
  - intros t. destruct (_ >? 1); [|discriminate]. intros [= <-].
    unfold DifficultyAdjuster.calculateTimePressureAdjustment.
    destruct (DifficultyAdjuster.previousAverageTime p) as [prev|];
      [|right; left; reflexivity].
    destruct (negb (truthy prev)); [right; left; reflexivity|].
    destruct (_ >? 2); [left; reflexivity|].
    destruct (_ <? 0.5); [right; right|right; left]; reflexivity.
Qed.

(** X14: with a previous average time above 0,
    [calculateTimePressureAdjustment] returns -0.1 exactly for a response
    more than twice as slow as the average, 0.1 exactly for one more than
    twice as fast, and 0 in between; without a previous average it
    returns 0. *)
Theorem calculateTimePressureAdjustment_cases
    (p : DifficultyAdjuster.PerformanceData) (average : number) :
  DifficultyAdjuster.previousAverageTime p = Some average -> 0 < average ->
  let t := DifficultyAdjuster.responseTime p in
  let adjustment := DifficultyAdjuster.calculateTimePressureAdjustment p in
  (2 * average < t -> adjustment == -0.1)
  /\ (t < 0.5 * average -> adjustment == 0.1)
  /\ (0.5 * average <= t -> t <= 2 * average -> adjustment == 0)
  /\ DifficultyAdjuster.calculateTimePressureAdjustment
       (DifficultyAdjuster.mkPerformance (DifficultyAdjuster.accuracy p) t
          (DifficultyAdjuster.attempts p) None) == 0.
Proof.
  intros E Hpos t adjustment.
  unfold adjustment, DifficultyAdjuster.calculateTimePressureAdjustment.
  rewrite E. cbn [DifficultyAdjuster.previousAverageTime].
  unfold truthy. destruct (Qeq_bool average 0) eqn:Z;
    [apply Qeq_bool_iff in Z; lra|]. cbn [negb].
  fold t.
  assert (R : average * (t / average) == t)
    by (apply Qmult_div_r; lra).
  set (ratio := t / average) in *.
  unfold gtb.
  destruct (ltb_spec 2 ratio); [|destruct (ltb_spec ratio 0.5)];
    repeat split; intros; try reflexivity; exfalso; nra.
Qed.

Lemma calculateTimePressureAdjustment_cases_witness :
  (2 * 10 < 25 ->
   DifficultyAdjuster.calculateTimePressureAdjustment
     (DifficultyAdjuster.mkPerformance 1 25 3 (Some 10)) == -0.1)
  /\ (25 < 0.5 * 10 ->
      DifficultyAdjuster.calculateTimePressureAdjustment
        (DifficultyAdjuster.mkPerformance 1 25 3 (Some 10)) == 0.1)
  /\ (0.5 * 10 <= 25 -> 25 <= 2 * 10 ->
      DifficultyAdjuster.calculateTimePressureAdjustment
        (DifficultyAdjuster.mkPerformance 1 25 3 (Some 10)) == 0)
  /\ DifficultyAdjuster.calculateTimePressureAdjustment
       (DifficultyAdjuster.mkPerformance 1 25 3 None) == 0.
Proof.
  apply (calculateTimePressureAdjustment_cases
           (DifficultyAdjuster.mkPerformance 1 25 3 (Some 10)) 10);
    [reflexivity|lra].
Defined.

(** ** The coordinator's processing of a response *)

Lemma get_set (k k' : string) (v : JSObject.value) (o : JSObject.object) :
  JSObject.get k (JSObject.set k' v o)
  = if String.eqb k' k then Some v else JSObject.get k o.
Proof.
  induction o as [|[k0 v0] o IH]; cbn.
  - reflexivity.
  - destruct (String.eqb k0 k') eqn:E0; cbn.
    + apply String.eqb_eq in E0. subst k0.
      now destruct (String.eqb k' k).
    + rewrite IH. destruct (String.eqb k0 k) eqn:E1; [|reflexivity].
      apply String.eqb_eq in E1. subst k. now rewrite String.eqb_sym, E0.
Qed.

(** X15: a response whose quality is outside [0,5] makes
    [processUserResponse] throw before anything is sent to the stores or to
    the predictor. *)
Theorem processUserResponse_invalid_quality
    (stores : LearningEngineResponses.Stores) (now : number)
    (userId sessionId : string) (response : LearningEngineResponses.Response) :
  LearningEngineResponses.quality response < 0
  \/ 5 < LearningEngineResponses.quality response ->
  LearningEngineResponses.processUserResponse stores now userId sessionId response
  = (Throw "Quality must be between 0 and 5", []).
Proof.
  intros H. unfold LearningEngineResponses.processUserResponse.
  now rewrite calculateNextReview_invalid.
Qed.

Lemma processUserResponse_invalid_quality_witness :
  LearningEngineResponses.processUserResponse
    (LearningEngineResponses.mkStores
       (fun _ _ => DifficultyAdjuster.mkLearningItem 2 5 2.5 0 2 (Some 15000))
       (fun _ => LearningEngineResponses.mkUserLearningData 82 500))
    432000000 "user" "session"
    (LearningEngineResponses.mkResponse "item" "word" 7 6 9000 true)
  = (Throw "Quality must be between 0 and 5", []).
Proof.
  apply processUserResponse_invalid_quality. right. cbn. lra.
Defined.

(** X16: for a quality in [0,5], [processUserResponse] returns after three
    messages, in this order: the performance update, the item update and the
    model update.  In the item update the spread of the adjusted item comes
    after the spread of the new schedule, so that the interval, repetitions
    and ease factor it carries are those the item had before the review;
    the new schedule survives in [nextReviewDate] only.  The model update
    carries the new ease factor. *)
Theorem processUserResponse_item_update
    (stores : LearningEngineResponses.Stores) (now : number)
    (userId sessionId : string) (response : LearningEngineResponses.Response) :
  valid_quality (LearningEngineResponses.quality response) ->
  let itemData :=
    LearningEngineResponses.getLearningItemData stores
      (LearningEngineResponses.contentType response)
      (LearningEngineResponses.contentId response) in
  exists updatedSRS result performance updateData model,
    SM2Algorithm.calculateNextReview
      (now / LearningEngineResponses.msPerDay)
      (LearningEngineResponses.quality response)
      (DifficultyAdjuster.repetitions itemData)
      (DifficultyAdjuster.interval itemData)
      (DifficultyAdjuster.easeFactor itemData) = Normal updatedSRS
    /\ LearningEngineResponses.processUserResponse stores now userId sessionId
         response
       = (Normal result,
          [LearningEngineResponses.UpdateUserPerformance userId performance;
           LearningEngineResponses.UpdateLearningItem
             (LearningEngineResponses.contentType response)
             (LearningEngineResponses.contentId response) updateData;
           LearningEngineResponses.UpdateModel model
             (LearningEngineResponses.wasCorrect response)])
    /\ JSObject.get "interval" updateData
       = Some (JSObject.Num (DifficultyAdjuster.interval itemData))
    /\ JSObject.get "repetitions" updateData
       = Some (JSObject.Num (DifficultyAdjuster.repetitions itemData))
    /\ JSObject.get "easeFactor" updateData
       = Some (JSObject.Num (DifficultyAdjuster.easeFactor itemData))
    /\ JSObject.get "nextReviewDate" updateData
       = Some (JSObject.Num (SM2Algorithm.nextReviewDate updatedSRS))
    /\ JSObject.get "lastReviewed" updateData = Some (JSObject.Num now)
    /\ JSObject.get "easeFactor" model
       = Some (JSObject.Num (SM2Algorithm.easeFactor updatedSRS)).
Proof.
  intros Hq itemData.
  unfold LearningEngineResponses.processUserResponse. fold itemData.
  rewrite (calculateNextReview_valid _ _ _ _ _ Hq). cbv zeta.
  eexists. eexists. eexists. eexists. eexists.
  split; [reflexivity|]. split; [reflexivity|].
  set (adjusted := DifficultyAdjuster.adjustItemDifficulty _ _ _).
  assert (B : DifficultyAdjuster.base adjusted = itemData) by reflexivity.
  unfold LearningEngineResponses.adjustedObject,
    LearningEngineResponses.itemObject. rewrite B.
  destruct (DifficultyAdjuster.averageTime itemData),
    (DifficultyAdjuster.difficultyIncrease adjusted),
    (DifficultyAdjuster.difficultyDecrease adjusted),
    (DifficultyAdjuster.timePressure adjusted);
    repeat split; reflexivity.
Qed.

Lemma processUserResponse_item_update_witness :
  let stores :=
    LearningEngineResponses.mkStores
      (fun _ _ => DifficultyAdjuster.mkLearningItem 2 5 2.5 0 2 (Some 15000))
      (fun _ => LearningEngineResponses.mkUserLearningData 82 500) in
  let response :=
    LearningEngineResponses.mkResponse "item" "word" 7 5 9000 true in
  exists updatedSRS result performance updateData model,
    SM2Algorithm.calculateNextReview
      (432000000 / LearningEngineResponses.msPerDay) 5 2 5 2.5
    = Normal updatedSRS
    /\ LearningEngineResponses.processUserResponse stores 432000000
         "user" "session" response
       = (Normal result,
          [LearningEngineResponses.UpdateUserPerformance "user" performance;
           LearningEngineResponses.UpdateLearningItem "word" 7 updateData;
           LearningEngineResponses.UpdateModel model true])
    /\ JSObject.get "interval" updateData = Some (JSObject.Num 5)
    /\ JSObject.get "repetitions" updateData = Some (JSObject.Num 2)
    /\ JSObject.get "easeFactor" updateData = Some (JSObject.Num 2.5)
    /\ JSObject.get "nextReviewDate" updateData
       = Some (JSObject.Num (SM2Algorithm.nextReviewDate updatedSRS))
    /\ JSObject.get "lastReviewed" updateData
       = Some (JSObject.Num 432000000)
    /\ JSObject.get "easeFactor" model
       = Some (JSObject.Num (SM2Algorithm.easeFactor updatedSRS)).
Proof.
  intros stores response.
  apply (processUserResponse_item_update stores 432000000 "user" "session"
           response).
  unfold valid_quality. cbn. lra.
Defined.

Lemma adjustedObject_increase (a : DifficultyAdjuster.AdjustedItem) :
  JSObject.get "difficultyIncrease" (LearningEngineResponses.adjustedObject a)
  = option_map JSObject.Num (DifficultyAdjuster.difficultyIncrease a).
Proof.
  unfold LearningEngineResponses.adjustedObject,
    LearningEngineResponses.itemObject.
  destruct (DifficultyAdjuster.averageTime (DifficultyAdjuster.base a)),
    (DifficultyAdjuster.difficultyIncrease a),
    (DifficultyAdjuster.difficultyDecrease a),
    (DifficultyAdjuster.timePressure a); reflexivity.
Qed.

Lemma adjustedObject_decrease (a : DifficultyAdjuster.AdjustedItem) :
  JSObject.get "difficultyDecrease" (LearningEngineResponses.adjustedObject a)
  = option_map JSObject.Num (DifficultyAdjuster.difficultyDecrease a).
Proof.
  unfold LearningEngineResponses.adjustedObject,
    LearningEngineResponses.itemObject.
  destruct (DifficultyAdjuster.averageTime (DifficultyAdjuster.base a)),
    (DifficultyAdjuster.difficultyIncrease a),
    (DifficultyAdjuster.difficultyDecrease a),
    (DifficultyAdjuster.timePressure a); reflexivity.
Qed.

Lemma truthy_above (x lo : number) : 0 < lo -> lo <= x -> truthy x = true.
Proof.
  intros H0 H. unfold truthy. destruct (Qeq_bool x 0) eqn:E; [|reflexivity].
  apply Qeq_bool_iff in E. lra.
Qed.

(** X17: the feedback of a processed response has two messages: the
    accuracy handed to the adjuster is 1 or 0, so a correct response always
    comes with the announcement of a more challenging version and an
    incorrect one with that of an easier version. *)
Theorem processUserResponse_feedback
    (stores : LearningEngineResponses.Stores) (now : number)
    (userId sessionId : string) (response : LearningEngineResponses.Response) :
  valid_quality (LearningEngineResponses.quality response) ->
  exists result effects,
    LearningEngineResponses.processUserResponse stores now userId sessionId
      response = (Normal result, effects)
    /\ LearningEngineResponses.feedback result
       = if LearningEngineResponses.wasCorrect response
         then ["Correct! Good job.";
               "This seems easy for you - we'll make it more challenging."]%string
         else ["Not quite right. Let's review this again soon.";
               "This was tricky - we'll give you an easier version next time."]%string.
Proof.
  intros Hq. unfold LearningEngineResponses.processUserResponse.
  rewrite (calculateNextReview_valid _ _ _ _ _ Hq). cbv zeta.
  eexists. eexists. split; [reflexivity|].
  cbn [LearningEngineResponses.feedback].
  unfold LearningEngineResponses.generateImmediateFeedback.
  rewrite adjustedObject_increase, adjustedObject_decrease.
  set (item := LearningEngineResponses.getLearningItemData _ _ _).
  destruct (LearningEngineResponses.wasCorrect response).
  - set (p := DifficultyAdjuster.mkPerformance 1 _ _ _).
    destruct (calculateDifficultyIncrease_range item p) as [L _].
    change (DifficultyAdjuster.difficultyIncrease
              (DifficultyAdjuster.adjustItemDifficulty now item p))
      with (Some (DifficultyAdjuster.calculateDifficultyIncrease item p)).
    cbn [option_map JSObject.truthy_value].
    now rewrite (truthy_above _ 0.1) by (auto; lra).
  - set (p := DifficultyAdjuster.mkPerformance 0 _ _ _).
    destruct (calculateDifficultyDecrease_range item p) as [L _].
    change (DifficultyAdjuster.difficultyIncrease
              (DifficultyAdjuster.adjustItemDifficulty now item p))
      with (@None number).
    change (DifficultyAdjuster.difficultyDecrease
              (DifficultyAdjuster.adjustItemDifficulty now item p))
      with (Some (DifficultyAdjuster.calculateDifficultyDecrease item p)).
    cbn [option_map JSObject.truthy_value].
    now rewrite (truthy_above _ 0.15) by (auto; lra).
Qed.

Lemma processUserResponse_feedback_witness :
  exists result effects,
    LearningEngineResponses.processUserResponse
      (LearningEngineResponses.mkStores
         (fun _ _ => DifficultyAdjuster.mkLearningItem 2 5 2.5 0 2 (Some 15000))
         (fun _ => LearningEngineResponses.mkUserLearningData 82 500))
      432000000 "user" "session"
      (LearningEngineResponses.mkResponse "item" "word" 7 2 9000 false)
    = (Normal result, effects)
    /\ LearningEngineResponses.feedback result
       = ["Not quite right. Let's review this again soon.";
          "This was tricky - we'll give you an easier version next time."]%string.
Proof.
  apply (processUserResponse_feedback
           (LearningEngineResponses.mkStores
              (fun _ _ =>
                 DifficultyAdjuster.mkLearningItem 2 5 2.5 0 2 (Some 15000))
              (fun _ => LearningEngineResponses.mkUserLearningData 82 500))
           432000000 "user" "session"
           (LearningEngineResponses.mkResponse "item" "word" 7 2 9000 false)).
  unfold valid_quality. cbn. lra.
Defined.

(** ** The coordinator's session *)

Lemma enhanceAll_resolves (Metadata : Type)
    (c : LearningEngineCoordinator.Collaborators Metadata)
    (selected : list ItemSelector.ScoredItem) :
  (forall t i, exists m,
      LearningEngineCoordinator.getContentMetadata Metadata c t i = Normal m) ->
  exists enhanced,
    LearningEngineCoordinator.enhanceAll Metadata c selected = Normal enhanced
    /\ map (LearningEngineCoordinator.scored Metadata) enhanced = selected.
Proof.
  intros H. induction selected as [|x l (enhanced & E & M)]; cbn.
  - now exists [].
  - destruct (H (ItemSelector.contentType (ItemSelector.item x))
                (ItemSelector.contentId (ItemSelector.item x))) as [m ->].
    rewrite E. eexists. split; [reflexivity|]. cbn. now rewrite M.
Qed.

(** X18: when the metadata manager resolves for every item,
    [initializeStudySession] returns a session whose items are the
    selector's choice for the count [sessionOptions.itemCount || 20], in the
    selector's order, and whose recommendation counts them.  A requested
    count of 0 is thus read as 20, like a missing one, and the session then
    has at most 20 items. *)
Theorem initializeStudySession_items (Metadata : Type)
    (c : LearningEngineCoordinator.Collaborators Metadata) (now : number)
    (userId : string) (options : LearningEngineCoordinator.SessionOptions) :
  (forall t i, exists m,
      LearningEngineCoordinator.getContentMetadata Metadata c t i = Normal m) ->
  exists session,
    LearningEngineCoordinator.initializeStudySession Metadata c now userId
      options = Normal session
    /\ map (LearningEngineCoordinator.scored Metadata)
         (LearningEngineCoordinator.items session)
       = ItemSelector.selectStudyItems
           (LearningEngineCoordinator.selectorStore Metadata c) now userId
           (Some (requestedCount options))
    /\ LearningEngineCoordinator.itemCount
         (LearningEngineCoordinator.recommendations session)
       = inject_Z (Z.of_nat (List.length (LearningEngineCoordinator.items session)))
    /\ LearningEngineCoordinator.sessionId session
       = LearningEngineCoordinator.session_ now
    /\ (LearningEngineCoordinator.opt_itemCount options = None
        \/ LearningEngineCoordinator.opt_itemCount options = Some 0%Z ->
        requestedCount options = 20%Z
        /\ (List.length (LearningEngineCoordinator.items session) <= 20)%nat).
Proof.
  intros H. unfold LearningEngineCoordinator.initializeStudySession.
  fold (requestedCount options).
  destruct (enhanceAll_resolves Metadata c
              (ItemSelector.selectStudyItems
                 (LearningEngineCoordinator.selectorStore Metadata c) now userId
                 (Some (requestedCount options))) H) as (enhanced & E & M).
  rewrite E. eexists. split; [reflexivity|]. cbn.
  repeat split; try assumption.
  - unfold requestedCount. destruct H0 as [-> | ->]; reflexivity.
  - assert (R : requestedCount options = Z.of_nat 20)
      by (unfold requestedCount; destruct H0 as [-> | ->]; reflexivity).
    rewrite <- (length_map (LearningEngineCoordinator.scored Metadata)), M, R.
    rewrite selectStudyItems_count. apply firstn_le_length.
Qed.

Lemma initializeStudySession_items_witness :
  let c :=
    LearningEngineCoordinator.mkCollaborators unit
      (fun _ => LearningEngineCoordinator.sampleUserLearningState)
      (ItemSelector.mkStore
         (fun _ => ItemSelector.sampleUserLearningData)
         (fun _ =>
            [ItemSelector.mkItem 1 "character" None true None (Some 80) false;
             ItemSelector.mkItem 3 "grammar" None true None (Some 90) false]))
      (fun _ _ => Normal tt) in
  let options := LearningEngineCoordinator.mkOptions (Some 0%Z) in
  exists session,
    LearningEngineCoordinator.initializeStudySession unit c 0 "user" options
    = Normal session
    /\ map (LearningEngineCoordinator.scored unit)
         (LearningEngineCoordinator.items session)
       = ItemSelector.selectStudyItems
           (LearningEngineCoordinator.selectorStore unit c) 0 "user"
           (Some (requestedCount options))
    /\ LearningEngineCoordinator.itemCount
         (LearningEngineCoordinator.recommendations session)
       = inject_Z (Z.of_nat (List.length (LearningEngineCoordinator.items session)))
    /\ LearningEngineCoordinator.sessionId session
       = LearningEngineCoordinator.session_ 0
    /\ (LearningEngineCoordinator.opt_itemCount options = None
        \/ LearningEngineCoordinator.opt_itemCount options = Some 0%Z ->
        requestedCount options = 20%Z
        /\ (List.length (LearningEngineCoordinator.items session) <= 20)%nat).
Proof.
  intros c options.
  apply (initializeStudySession_items unit c 0 "user" options).
  intros t i. exists tt. reflexivity.
Defined.

Lemma enhanceAll_rejects (Metadata : Type)
    (c : LearningEngineCoordinator.Collaborators Metadata)
    (selected : list ItemSelector.ScoredItem) :
  Exists (fun x =>
            returns (LearningEngineCoordinator.getContentMetadata Metadata c
                       (ItemSelector.contentType (ItemSelector.item x))
                       (ItemSelector.contentId (ItemSelector.item x)))
            = false) selected ->
  returns (LearningEngineCoordinator.enhanceAll Metadata c selected) = false.
Proof.
  induction 1 as [x l H|x l _ IH]; cbn.
  - destruct (LearningEngineCoordinator.getContentMetadata _ _ _ _);
      [discriminate|reflexivity].
  - destruct (LearningEngineCoordinator.getContentMetadata _ _ _ _);
      [|reflexivity].
    destruct (LearningEngineCoordinator.enhanceAll Metadata c l);
      [discriminate|reflexivity].
Qed.

(** X19: when the metadata manager rejects for one of the items the selector
    chose, [initializeStudySession] throws and returns no session. *)
Theorem initializeStudySession_metadata_failure (Metadata : Type)
    (c : LearningEngineCoordinator.Collaborators Metadata) (now : number)
    (userId : string) (options : LearningEngineCoordinator.SessionOptions) :
  Exists (fun x =>
            returns (LearningEngineCoordinator.getContentMetadata Metadata c
                       (ItemSelector.contentType (ItemSelector.item x))
                       (ItemSelector.contentId (ItemSelector.item x)))
            = false)
         (ItemSelector.selectStudyItems
            (LearningEngineCoordinator.selectorStore Metadata c) now userId
            (Some (requestedCount options))) ->
  throws (LearningEngineCoordinator.initializeStudySession Metadata c now
            userId options) = true.
Proof.
  intros H. apply enhanceAll_rejects in H.
  unfold LearningEngineCoordinator.initializeStudySession.
  fold (requestedCount options).
  destruct (LearningEngineCoordinator.enhanceAll _ _ _);
    [discriminate|reflexivity].
Qed.

Lemma initializeStudySession_metadata_failure_witness :
  throws
    (LearningEngineCoordinator.initializeStudySession unit
       (LearningEngineCoordinator.mkCollaborators unit
          (fun _ => LearningEngineCoordinator.sampleUserLearningState)
          (ItemSelector.mkStore
             (fun _ => ItemSelector.sampleUserLearningData)
             (fun _ =>
                [ItemSelector.mkItem 1 "character" None true None (Some 80) false;
                 ItemSelector.mkItem 3 "grammar" None true None (Some 90) false]))
          (fun t _ => if String.eqb t "grammar"
                      then Throw "no metadata" else Normal tt))
       0 "user" (LearningEngineCoordinator.mkOptions None)) = true.
Proof.
  apply initializeStudySession_metadata_failure.
  apply Exists_cons_hd. reflexivity.
Defined.

Section SessionFocus.

Variable Metadata : Type.

Let typeOf (item : LearningEngineCoordinator.EnhancedItem Metadata) : string :=
  ItemSelector.contentType
    (ItemSelector.item (LearningEngineCoordinator.scored Metadata item)).

Let count (typeCounts : list (string * Z))
    (item : LearningEngineCoordinator.EnhancedItem Metadata) :=
  LearningEngineCoordinator.increment (typeOf item) typeCounts.

Lemma countOf_increment (t t' : string) (typeCounts : list (string * Z)) :
  countOf t (LearningEngineCoordinator.increment t' typeCounts)
  = (countOf t typeCounts + if String.eqb t' t then 1 else 0)%Z.
Proof.
  induction typeCounts as [|[k n] rest IH]; cbn.
  - destruct (String.eqb t' t); reflexivity.
  - destruct (String.eqb k t') eqn:E; cbn.
    + apply String.eqb_eq in E. subst k.
      destruct (String.eqb t' t); lia.
    + rewrite IH. destruct (String.eqb k t) eqn:Ek; [|reflexivity].
      apply String.eqb_eq in Ek. subst k. rewrite String.eqb_sym, E. lia.
Qed.

Lemma countOf_fold (items : list (LearningEngineCoordinator.EnhancedItem Metadata))
    (typeCounts : list (string * Z)) (t : string) :
  countOf t (fold_left count items typeCounts)
  = (countOf t typeCounts + Z.of_nat (itemsOfType Metadata items t))%Z.
Proof.
  revert typeCounts. induction items as [|x items IH]; intros typeCounts.
  - cbn. lia.
  - cbn [fold_left]. rewrite IH. unfold count.
    rewrite countOf_increment. unfold itemsOfType. cbn [filter].
    fold (typeOf x). destruct (String.eqb (typeOf x) t); cbn [List.length]; lia.
Qed.

Lemma countOf_cases (t : string) (typeCounts : list (string * Z)) :
  countOf t typeCounts = 0%Z \/ In (t, countOf t typeCounts) typeCounts.
Proof.
  induction typeCounts as [|[k n] rest IH]; cbn; [now left|].
  destruct (String.eqb k t) eqn:E.
  - apply String.eqb_eq in E. subst k. right. now left.
  - destruct IH as [Z|I]; [now left|right; now right].
Qed.

Lemma increment_keys (t k : string) (typeCounts : list (string * Z)) :
  In k (map fst (LearningEngineCoordinator.increment t typeCounts)) ->
  k = t \/ In k (map fst typeCounts).
Proof.
  induction typeCounts as [|[k0 n] rest IH]; cbn.
  - intros [<-|[]]. now left.
  - destruct (String.eqb k0 t); cbn; intros [<-|H]; auto.
    destruct (IH H); auto.
Qed.

Lemma increment_NoDup (t : string) (typeCounts : list (string * Z)) :
  NoDup (map fst typeCounts) ->
  NoDup (map fst (LearningEngineCoordinator.increment t typeCounts)).
Proof.
  induction typeCounts as [|[k n] rest IH]; cbn; intros H.
  - repeat constructor. intros [].
  - inversion H as [|? ? Hk Hrest]; subst.
    destruct (String.eqb k t) eqn:E; cbn; constructor; auto.
    intros I. apply increment_keys in I as [->|I]; [|contradiction].
    now rewrite String.eqb_refl in E.
Qed.

Lemma fold_NoDup (items : list (LearningEngineCoordinator.EnhancedItem Metadata))
    (typeCounts : list (string * Z)) :
  NoDup (map fst typeCounts) ->
  NoDup (map fst (fold_left count items typeCounts)).
Proof.
  revert typeCounts. induction items as [|x items IH]; intros typeCounts H;
    [exact H|].
  cbn [fold_left]. apply IH. now apply increment_NoDup.
Qed.

Lemma countOf_In (k : string) (n : Z) (typeCounts : list (string * Z)) :
  NoDup (map fst typeCounts) -> In (k, n) typeCounts ->
  countOf k typeCounts = n.
Proof.
  induction typeCounts as [|[k0 n0] rest IH]; cbn; intros H I; [contradiction|].
  inversion H as [|? ? Hk Hrest]; subst.
  destruct I as [[= -> ->]|I].
  - now rewrite String.eqb_refl.
  - destruct (String.eqb k0 k) eqn:E; [|now apply IH].
    apply String.eqb_eq in E. subst k0.
    exfalso. apply Hk. now apply (in_map fst _ (k, n)).
Qed.

(** X20: the focus of a session whose items have content types of the
    schema is "mixed" when the session has no item; otherwise it is a
    content type that occurs among the items, and no content type occurs
    more often. *)
Theorem determineSessionFocus_mode
    (items : list (LearningEngineCoordinator.EnhancedItem Metadata)) :
  Forall (fun item => In (typeOf item) contentTypes) items ->
  let focus := LearningEngineCoordinator.determineSessionFocus Metadata items in
  (items = [] -> focus = "mixed"%string)
  /\ (items <> [] ->
      (0 < itemsOfType Metadata items focus)%nat
      /\ forall t,
           (itemsOfType Metadata items t
            <= itemsOfType Metadata items focus)%nat).
Proof.
  intros _ focus. split; [intros ->; reflexivity|]. intros Hne.
  unfold focus, LearningEngineCoordinator.determineSessionFocus.
  fold typeOf. change (fold_left _ items []) with (fold_left count items []).
  set (typeCounts := fold_left count items []).
  set (comparefn := fun a b : string * Z => inject_Z (snd b) - inject_Z (snd a)).
  assert (Hcount : forall t,
             countOf t typeCounts = Z.of_nat (itemsOfType Metadata items t))
    by (intros t; unfold typeCounts; now rewrite countOf_fold).
  assert (Hnd : NoDup (map fst typeCounts))
    by (apply fold_NoDup; constructor).
  pose proof (sort_Permutation comparefn typeCounts) as P.
  pose proof (sort_descending comparefn (fun a => inject_Z (snd a))
                (fun a b => Qeq_refl _) typeCounts) as S.
  destruct (JSArray.sort comparefn typeCounts) as [|[k0 n0] rest] eqn:E.
  - exfalso. apply Permutation_nil in P.
    destruct items as [|x items]; [congruence|].
    pose proof (Hcount (typeOf x)) as C. rewrite P in C. cbn in C.
    unfold itemsOfType in C. cbn [filter] in C. fold (typeOf x) in C.
    rewrite String.eqb_refl in C. cbn [List.length] in C. lia.
  - cbn [fst].
    assert (I0 : In (k0, n0) typeCounts)
      by (apply (Permutation_in _ P); now left).
    pose proof (countOf_In _ _ _ Hnd I0) as C0. rewrite Hcount in C0.
    apply StronglySorted_inv in S as [_ Hrest].
    assert (Hmax : forall k n, In (k, n) typeCounts -> (n <= n0)%Z).
    { intros k n I. apply (Permutation_in _ (Permutation_sym P)) in I.
      destruct I as [[= _ ->]|I]; [lia|].
      rewrite Forall_forall in Hrest. specialize (Hrest _ I). cbn in Hrest.
      now rewrite <- Zle_Qle in Hrest. }
    assert (Hall : forall t,
               (itemsOfType Metadata items t
                <= itemsOfType Metadata items k0)%nat).
    { intros t. destruct (countOf_cases t typeCounts) as [Z|I].
      - rewrite Hcount in Z. lia.
      - apply Hmax in I. rewrite Hcount in I. lia. }
    split; [|exact Hall].
    destruct items as [|x items]; [congruence|].
    specialize (Hall (typeOf x)). unfold itemsOfType in Hall at 1.
    cbn [filter] in Hall. fold (typeOf x) in Hall.
    rewrite String.eqb_refl in Hall. cbn [List.length] in Hall. lia.
Qed.

End SessionFocus.

Lemma determineSessionFocus_mode_witness :
  let items :=
    map (fun t =>
           LearningEngineCoordinator.mkEnhanced unit
             (ItemSelector.mkScored
                (ItemSelector.mkItem 1 t None true None None false) (Some 50)) tt)
        ["word"; "grammar"; "grammar"]%string in
  let focus := LearningEngineCoordinator.determineSessionFocus unit items in
  (items = [] -> focus = "mixed"%string)
  /\ (items <> [] ->
      (0 < itemsOfType unit items focus)%nat
      /\ forall t, (itemsOfType unit items t <= itemsOfType unit items focus)%nat).
Proof.
  intros items.
  apply (determineSessionFocus_mode unit items).
  unfold items, contentTypes. cbn.
  repeat (apply Forall_cons; [cbn; auto 6|]). apply Forall_nil.
Defined.

(** ** The content metadata *)




Lemma tenth (x : number) : x / 10 == x * (1 # 10).
Proof. unfold Qdiv. now change (/ 10) with (1 # 10). Qed.


Lemma calculateBaseDifficulty_range (contentType : string) (contentId : Z) :
  10 <= ContentMetadataManager.calculateBaseDifficulty contentType contentId
  /\ ContentMetadataManager.calculateBaseDifficulty contentType contentId <= 80.
Proof.
  unfold ContentMetadataManager.calculateBaseDifficulty.
  destruct (String.eqb contentType "character");
    [|destruct (String.eqb contentType "word");
      [|destruct (String.eqb contentType "grammar")]];
    destruct (contentId =? 1)%Z; try (cbn; split; lra);
    destruct (contentId =? 2)%Z; try (cbn; split; lra);
    destruct (contentId =? 3)%Z; cbn; split; lra.
Qed.

Lemma getFrequencyRank_range (random : number) :
  0 <= random -> random < 1 ->
  1 <= ContentMetadataManager.getFrequencyRank random
  /\ ContentMetadataManager.getFrequencyRank random <= 1000.
Proof.
  intros H0 H1. unfold ContentMetadataManager.getFrequencyRank.
  pose proof (Qfloor_le (random * 1000)) as F.
  assert (0 <= Qfloor (random * 1000))%Z as L.
  { change 0%Z with (Qfloor 0). apply Qfloor_resp_le. lra. }
  assert (Qfloor (random * 1000) <= 999)%Z as U.
  { assert (inject_Z (Qfloor (random * 1000)) < inject_Z 1000) as U
      by (change (inject_Z 1000) with 1000; lra).
    rewrite <- Zlt_Qlt in U. lia. }
  rewrite Zle_Qle in L, U. change (inject_Z 999) with 999 in U.
  change (inject_Z 0) with 0 in L. split; lra.
Qed.

(** X22: the metadata built on a cache miss, [Math.random] answering in
    [0,1), have a frequency rank between 1 and 1000, a base difficulty
    between 10 and 80, no prerequisite, and a complexity score between 5
    and 70. *)
Theorem fresh_metadata_ranges (cache : ContentMetadataManager.Cache)
    (random : number) (contentType : string) (contentId : Z) :
  0 <= random -> random < 1 ->
  ContentMetadataManager.cache_get
    (ContentMetadataManager.cacheKey contentType contentId) cache = None ->
  let metadata :=
    fst (ContentMetadataManager.getContentMetadata cache random contentType
           contentId) in
  let base := ContentMetadataManager.base metadata in
  (1 <= ContentMetadataManager.frequencyRank base
   /\ ContentMetadataManager.frequencyRank base <= 1000)
  /\ (10 <= ContentMetadataManager.baseDifficulty base
      /\ ContentMetadataManager.baseDifficulty base <= 80)
  /\ ContentMetadataManager.prerequisiteItems base = []
  /\ (5 <= ContentMetadataManager.complexityScore metadata
      /\ ContentMetadataManager.complexityScore metadata <= 70).
Proof.
  intros H0 H1 Miss metadata base. subst base metadata.
  unfold ContentMetadataManager.getContentMetadata. rewrite Miss.
  cbn [fst ContentMetadataManager.base ContentMetadataManager.enhanceMetadata
       ContentMetadataManager.complexityScore
       ContentMetadataManager.fetchContentMetadata
       ContentMetadataManager.frequencyRank
       ContentMetadataManager.baseDifficulty
       ContentMetadataManager.prerequisiteItems
       ContentMetadataManager.getPrerequisites].
  pose proof (getFrequencyRank_range random H0 H1) as [R1 R2].
  pose proof (calculateBaseDifficulty_range contentType contentId) as [D1 D2].
  split; [split; assumption|]. split; [split; assumption|].
  split; [reflexivity|]. split.
  - apply (Qle_trans _ (Math_round 5)); [now vm_compute|].
    unfold ContentMetadataManager.calculateComplexityScore.
    apply Math_round_le.
    cbn [ContentMetadataManager.baseDifficulty
         ContentMetadataManager.frequencyRank
         ContentMetadataManager.prerequisiteItems
         ContentMetadataManager.fetchContentMetadata
         ContentMetadataManager.getPrerequisites List.length].
    pose proof (tenth (ContentMetadataManager.getFrequencyRank random)) as T.
    change (inject_Z (Z.of_nat 0)) with 0.
    unfold Math_max. js_cases; lra.
  - apply (Qle_trans _ (Math_round 70)); [|now vm_compute].
    unfold ContentMetadataManager.calculateComplexityScore.
    apply Math_round_le.
    cbn [ContentMetadataManager.baseDifficulty
         ContentMetadataManager.frequencyRank
         ContentMetadataManager.prerequisiteItems
         ContentMetadataManager.fetchContentMetadata
         ContentMetadataManager.getPrerequisites List.length].
    pose proof (tenth (ContentMetadataManager.getFrequencyRank random)) as T.
    change (inject_Z (Z.of_nat 0)) with 0.
    unfold Math_max. js_cases; lra.
Qed.

Lemma fresh_metadata_ranges_witness :
  let metadata :=
    fst (ContentMetadataManager.getContentMetadata [] 0.4217 "word" 2) in
  let base := ContentMetadataManager.base metadata in
  (1 <= ContentMetadataManager.frequencyRank base
   /\ ContentMetadataManager.frequencyRank base <= 1000)
  /\ (10 <= ContentMetadataManager.baseDifficulty base
      /\ ContentMetadataManager.baseDifficulty base <= 80)
  /\ ContentMetadataManager.prerequisiteItems base = []
  /\ (5 <= ContentMetadataManager.complexityScore metadata
      /\ ContentMetadataManager.complexityScore metadata <= 70).
Proof.
  apply (fresh_metadata_ranges [] 0.4217 "word" 2); [lra|lra|reflexivity].
Defined.

Lemma cache_get_set (key key' : string)
    (m : ContentMetadataManager.Metadata) (cache : ContentMetadataManager.Cache) :
  ContentMetadataManager.cache_get key
    (ContentMetadataManager.cache_set key' m cache)
  = if String.eqb key' key then Some m
    else ContentMetadataManager.cache_get key cache.
Proof.
  induction cache as [|[k0 m0] cache IH]; cbn.
  - reflexivity.
  - destruct (String.eqb k0 key') eqn:E0; cbn.
    + apply String.eqb_eq in E0. subst k0. now destruct (String.eqb key' key).
    + rewrite IH. destruct (String.eqb k0 key) eqn:E1; [|reflexivity].
      apply String.eqb_eq in E1. subst key. now rewrite String.eqb_sym, E0.
Qed.

(** X23: once [getContentMetadata] has answered for an item, it answers
    the same metadata for that item again, whatever [Math.random] says by
    then, and leaves the cache as it is. *)
Theorem getContentMetadata_cached (cache : ContentMetadataManager.Cache)
    (random random' : number) (contentType : string) (contentId : Z) :
  let first :=
    ContentMetadataManager.getContentMetadata cache random contentType
      contentId in
  let second :=
    ContentMetadataManager.getContentMetadata (snd first) random' contentType
      contentId in
  fst second = fst first /\ snd second = snd first.
Proof.
  intros first second.
  assert (H : ContentMetadataManager.cache_get
                (ContentMetadataManager.cacheKey contentType contentId)
                (snd first) = Some (fst first)).
  { unfold first, ContentMetadataManager.getContentMetadata.
    destruct (ContentMetadataManager.cache_get _ cache) eqn:E; cbn [fst snd].
    - exact E.
    - rewrite cache_get_set. now rewrite String.eqb_refl. }
  subst second. unfold ContentMetadataManager.getContentMetadata at 1 2.
  rewrite H. split; reflexivity.
Qed.

(** X24: a call of [getContentMetadata] leaves what the cache holds under
    any other cache key as it was. *)
Theorem getContentMetadata_other_keys (cache : ContentMetadataManager.Cache)
    (random : number) (contentType : string) (contentId : Z) (key : string) :
  key <> ContentMetadataManager.cacheKey contentType contentId ->
  ContentMetadataManager.cache_get key
    (snd (ContentMetadataManager.getContentMetadata cache random contentType
            contentId))
  = ContentMetadataManager.cache_get key cache.
Proof.
  intros N. unfold ContentMetadataManager.getContentMetadata.
  destruct (ContentMetadataManager.cache_get _ cache); cbn [snd];
    [reflexivity|].
  rewrite cache_get_set.
  destruct (String.eqb _ key) eqn:E; [|reflexivity].
  apply String.eqb_eq in E. congruence.
Qed.

Lemma getContentMetadata_other_keys_witness :
  ContentMetadataManager.cache_get "word-1"
    (snd (ContentMetadataManager.getContentMetadata
            (snd (ContentMetadataManager.getContentMetadata [] 0.3 "word" 1))
            0.7 "word" 2))
  = ContentMetadataManager.cache_get "word-1"
      (snd (ContentMetadataManager.getContentMetadata [] 0.3 "word" 1)).
Proof.
  apply getContentMetadata_other_keys. discriminate.
Defined.

(** ** The analytics *)

Lemma Math_max_1 (x : number) : 1 <= Math_max 1 x /\ x <= Math_max 1 x.
Proof. unfold Math_max. js_cases; split; lra. Qed.

Lemma ratio_range (a b : number) :
  0 <= a -> a <= b -> 0 < b -> 0 <= a / b /\ a / b <= 1.
Proof.
  intros Ha Hab Hb. split.
  - apply Qle_shift_div_l; lra.
  - apply Qle_shift_div_r; lra.
Qed.

Lemma calculateConsistency_range
    (dailyActivity : list PerformanceAnalytics.DailyActivity) :
  0 <= PerformanceAnalytics.calculateConsistency dailyActivity
  /\ PerformanceAnalytics.calculateConsistency dailyActivity <= 100.
Proof.
  unfold PerformanceAnalytics.calculateConsistency.
  destruct dailyActivity as [|d l]; [split; lra|].
  set (days := d :: l).
  set (active := List.length (filter _ days)).
  assert (Hle : (active <= List.length days)%nat) by apply filter_length_le.
  assert (Hpos : (0 < List.length days)%nat) by (cbn; lia).
  destruct (ratio_range (inject_Z (Z.of_nat active))
              (inject_Z (Z.of_nat (List.length days)))) as [R0 R1].
  - rewrite <- (Zle_Qle 0). lia.
  - rewrite <- Zle_Qle. lia.
  - rewrite <- (Zlt_Qlt 0). lia.
  - split.
    + apply (Qle_trans _ (Math_round 0)); [now vm_compute|].
      apply Math_round_le. lra.
    + apply (Qle_trans _ (Math_round 100)); [|now vm_compute].
      apply Math_round_le. lra.
Qed.

(** X25: for counts that are not negative, with no more correct responses
    than items studied, the efficiency score is between 0 and 3070 (not
    between 0 and 100): the speed component alone goes up to 3000, and 3070
    is reached. *)
Theorem calculateEfficiencyScore_range
    (d : PerformanceAnalytics.PerformanceData) :
  0 <= PerformanceAnalytics.correctResponses d ->
  PerformanceAnalytics.correctResponses d
  <= PerformanceAnalytics.totalItemsStudied d ->
  0 <= PerformanceAnalytics.totalStudyTime d ->
  (0 <= PerformanceAnalytics.calculateEfficiencyScore d
   /\ PerformanceAnalytics.calculateEfficiencyScore d <= 3070)
  /\ PerformanceAnalytics.calculateEfficiencyScore
       (PerformanceAnalytics.mkData 100 100 1 [] 0
          [PerformanceAnalytics.mkDay 0 5 10]) == 3070.
Proof.
  intros Hc Hct Ht. split; [|reflexivity].
  unfold PerformanceAnalytics.calculateEfficiencyScore.
  pose proof (calculateConsistency_range
                (PerformanceAnalytics.dailyActivity d)) as [C0 C1].
  destruct (Math_max_1 (PerformanceAnalytics.totalItemsStudied d)) as [M1 M2].
  destruct (Math_max_1 (PerformanceAnalytics.totalStudyTime d)) as [N1 N2].
  destruct (ratio_range (PerformanceAnalytics.correctResponses d)
              (Math_max 1 (PerformanceAnalytics.totalItemsStudied d)))
    as [A0 A1]; try lra.
  assert (S0 : 0 <= PerformanceAnalytics.totalItemsStudied d
                    / Math_max 1 (PerformanceAnalytics.totalStudyTime d))
    by (apply Qle_shift_div_l; lra).
  destruct (Math_min_spec 100
              (PerformanceAnalytics.totalItemsStudied d
               / Math_max 1 (PerformanceAnalytics.totalStudyTime d) * 60))
    as [[L E]|[L E]]; rewrite E; split.
  - apply (Qle_trans _ (Math_round 0)); [now vm_compute|].
    apply Math_round_le. lra.
  - apply (Qle_trans _ (Math_round 3070)); [|now vm_compute].
    apply Math_round_le. lra.
  - apply (Qle_trans _ (Math_round 0)); [now vm_compute|].
    apply Math_round_le. lra.
  - apply (Qle_trans _ (Math_round 3070)); [|now vm_compute].
    apply Math_round_le. lra.
Qed.

Lemma calculateEfficiencyScore_range_witness :
  (0 <= PerformanceAnalytics.calculateEfficiencyScore
          (PerformanceAnalytics.mkData 500 420 1500 [] 15 [])
   /\ PerformanceAnalytics.calculateEfficiencyScore
        (PerformanceAnalytics.mkData 500 420 1500 [] 15 []) <= 3070)
  /\ PerformanceAnalytics.calculateEfficiencyScore
       (PerformanceAnalytics.mkData 100 100 1 [] 0
          [PerformanceAnalytics.mkDay 0 5 10]) == 3070.
Proof.
  apply (calculateEfficiencyScore_range
           (PerformanceAnalytics.mkData 500 420 1500 [] 15 []));
    cbn; lra.
Defined.

Lemma StronglySorted_impl_rel {A : Type} (R R' : A -> A -> Prop) (l : list A) :
  (forall a b, R a b -> R' a b) -> StronglySorted R l -> StronglySorted R' l.
Proof.
  intros H. induction 1 as [|x l _ IH F]; constructor; [exact IH|].
  eapply Forall_impl; [|exact F]. intros b. apply H.
Qed.

Lemma fold_left_ext {A B : Type} (f g : A -> B -> A) (l : list B) (a : A) :
  (forall x y, f x y = g x y) -> fold_left f l a = fold_left g l a.
Proof.
  intros H. revert a. induction l as [|y l IH]; intros a; cbn; [reflexivity|].
  now rewrite H, IH.
Qed.

Lemma fold_push {A B : Type} (keep : A -> bool) (f : A -> B) (l : list A)
    (init : list B) :
  fold_left (fun acc x => if keep x then acc ++ [f x] else acc) l init
  = init ++ map f (filter keep l).
Proof.
  revert init. induction l as [|x l IH]; intros init; cbn.
  - now rewrite app_nil_r.
  - rewrite IH. destruct (keep x); [|reflexivity].
    cbn. now rewrite <- app_assoc.
Qed.

Lemma strengths_collected (d : PerformanceAnalytics.PerformanceData) :
  Permutation (PerformanceAnalytics.identifyStrengthAreas d)
    (map (fun e : string * PerformanceAnalytics.CategoryPerformance =>
            PerformanceAnalytics.mkStrength (fst e)
              (PerformanceAnalytics.accuracy (snd e))
              (PerformanceAnalytics.itemsMastered (snd e)))
         (filter (fun e => PerformanceAnalytics.accuracy (snd e) >? 85)
                 (PerformanceAnalytics.performanceByCategory d))).
Proof.
  unfold PerformanceAnalytics.identifyStrengthAreas.
  rewrite sort_Permutation.
  rewrite <- (app_nil_l (map _ (filter _ _))), <- fold_push.
  apply Permutation_refl'. apply fold_left_ext. now intros acc [c data].
Qed.

Lemma weaknesses_collected (d : PerformanceAnalytics.PerformanceData) :
  Permutation (PerformanceAnalytics.identifyWeaknessAreas d)
    (map (fun e : string * PerformanceAnalytics.CategoryPerformance =>
            PerformanceAnalytics.mkWeakness (fst e)
              (PerformanceAnalytics.accuracy (snd e))
              (PerformanceAnalytics.totalItems (snd e)
               - PerformanceAnalytics.itemsMastered (snd e)))
         (filter (fun e => PerformanceAnalytics.accuracy (snd e) <? 70)
                 (PerformanceAnalytics.performanceByCategory d))).
Proof.
  unfold PerformanceAnalytics.identifyWeaknessAreas.
  rewrite sort_Permutation.
  rewrite <- (app_nil_l (map _ (filter _ _))), <- fold_push.
  apply Permutation_refl'. apply fold_left_ext. now intros acc [c data].
Qed.

Lemma unique_key {A : Type} (l : list (string * A)) (k : string) (a b : A) :
  NoDup (map fst l) -> In (k, a) l -> In (k, b) l -> a = b.
Proof.
  induction l as [|[k0 x] l IH]; cbn; intros N Ia Ib; [contradiction|].
  apply NoDup_cons_iff in N as [Hk Hl].
  destruct Ia as [Ea|Ia], Ib as [Eb|Ib].
  - congruence.
  - exfalso. apply Hk. inversion Ea; subst.
    now apply (in_map fst _ (k, b)).
  - exfalso. apply Hk. inversion Eb; subst.
    now apply (in_map fst _ (k, a)).
  - now apply IH.
Qed.

(** X26: every strength area has an accuracy above 85 and the strengths
    come by decreasing accuracy; every weakness area has an accuracy below
    70 and the weaknesses come by increasing accuracy; a category is a
    strength exactly when its accuracy is above 85 and a weakness exactly
    when it is below 70, so that none is both and those from 70 to 85 are
    neither. *)
Theorem strength_and_weakness_areas
    (d : PerformanceAnalytics.PerformanceData) :
  NoDup (map fst (PerformanceAnalytics.performanceByCategory d)) ->
  let strengths := PerformanceAnalytics.identifyStrengthAreas d in
  let weaknesses := PerformanceAnalytics.identifyWeaknessAreas d in
  Forall (fun s => 85 < PerformanceAnalytics.s_accuracy s) strengths
  /\ StronglySorted
       (fun a b => PerformanceAnalytics.s_accuracy b
                   <= PerformanceAnalytics.s_accuracy a) strengths
  /\ Forall (fun w => PerformanceAnalytics.w_accuracy w < 70) weaknesses
  /\ StronglySorted
       (fun a b => PerformanceAnalytics.w_accuracy a
                   <= PerformanceAnalytics.w_accuracy b) weaknesses
  /\ forall category data,
       In (category, data) (PerformanceAnalytics.performanceByCategory d) ->
       (In category (map PerformanceAnalytics.s_category strengths)
        <-> 85 < PerformanceAnalytics.accuracy data)
       /\ (In category (map PerformanceAnalytics.w_category weaknesses)
           <-> PerformanceAnalytics.accuracy data < 70).
Proof.
  intros N strengths weaknesses.
  pose proof (strengths_collected d) as PS. fold strengths in PS.
  pose proof (weaknesses_collected d) as PW. fold weaknesses in PW.
  split; [|split; [|split; [|split]]].
  - apply (Permutation_Forall (Permutation_sym PS)).
    apply Forall_map, Forall_forall. intros [c data] I.
    apply filter_In in I as [_ I]. cbn in *. unfold gtb in I.
    now destruct (ltb_spec 85 (PerformanceAnalytics.accuracy data)).
  - apply (sort_descending _ PerformanceAnalytics.s_accuracy).
    intros a b. reflexivity.
  - apply (Permutation_Forall (Permutation_sym PW)).
    apply Forall_map, Forall_forall. intros [c data] I.
    apply filter_In in I as [_ I]. cbn in *.
    now destruct (ltb_spec (PerformanceAnalytics.accuracy data) 70).
  - pose proof (sort_descending
                  (fun a b => PerformanceAnalytics.w_accuracy a
                              - PerformanceAnalytics.w_accuracy b)
                  (fun a => - PerformanceAnalytics.w_accuracy a)) as S.
    apply (StronglySorted_impl_rel
             (fun a b => - PerformanceAnalytics.w_accuracy b
                         <= - PerformanceAnalytics.w_accuracy a)).
    + intros a b H. lra.
    + apply S. intros a b. lra.
  - intros category data I. split; split.
    + intros J. apply (Permutation_in _ (Permutation_map _ PS)) in J.
      rewrite map_map in J. apply in_map_iff in J as ([c data'] & <- & J).
      apply filter_In in J as [J K]. cbn in *.
      rewrite (unique_key _ _ _ _ N I J). unfold gtb in K.
      now destruct (ltb_spec 85 (PerformanceAnalytics.accuracy data')).
    + intros H.
      apply (Permutation_in _ (Permutation_sym (Permutation_map _ PS))).
      rewrite map_map. apply in_map_iff. exists (category, data).
      split; [reflexivity|]. apply filter_In. split; [exact I|]. cbn.
      unfold gtb. now destruct (ltb_spec 85 (PerformanceAnalytics.accuracy data)).
    + intros J. apply (Permutation_in _ (Permutation_map _ PW)) in J.
      rewrite map_map in J. apply in_map_iff in J as ([c data'] & <- & J).
      apply filter_In in J as [J K]. cbn in *.
      rewrite (unique_key _ _ _ _ N I J).
      now destruct (ltb_spec (PerformanceAnalytics.accuracy data') 70).
    + intros H.
      apply (Permutation_in _ (Permutation_sym (Permutation_map _ PW))).
      rewrite map_map. apply in_map_iff. exists (category, data).
      split; [reflexivity|]. apply filter_In. split; [exact I|]. cbn.
      now destruct (ltb_spec (PerformanceAnalytics.accuracy data) 70).
Qed.

Lemma strength_and_weakness_areas_witness :
  let d :=
    PerformanceAnalytics.mkData 500 420 1500 sampleCategoryPerformance 15 [] in
  let strengths := PerformanceAnalytics.identifyStrengthAreas d in
  let weaknesses := PerformanceAnalytics.identifyWeaknessAreas d in
  Forall (fun s => 85 < PerformanceAnalytics.s_accuracy s) strengths
  /\ StronglySorted
       (fun a b => PerformanceAnalytics.s_accuracy b
                   <= PerformanceAnalytics.s_accuracy a) strengths
  /\ Forall (fun w => PerformanceAnalytics.w_accuracy w < 70) weaknesses
  /\ StronglySorted
       (fun a b => PerformanceAnalytics.w_accuracy a
                   <= PerformanceAnalytics.w_accuracy b) weaknesses
  /\ forall category data,
       In (category, data) (PerformanceAnalytics.performanceByCategory d) ->
       (In category (map PerformanceAnalytics.s_category strengths)
        <-> 85 < PerformanceAnalytics.accuracy data)
       /\ (In category (map PerformanceAnalytics.w_category weaknesses)
           <-> PerformanceAnalytics.accuracy data < 70).
Proof.
  intros d.
  apply (strength_and_weakness_areas d).
  cbn. repeat (apply NoDup_cons; [cbn; intuition discriminate|]).
  apply NoDup_nil.
Defined.

Lemma Math_ceil_le (x y : number) :
  x <= y -> PerformanceAnalytics.Math_ceil x <= PerformanceAnalytics.Math_ceil y.
Proof.
  intros H. unfold PerformanceAnalytics.Math_ceil. rewrite <- Zle_Qle.
  now apply Qceiling_resp_le.
Qed.

Lemma half (x : number) : x / 2 == x * (1 # 2).
Proof. unfold Qdiv. now change (/ 2) with (1 # 2). Qed.

(** X27: for a category with no more mastered items than items, the
    mastery timeline predicts between 0 and 50 weeks and a completion date
    that many weeks after today; it predicts 0 weeks when all items (at
    least one) are mastered, and 50 weeks for a category without items. *)
Theorem predictMasteryTimeline_weeks (today : number)
    (d : PerformanceAnalytics.PerformanceData) (category : string)
    (data : PerformanceAnalytics.CategoryPerformance) :
  In (category, data) (PerformanceAnalytics.performanceByCategory d) ->
  0 <= PerformanceAnalytics.itemsMastered data ->
  PerformanceAnalytics.itemsMastered data
  <= PerformanceAnalytics.totalItems data ->
  exists prediction,
    In (category, prediction)
       (PerformanceAnalytics.predictMasteryTimeline today d)
    /\ 0 <= PerformanceAnalytics.weeksToFullMastery prediction
    /\ PerformanceAnalytics.weeksToFullMastery prediction <= 50
    /\ PerformanceAnalytics.estimatedCompletionDate prediction
       = today + PerformanceAnalytics.weeksToFullMastery prediction * 7
    /\ (1 <= PerformanceAnalytics.totalItems data ->
        PerformanceAnalytics.itemsMastered data
        == PerformanceAnalytics.totalItems data ->
        PerformanceAnalytics.weeksToFullMastery prediction == 0)
    /\ (PerformanceAnalytics.totalItems data == 0 ->
        PerformanceAnalytics.weeksToFullMastery prediction == 50).
Proof.
  intros I H0 H1. unfold PerformanceAnalytics.predictMasteryTimeline.
  eexists. split.
  { apply in_map_iff. exists (category, data). split; [reflexivity|exact I]. }
  cbn [PerformanceAnalytics.weeksToFullMastery
       PerformanceAnalytics.estimatedCompletionDate
       PerformanceAnalytics.addWeeks].
  destruct (Math_max_1 (PerformanceAnalytics.totalItems data)) as [M1 M2].
  destruct (ratio_range (PerformanceAnalytics.itemsMastered data)
              (Math_max 1 (PerformanceAnalytics.totalItems data)))
    as [R0 R1]; try lra.
  set (ratio := PerformanceAnalytics.itemsMastered data
                / Math_max 1 (PerformanceAnalytics.totalItems data)) in *.
  pose proof (half (100 - ratio * 100)) as Hh.
  destruct (ltb_spec (ratio * 100) 100) as [L|L].
  - split; [|split; [|split; [reflexivity|split]]].
    + apply (Qle_trans _ (PerformanceAnalytics.Math_ceil 0));
        [now vm_compute|]. apply Math_ceil_le. lra.
    + apply (Qle_trans _ (PerformanceAnalytics.Math_ceil 50));
        [|now vm_compute]. apply Math_ceil_le. lra.
    + intros T E. exfalso.
      assert (X : Math_max 1 (PerformanceAnalytics.totalItems data)
                  == PerformanceAnalytics.totalItems data)
        by (unfold Math_max; js_cases; lra).
      assert (Y : Math_max 1 (PerformanceAnalytics.totalItems data) * ratio
                  == PerformanceAnalytics.itemsMastered data)
        by (apply Qmult_div_r; lra).
      nra.
    + intros Z.
      assert (Y : Math_max 1 (PerformanceAnalytics.totalItems data) * ratio
                  == PerformanceAnalytics.itemsMastered data)
        by (apply Qmult_div_r; lra).
      assert (R : ratio == 0) by nra.
      unfold PerformanceAnalytics.Math_ceil.
      rewrite (Qceiling_comp _ 50) by lra. reflexivity.
  - split; [lra|]. split; [lra|]. split; [reflexivity|].
    split; [reflexivity|].
    intros Z. exfalso.
    assert (Y : Math_max 1 (PerformanceAnalytics.totalItems data) * ratio
                == PerformanceAnalytics.itemsMastered data)
      by (apply Qmult_div_r; lra).
    nra.
Qed.

Lemma predictMasteryTimeline_weeks_witness :
  exists prediction,
    In ("kanji"%string, prediction)
       (PerformanceAnalytics.predictMasteryTimeline 0
          (PerformanceAnalytics.mkData 500 420 1500 sampleCategoryPerformance
             15 []))
    /\ 0 <= PerformanceAnalytics.weeksToFullMastery prediction
    /\ PerformanceAnalytics.weeksToFullMastery prediction <= 50
    /\ PerformanceAnalytics.estimatedCompletionDate prediction
       = 0 + PerformanceAnalytics.weeksToFullMastery prediction * 7
    /\ (1 <= 250 -> 100 == 250 ->
        PerformanceAnalytics.weeksToFullMastery prediction == 0)
    /\ (250 == 0 ->
        PerformanceAnalytics.weeksToFullMastery prediction == 50).
Proof.
  apply (predictMasteryTimeline_weeks 0
           (PerformanceAnalytics.mkData 500 420 1500 sampleCategoryPerformance
              15 [])
           "kanji" (PerformanceAnalytics.mkCategory 65 100 250 3)).
  - cbn. auto.
  - cbn. lra.
  - cbn. lra.
Defined.

(** ** The performance records of the application *)

Lemma hundredth (x : number) : x / 100 == x * (1 # 100).
Proof. unfold Qdiv. now change (/ 100) with (1 # 100). Qed.



Lemma toFixed2_close (x : number) :
  x - 0.005 <= UserPerformance.toFixed2 x
  /\ UserPerformance.toFixed2 x <= x + 0.005.
Proof.
  unfold UserPerformance.toFixed2. destruct (ltb_spec x 0).
  - pose proof (Qfloor_le (- x * 100 + (1 # 2))) as F1.
    pose proof (Qlt_floor (- x * 100 + (1 # 2))) as F2.
    rewrite inject_Z_plus in F2. change (inject_Z 1) with 1 in F2.
    pose proof (hundredth (inject_Z (Qfloor (- x * 100 + (1 # 2))))) as H.
    split; lra.
  - pose proof (Qfloor_le (x * 100 + (1 # 2))) as F1.
    pose proof (Qlt_floor (x * 100 + (1 # 2))) as F2.
    rewrite inject_Z_plus in F2. change (inject_Z 1) with 1 in F2.
    pose proof (hundredth (inject_Z (Qfloor (x * 100 + (1 # 2))))) as H.
    split; lra.
Qed.

Lemma toFixed2_percent (x : number) :
  0 <= x -> x <= 100 ->
  0 <= UserPerformance.toFixed2 x /\ UserPerformance.toFixed2 x <= 100.
Proof.
  intros H0 H1. unfold UserPerformance.toFixed2.
  destruct (ltb_spec x 0); [lra|].
  pose proof (hundredth (inject_Z (Qfloor (x * 100 + (1 # 2))))) as H.
  assert (L : (Qfloor 0 <= Qfloor (x * 100 + (1 # 2)))%Z)
    by (apply Qfloor_resp_le; lra).
  assert (U : (Qfloor (x * 100 + (1 # 2)) <= Qfloor (100 * 100 + (1 # 2)))%Z)
    by (apply Qfloor_resp_le; lra).
  rewrite Zle_Qle in L, U.
  change (inject_Z (Qfloor 0)) with 0 in L.
  change (inject_Z (Qfloor (100 * 100 + (1 # 2)))) with 10000 in U.
  split; lra.
Qed.

Lemma NoDup_app_iff_snoc {A : Type} (l : list A) (x : A) :
  NoDup l -> ~ In x l -> NoDup (l ++ [x]).
Proof.
  intros N I. apply NoDup_app; [exact N|repeat constructor; intros []|].
  intros y Hy [<-|[]]. contradiction.
Qed.

Lemma Forall_filter_nil {A : Type} (keep : A -> bool) (l : list A) :
  Forall (fun x => keep x = false) l <-> filter keep l = [].
Proof.
  induction l as [|x l IH]; cbn; [split; auto|].
  destruct (keep x) eqn:E; split; intros H.
  - apply Forall_inv in H. congruence.
  - discriminate.
  - apply IH. now apply Forall_inv_tail in H.
  - constructor; [exact E|now apply IH].
Qed.

Section OneItem.

Variable userId contentType : string.
Variable contentId : Z.

Let mine := UserPerformance.selected userId contentType contentId.
Let forItem := rowsFor userId contentType contentId.
Let forOthers := otherRows userId contentType contentId.
Let update := fun db (a : UserPerformance.Attempt) =>
  UserPerformance.updateUserPerformance db (UserPerformance.at_time a) userId
    contentType contentId (UserPerformance.isCorrect a)
    (UserPerformance.responseTime a).

Lemma filter_map_invariant {A : Type} (keep : A -> bool) (f : A -> A)
    (l : list A) :
  (forall x, keep (f x) = keep x) ->
  filter keep (map f l) = map f (filter keep l).
Proof.
  intros H. induction l as [|x l IH]; cbn; [reflexivity|].
  rewrite H. destruct (keep x); cbn; now rewrite IH.
Qed.

Lemma map_unchanged {A : Type} (f : A -> A) (l : list A) :
  Forall (fun x => f x = x) l -> map f l = l.
Proof. induction 1 as [|x l H _ IH]; cbn; [reflexivity|]. now rewrite H, IH. Qed.

Lemma same_id_same_row (l : list UserPerformance.Row)
    (r r' : UserPerformance.Row) :
  NoDup (map UserPerformance.id l) -> In r l -> In r' l ->
  UserPerformance.id r = UserPerformance.id r' -> r = r'.
Proof.
  induction l as [|x l IH]; cbn; intros N I I' E; [contradiction|].
  apply NoDup_cons_iff in N as [Hx Hl].
  destruct I as [->|I], I' as [->|I'].
  - reflexivity.
  - exfalso. apply Hx. rewrite E. now apply in_map.
  - exfalso. apply Hx. rewrite <- E. now apply in_map.
  - now apply IH.
Qed.

(** What an attempt leaves when the item has no row, or several: one more
    row, for this item, counting one attempt. *)
Lemma attempt_inserts (db : UserPerformance.Database)
    (a : UserPerformance.Attempt) :
  UserPerformance.single (forItem db) = None -> keyed db ->
  let data :=
    UserPerformance.mkRow (UserPerformance.nextId db) userId contentType
      contentId 1 (if UserPerformance.isCorrect a then 1 else 0)
      (UserPerformance.at_time a)
      (if UserPerformance.isCorrect a then 100 else 0)
      (UserPerformance.responseTime a)
      (UserPerformance.at_time a) (UserPerformance.at_time a) in
  update db a
  = (Some data,
     UserPerformance.mkDatabase (UserPerformance.rows db ++ [data])
       (UserPerformance.nextId db + 1)%Z)
  /\ forItem (snd (update db a)) = forItem db ++ [data]
  /\ forOthers (snd (update db a)) = forOthers db
  /\ keyed (snd (update db a)).
Proof.
  intros E [N B] data.
  assert (M : mine data = true).
  { unfold mine, UserPerformance.selected, data. cbn.
    now rewrite !String.eqb_refl, Z.eqb_refl. }
  assert (U : update db a
              = (Some data,
                 UserPerformance.mkDatabase (UserPerformance.rows db ++ [data])
                   (UserPerformance.nextId db + 1)%Z)).
  { unfold update, UserPerformance.updateUserPerformance.
    unfold forItem, rowsFor in E. now rewrite E. }
  rewrite U. cbn [snd]. split; [reflexivity|].
  unfold forItem, forOthers, rowsFor, otherRows, keyed.
  cbn [UserPerformance.rows UserPerformance.nextId].
  rewrite !filter_app. cbn [filter]. fold mine. rewrite M. cbn [negb].
  split; [reflexivity|]. split; [now rewrite app_nil_r|]. split.
  - rewrite map_app. cbn. apply NoDup_app_iff_snoc; [exact N|].
    intros I. apply in_map_iff in I as (r & Er & Ir).
    rewrite Forall_forall in B. specialize (B r Ir). lia.
  - apply Forall_app. split.
    + eapply Forall_impl; [|exact B]. cbn. intros r Hr. lia.
    + repeat constructor. cbn. lia.
Qed.

Lemma filter_by_id (l : list UserPerformance.Row) (row : UserPerformance.Row) :
  NoDup (map UserPerformance.id l) -> In row l ->
  filter (fun r => (UserPerformance.id r =? UserPerformance.id row)%Z) l
  = [row].
Proof.
  induction l as [|x l IH]; cbn; intros N I; [contradiction|].
  apply NoDup_cons_iff in N as [Hx Hl]. destruct I as [->|I].
  - rewrite Z.eqb_refl. f_equal.
    apply (proj1 (Forall_filter_nil _ _)).
    apply Forall_forall. intros r Ir.
    destruct (Z.eqb_spec (UserPerformance.id r) (UserPerformance.id row));
      [|reflexivity].
    exfalso. apply Hx. rewrite <- e. now apply in_map.
  - destruct (Z.eqb_spec (UserPerformance.id x) (UserPerformance.id row)).
    + exfalso. apply Hx. rewrite e. now apply in_map.
    + now apply IH.
Qed.

(** What an attempt leaves when the item has exactly one row: that row,
    updated, and every other row as it was. *)
Lemma attempt_updates (db : UserPerformance.Database)
    (a : UserPerformance.Attempt) (row : UserPerformance.Row) :
  forItem db = [row] -> keyed db ->
  let attempts' := UserPerformance.attempts row + 1 in
  let correct' :=
    UserPerformance.correct_attempts row
    + (if UserPerformance.isCorrect a then 1 else 0) in
  let row' :=
    UserPerformance.mkRow (UserPerformance.id row)
      (UserPerformance.user_id row) (UserPerformance.content_type row)
      (UserPerformance.content_id row) attempts' correct'
      (UserPerformance.at_time a)
      (UserPerformance.toFixed2 (correct' / attempts' * 100))
      (UserPerformance.toFixed2
         ((UserPerformance.avg_response_time row * UserPerformance.attempts row
           + UserPerformance.responseTime a) / attempts'))
      (UserPerformance.created_at row) (UserPerformance.at_time a) in
  fst (update db a) = Some row'
  /\ forItem (snd (update db a)) = [row']
  /\ forOthers (snd (update db a)) = forOthers db
  /\ keyed (snd (update db a)).
Proof.
  intros E [N B] attempts' correct' row'.
  assert (I : In row (UserPerformance.rows db)).
  { assert (In row (forItem db)) as I by (rewrite E; now left).
    unfold forItem, rowsFor in I. now apply filter_In in I. }
  assert (M : mine row = true).
  { assert (In row (forItem db)) as J by (rewrite E; now left).
    unfold forItem, rowsFor in J. now apply filter_In in J. }
  unfold update, UserPerformance.updateUserPerformance.
  unfold forItem, rowsFor in E. rewrite E. cbn [UserPerformance.single fst snd].
  fold attempts' correct'. fold mine in E.
  set (upd := fun r : UserPerformance.Row => if (_ =? _)%Z then _ else r).
  assert (Uid : forall r, UserPerformance.id (upd r) = UserPerformance.id r).
  { intros r. unfold upd. now destruct (_ =? _)%Z. }
  assert (Umine : forall r, mine (upd r) = mine r).
  { intros r. unfold upd. now destruct (_ =? _)%Z. }
  assert (Urow : upd row = row').
  { unfold upd. now rewrite Z.eqb_refl. }
  unfold forItem, forOthers, rowsFor, otherRows, keyed.
  cbn [UserPerformance.rows UserPerformance.nextId]. fold mine.
  split; [|split; [|split; [|split]]].
  - rewrite (filter_map_invariant
               (fun r => (UserPerformance.id r =? UserPerformance.id row)%Z)
               upd) by (intros r; now rewrite Uid).
    rewrite (filter_by_id _ _ N I). cbn. now rewrite Urow.
  - rewrite (filter_map_invariant mine upd _ Umine), E. cbn. now rewrite Urow.
  - rewrite (filter_map_invariant (fun r => negb (mine r)) upd)
      by (intros r; now rewrite Umine).
    apply map_unchanged. apply Forall_forall. intros r Ir.
    apply filter_In in Ir as [Ir Mr]. unfold upd.
    destruct (Z.eqb_spec (UserPerformance.id r) (UserPerformance.id row)) as [e|];
      [|reflexivity].
    rewrite (same_id_same_row _ _ _ N Ir I e), M in Mr. discriminate.
  - rewrite map_map. erewrite map_ext; [exact N|]. apply Uid.
  - apply Forall_map. eapply Forall_impl; [|exact B].
    intros r Hr. cbn. now rewrite Uid.
Qed.

End OneItem.

Lemma record_snoc (userId contentType : string) (contentId : Z)
    (db : UserPerformance.Database) (attempts : list UserPerformance.Attempt)
    (a : UserPerformance.Attempt) :
  UserPerformance.record userId contentType contentId db (attempts ++ [a])
  = snd (UserPerformance.updateUserPerformance
           (UserPerformance.record userId contentType contentId db attempts)
           (UserPerformance.at_time a) userId contentType contentId
           (UserPerformance.isCorrect a) (UserPerformance.responseTime a)).
Proof. unfold UserPerformance.record. now rewrite fold_left_app. Qed.




(** X29: an attempt on an item that has one row, on which the correct
    attempts are between 0 and the attempts, returns that row updated: the
    correct attempts are still between 0 and the attempts, the accuracy rate
    is between 0 and 100, and the average response time is, up to the
    rounding to two decimals, between the previous average and the new
    response time. *)
Theorem attempt_keeps_ranges (userId contentType : string) (contentId : Z)
    (db : UserPerformance.Database) (now : number) (correct : bool)
    (time : number) (row : UserPerformance.Row) :
  keyed db -> rowsFor userId contentType contentId db = [row] ->
  0 <= UserPerformance.correct_attempts row ->
  UserPerformance.correct_attempts row <= UserPerformance.attempts row ->
  exists row',
    fst (UserPerformance.updateUserPerformance db now userId contentType
           contentId correct time) = Some row'
    /\ UserPerformance.id row' = UserPerformance.id row
    /\ UserPerformance.attempts row' = UserPerformance.attempts row + 1
    /\ 0 <= UserPerformance.correct_attempts row'
    /\ UserPerformance.correct_attempts row' <= UserPerformance.attempts row'
    /\ 0 <= UserPerformance.accuracy_rate row'
    /\ UserPerformance.accuracy_rate row' <= 100
    /\ Math_min (UserPerformance.avg_response_time row) time - 0.005
       <= UserPerformance.avg_response_time row'
    /\ UserPerformance.avg_response_time row'
       <= Math_max (UserPerformance.avg_response_time row) time + 0.005.
Proof.
  intros K E H0 H1.
  destruct (attempt_updates userId contentType contentId db
              (UserPerformance.mkAttempt correct time now) row E K)
    as (U & _).
  cbn [UserPerformance.at_time UserPerformance.isCorrect
       UserPerformance.responseTime] in U.
  eexists. split; [exact U|].
  cbn [UserPerformance.id UserPerformance.attempts
       UserPerformance.correct_attempts UserPerformance.accuracy_rate
       UserPerformance.avg_response_time].
  set (n := UserPerformance.attempts row) in *.
  set (c := UserPerformance.correct_attempts row) in *.
  set (avg := UserPerformance.avg_response_time row) in *.
  set (b := if correct then 1 else 0).
  assert (Hb : 0 <= b /\ b <= 1) by (unfold b; destruct correct; split; lra).
  destruct (ratio_range (c + b) (n + 1)) as [R0 R1]; try lra.
  destruct (toFixed2_percent ((c + b) / (n + 1) * 100)) as [P0 P1]; try lra.
  destruct (toFixed2_close ((avg * n + time) / (n + 1))) as [T0 T1].
  assert (M : (n + 1) * ((avg * n + time) / (n + 1)) == avg * n + time)
    by (apply Qmult_div_r; lra).
  set (mean := (avg * n + time) / (n + 1)) in *.
  split; [reflexivity|]. split; [reflexivity|].
  split; [lra|]. split; [lra|]. split; [exact P0|]. split; [exact P1|].
  unfold Math_min, Math_max. split; js_cases; nra.
Qed.

Lemma attempt_keeps_ranges_witness :
  exists row',
    fst (UserPerformance.updateUserPerformance
           (UserPerformance.mkDatabase
              [UserPerformance.mkRow 1 "user" "word" 7 2 1 0 50 9000 0 0] 2)
           5 "user" "word" 7 true 12000) = Some row'
    /\ UserPerformance.id row' = 1%Z
    /\ UserPerformance.attempts row' = 2 + 1
    /\ 0 <= UserPerformance.correct_attempts row'
    /\ UserPerformance.correct_attempts row' <= UserPerformance.attempts row'
    /\ 0 <= UserPerformance.accuracy_rate row'
    /\ UserPerformance.accuracy_rate row' <= 100
    /\ Math_min 9000 12000 - 0.005 <= UserPerformance.avg_response_time row'
    /\ UserPerformance.avg_response_time row' <= Math_max 9000 12000 + 0.005.
Proof.
  apply (attempt_keeps_ranges "user" "word" 7
           (UserPerformance.mkDatabase
              [UserPerformance.mkRow 1 "user" "word" 7 2 1 0 50 9000 0 0] 2)
           5 true 12000
           (UserPerformance.mkRow 1 "user" "word" 7 2 1 0 50 9000 0 0)).
  - split.
    + cbn. apply NoDup_cons; [intros []|apply NoDup_nil].
    + cbn. apply Forall_cons; [cbn; lia|apply Forall_nil].
  - reflexivity.
  - cbn. lra.
  - cbn. lra.
Defined.

Lemma single_of_several (l : list UserPerformance.Row) :
  (2 <= List.length l)%nat -> UserPerformance.single l = None.
Proof. destruct l as [|x [|y l]]; cbn; intros H; try lia; reflexivity. Qed.

Lemma duplicate_rows_grow (userId contentType : string) (contentId : Z)
    (db : UserPerformance.Database)
    (attempts : list UserPerformance.Attempt) :
  keyed db ->
  (2 <= List.length (rowsFor userId contentType contentId db))%nat ->
  keyed (UserPerformance.record userId contentType contentId db attempts)
  /\ exists added,
       rowsFor userId contentType contentId
         (UserPerformance.record userId contentType contentId db attempts)
       = rowsFor userId contentType contentId db ++ added
       /\ List.length added = List.length attempts
       /\ otherRows userId contentType contentId
            (UserPerformance.record userId contentType contentId db attempts)
          = otherRows userId contentType contentId db.
Proof.
  intros K H.
  induction attempts as [|a attempts IH] using rev_ind.
  - split; [exact K|]. exists []. cbn. now rewrite app_nil_r.
  - destruct IH as (K1 & added & F & L & O). rewrite record_snoc.
    set (db1 := UserPerformance.record userId contentType contentId db attempts)
      in *.
    destruct (attempt_inserts userId contentType contentId db1 a)
      as (_ & F' & O' & K'); [|exact K1|].
    { apply single_of_several. rewrite F, length_app. lia. }
    split; [exact K'|].
    eexists. split; [rewrite F', F, <- app_assoc; reflexivity|].
    split; [rewrite !length_app, L; reflexivity|congruence].
Qed.

(** X30: once a table with a unique key holds two rows or more for an
    item, none of them is updated any more: every further attempt on the
    item adds a row, after the rows that were there, and leaves the rows of
    the other items as they were. *)
Theorem duplicate_rows_are_never_updated (userId contentType : string)
    (contentId : Z) (db : UserPerformance.Database)
    (attempts : list UserPerformance.Attempt) :
  keyed db ->
  (2 <= List.length (rowsFor userId contentType contentId db))%nat ->
  let db' := UserPerformance.record userId contentType contentId db attempts in
  firstn (List.length (rowsFor userId contentType contentId db))
    (rowsFor userId contentType contentId db')
  = rowsFor userId contentType contentId db
  /\ List.length (rowsFor userId contentType contentId db')
     = (List.length (rowsFor userId contentType contentId db)
        + List.length attempts)%nat
  /\ otherRows userId contentType contentId db'
     = otherRows userId contentType contentId db.
Proof.
  intros K H db'.
  destruct (duplicate_rows_grow userId contentType contentId db attempts K H)
    as (_ & added & F & L & O).
  fold db' in F, O. rewrite F. split; [|split; [|exact O]].
  - rewrite firstn_app, firstn_all, Nat.sub_diag. cbn. apply app_nil_r.
  - rewrite length_app, L. reflexivity.
Qed.

Lemma duplicate_rows_are_never_updated_witness :
  let db :=
    UserPerformance.mkDatabase
      [UserPerformance.mkRow 1 "user" "word" 7 2 1 0 50 9000 0 0;
       UserPerformance.mkRow 2 "user" "word" 7 1 1 0 100 8000 0 0] 3 in
  let attempts := [UserPerformance.mkAttempt true 7000 5] in
  let db' := UserPerformance.record "user" "word" 7 db attempts in
  firstn (List.length (rowsFor "user" "word" 7 db))
    (rowsFor "user" "word" 7 db')
  = rowsFor "user" "word" 7 db
  /\ List.length (rowsFor "user" "word" 7 db')
     = (List.length (rowsFor "user" "word" 7 db) + List.length attempts)%nat
  /\ otherRows "user" "word" 7 db' = otherRows "user" "word" 7 db.
Proof.
  intros db attempts.
  apply (duplicate_rows_are_never_updated "user" "word" 7 db attempts).
  - split.
    + cbn. apply NoDup_cons; [cbn; intuition discriminate|].
      apply NoDup_cons; [intros []|apply NoDup_nil].
    + cbn. apply Forall_cons; [cbn; lia|].
      apply Forall_cons; [cbn; lia|apply Forall_nil].
  - cbn. lia.
Defined.
